(** * Resume-Analyzer-AI: text extraction and response sanitisation

    A shallow embedding of [resume_analyzer_backend/analyzer/views.py]
    (class [AnalyzeResumeView]) and the properties of its text extractor,
    its response sanitiser and its request handler, with the block that
    configures the model client when the module is loaded and the routes
    of [core/urls.py] and [analyzer/urls.py].

    Python values are modelled as follows.
    - [str] is a list of Unicode code points ([N]); the built-in methods the
      view calls ([strip], [startswith], [find], [rfind], [replace], slicing,
      [lower]) are written out with CPython's semantics.
    - [int] is [Z] (so that [find] can answer [-1]).
    - exceptions are values of type [exn]; code that may raise lives in the
      monad [M], which also records the calls made to the libraries and to
      the logger.
    - the libraries the view relies on (PyPDF2, python-docx, the generative
      model client and the [json] decoder) are the fields of the class
      [External]. *)

From Stdlib Require Import Strings.String Strings.Ascii Strings.Byte.
From Stdlib Require Import DecimalString.
From Stdlib Require Import List ZArith NArith Bool Lia.
Import ListNotations.
Local Open Scope Z_scope.

Set Implicit Arguments.

(** ** Python strings *)

Module PyStr.

(** A character is its code point; a string is the list of its
    characters. *)
Abbreviation char := N (only parsing).
Abbreviation pystr := (list N) (only parsing).

(** Code points of an ASCII literal. *)
Definition str (s : string) : pystr :=
  map N_of_ascii (list_ascii_of_string s).

Definition char_eqb (a b : char) : bool := N.eqb a b.

Fixpoint eqb (s t : pystr) : bool :=
  match s, t with
  | [], [] => true
  | a :: s', b :: t' => char_eqb a b && eqb s' t'
  | _, _ => false
  end.

(** [len(s)] *)
Definition len (s : pystr) : Z := Z.of_nat (length s).

(** [bool(s)]: a string is truthy when it is not empty. *)
Definition truthy (s : pystr) : bool :=
  match s with [] => false | _ :: _ => true end.

(** [c.isspace()], the table of CPython's [_PyUnicode_IsWhitespace]. *)
Definition isspace (c : char) : bool :=
  (((9 <=? c) && (c <=? 13)) || ((28 <=? c) && (c <=? 32))
   || (c =? 133) || (c =? 160) || (c =? 5760)
   || ((8192 <=? c) && (c <=? 8202))
   || (c =? 8232) || (c =? 8233) || (c =? 8239) || (c =? 8287)
   || (c =? 12288))%N.

Fixpoint lstrip (s : pystr) : pystr :=
  match s with
  | c :: s' => if isspace c then lstrip s' else s
  | [] => []
  end.

Definition rstrip (s : pystr) : pystr := rev (lstrip (rev s)).

(** [s.strip()] *)
Definition strip (s : pystr) : pystr := rstrip (lstrip s).

(** [s.startswith(p)] *)
Fixpoint startswith (s p : pystr) {struct p} : bool :=
  match p, s with
  | [], _ => true
  | a :: p', b :: s' => char_eqb a b && startswith s' p'
  | _ :: _, [] => false
  end.

(** [s.find(sub)], counting from offset [i]: the lowest index at which
    [sub] occurs, or [-1]. *)
Fixpoint find_from (i : Z) (s sub : pystr) : Z :=
  if startswith s sub then i
  else match s with
       | [] => -1
       | _ :: s' => find_from (i + 1) s' sub
       end.

Definition find (s sub : pystr) : Z := find_from 0 s sub.

(** [s.rfind(sub)]: the highest index at which [sub] occurs, or [-1]. *)
Fixpoint rfind_from (i : Z) (s sub : pystr) : Z :=
  match s with
  | [] => if startswith s sub then i else -1
  | _ :: s' =>
      let r := rfind_from (i + 1) s' sub in
      if 0 <=? r then r
      else if startswith s sub then i else -1
  end.

Definition rfind (s sub : pystr) : Z := rfind_from 0 s sub.

(** [s.replace(old, new)] for a non-empty [old]: the occurrences of [old]
    are taken from the left and do not overlap.  [skip] counts the
    characters of the occurrence being dropped. *)
Fixpoint replace_from (skip : nat) (s old new : pystr) : pystr :=
  match s with
  | [] => []
  | c :: s' =>
      match skip with
      | S k => replace_from k s' old new
      | O =>
          if startswith s old
          then new ++ replace_from (length old - 1)%nat s' old new
          else c :: replace_from 0 s' old new
      end
  end.

(** With an empty [old], Python puts [new] before every character and at
    the end. *)
Definition replace (s old new : pystr) : pystr :=
  match old with
  | [] => flat_map (fun c => new ++ [c]) s ++ new
  | _ :: _ => replace_from 0 s old new
  end.

(** A slice bound, as [PySlice_AdjustIndices] computes it: a negative
    index counts from the end, and the result is clipped to [0..len]. *)
Definition adjust (n i : Z) : Z :=
  if i <? 0 then Z.max (i + n) 0 else Z.min i n.

(** [s[a:b]] *)
Definition slice (s : pystr) (a b : Z) : pystr :=
  let n := len s in
  let a' := adjust n a in
  let b' := adjust n b in
  firstn (Z.to_nat (b' - a')) (skipn (Z.to_nat a') s).

(** [s[a:]] and [s[:b]] *)
Definition slice_from (s : pystr) (a : Z) : pystr := slice s a (len s).
Definition slice_to (s : pystr) (b : Z) : pystr := slice s 0 b.

(** [s.lower()] on the ASCII letters.  Outside ASCII the only code points
    whose lower-case form contains an ASCII letter are U+212A (to [k]) and
    U+0130 (to [i] and a combining dot), so a comparison of the result with
    [.pdf] or [.docx] is not affected by leaving the others unchanged. *)
Definition lower_char (c : char) : char :=
  (if (65 <=? c) && (c <=? 90) then c + 32 else c)%N.

Definition lower (s : pystr) : pystr := map lower_char s.

(** [str(n)] for a non-negative [int]. *)
Definition str_of_int (n : Z) : pystr :=
  str (NilZero.string_of_uint (N.to_uint (Z.to_N n))).

End PyStr.

Import PyStr.

(** ** [os.path.splitext] (posixpath) *)

Module PosixPath.

Definition sep : pystr := str "/".
Definition extsep : pystr := str ".".

(** The loop of [genericpath._splitext] that skips the leading dots of the
    file name; [n] bounds the iterations left ([dotIndex - filenameIndex]). *)
Fixpoint skip_leading_dots (n : nat) (p : pystr) (filenameIndex dotIndex : Z)
  : pystr * pystr :=
  match n with
  | O => (p, slice_to p 0)
  | S n' =>
      if negb (PyStr.eqb (slice p filenameIndex (filenameIndex + 1)) extsep)
      then (slice_to p dotIndex, slice_from p dotIndex)
      else skip_leading_dots n' p (filenameIndex + 1) dotIndex
  end.

Definition splitext (p : pystr) : pystr * pystr :=
  let sepIndex := rfind p sep in
  let dotIndex := rfind p extsep in
  if dotIndex >? sepIndex
  then skip_leading_dots (Z.to_nat (dotIndex - (sepIndex + 1))) p
         (sepIndex + 1) dotIndex
  else (p, slice_to p 0).

End PosixPath.

(** ** Exceptions, logging and library calls *)

(** The exceptions the view distinguishes: [json.JSONDecodeError], which
    [_get_gemini_analysis] catches by name, and every other [Exception].
    Both carry the text [str(e)]. *)
Inductive exn : Type :=
| JSONDecodeError (detail : pystr)
| PyException (msg : pystr).

Definition str_of_exn (e : exn) : pystr :=
  match e with
  | JSONDecodeError detail => detail
  | PyException msg => msg
  end.

Inductive outcome (A : Type) : Type :=
| Return (a : A)
| Raise (e : exn).

Arguments Return {A} a.
Arguments Raise {A} e.

Inductive level : Type := INFO | WARNING | ERROR.

(** What a run of the view does besides computing: the records it sends to
    the logger and the calls it makes to the libraries. *)
Inductive event : Type :=
| Log (lvl : level) (msg : pystr)
| FileRead
| PdfOpen
| PageExtract (index : nat)
| DocxOpen
| ModelCall (prompt : pystr)
| JsonLoads (text : pystr).

(** A computation: the events in the order they happen, and how it ends. *)
Definition M (A : Type) : Type := list event * outcome A.

Definition ret {A} (a : A) : M A := ([], Return a).

Definition raise {A} (e : exn) : M A := ([], Raise e).

Definition bind {A B} (m : M A) (k : A -> M B) : M B :=
  match m with
  | (t, Return a) => let (t', r) := k a in (t ++ t', r)
  | (t, Raise e) => (t, Raise e)
  end.

Notation "x <- m ;; k" := (bind m (fun x => k))
  (at level 61, m at next level, right associativity).
Notation "m ;; k" := (bind m (fun _ => k))
  (at level 61, right associativity).

(** [try: m  except Exception as e: h e] *)
Definition try_except {A} (m : M A) (h : exn -> M A) : M A :=
  match m with
  | (t, Return a) => (t, Return a)
  | (t, Raise e) => let (t', r) := h e in (t ++ t', r)
  end.

(** [try: m  except json.JSONDecodeError as e: h e] *)
Definition try_except_JSONDecodeError {A} (m : M A) (h : exn -> M A) : M A :=
  match m with
  | (t, Raise (JSONDecodeError detail)) =>
      let (t', r) := h (JSONDecodeError detail) in (t ++ t', r)
  | _ => m
  end.

Definition log (lvl : level) (msg : pystr) : M unit := ([Log lvl msg], Return tt).

(** A call to a library, with the outcome the library gives. *)
Definition call {A} (ev : event) (r : outcome A) : M A := ([ev], r).

Definition trace {A} (m : M A) : list event := fst m.
Definition result {A} (m : M A) : outcome A := snd m.

(** The libraries behind the view.  [report] is the type of the object
    [json.loads] builds; [PdfReader] gives, for the bytes of a file, the
    outcome of [extract_text()] on each page of [reader.pages];
    [Document] gives the [text] of each paragraph of [document.paragraphs];
    [generate_content] stands for [model.generate_content(prompt).text]. *)
Class External : Type := {
  report : Type;
  json_loads : pystr -> outcome report;
  PdfReader : list byte -> outcome (list (outcome pystr));
  Document : list byte -> outcome (list pystr);
  generate_content : pystr -> outcome pystr
}.

(** ** The prompt of [_get_gemini_analysis] *)

Module Prompt.

(** A literal of the source in which [~] stands for the double quote. *)
Definition lit (s : string) : pystr :=
  map (fun c => if (c =? 126)%N then 34%N else c) (str s).

(** The text up to the job category. *)
Definition prompt_head : pystr := lit "
        You are an expert Resume Analyzer and ATS (Applicant Tracking System) specialist.
        Your task is to analyze the given resume against the provided job description (if available), job category, and specific job role.
        Provide a comprehensive and actionable analysis in a structured JSON format.

        **Input Data:**
        - **Job Category:** ".

(** The text between the job category and the role. *)
Definition prompt_role : pystr := lit "
        - **Specific Job Role:** ".

(** The text between the role and the job description. *)
Definition prompt_description : pystr := lit "
        - **Job Description (if provided):**
          ".

(** The text between the job description and the resume text. *)
Definition prompt_resume : pystr := lit "
        - **Resume Content:**
          ".

(** The text between the resume text and the role repeated in the schema. *)
Definition prompt_schema : pystr := lit "

        ---

        **Please provide the analysis in a structured JSON format with the following keys and detailed content. Ensure all fields are present, even if empty arrays or ~N/A~ text. Generate natural language text for string fields and lists for array fields. Focus heavily on actionable advice for ATS optimization and content alignment.**

        {
            ~job_role_analyzed~: ~".

(** The text after the role repeated in the schema. *)
Definition prompt_tail : pystr := lit "~,  # Dynamically includes the role provided as input
            ~overall_fit_score~: ~A numerical score (0-100) indicating the overall suitability and direct match of the resume for the specified job role and description. Higher score means better alignment with key requirements.~,
            ~summary_of_fit~: ~A concise (2-4 sentences) general paragraph summarizing the resume's overall strengths and main areas for improvement related to the target role. Focus on how well it presents the candidate for the specific job.~,

            ~professional_profile_analysis~: ~A detailed analysis (2-3 paragraphs) of the resume's professional summary/objective and overall presentation. Evaluate its conciseness, impact, and immediate relevance to the target job. Advise on clarity, keyword integration, and whether it effectively hooks a recruiter.~,
            ~skills_analysis~: ~A detailed analysis (2-3 paragraphs) of the skills section. Assess the relevance, breadth, and depth of listed skills against the job role and description. Highlight any critical missing skills or areas where skill demonstration could be stronger (e.g., through projects or achievements). Suggest integrating skills within experience descriptions for better context.~,
            ~experience_analysis~: ~A detailed analysis (3-4 paragraphs) of the work experience section. Evaluate whether achievements are quantifiable and directly relevant to the job. Provide specific advice on transforming responsibilities into accomplishments using the STAR method (Situation, Task, Action, Result) to demonstrate impact. Comment on the use of action verbs and keywords within descriptions.~,
            ~education_analysis~: ~A detailed analysis (1-2 paragraphs) of the education section. Comment on relevance, completeness, and any notable academic achievements, relevant coursework, or certifications. Suggest how to align educational background better with the specific career goal if needed.~,

            ~ats_optimization_score~: ~A numerical score (0-100) indicating how well the resume is optimized for Applicant Tracking Systems. Consider keyword density, standard section headers, font choices (implied by parse-ability), use of bullet points vs. paragraphs, and general resume scannability. Higher score means easier parsing by ATS.~,
            ~ats_optimization_assessment~: ~A detailed paragraph (2-3 paragraphs) explaining the ATS optimization score. Highlight specific formatting issues that might hinder ATS parsing (e.g., complex layouts, heavy graphics, non-standard fonts that convert poorly) and suggest immediate, actionable fixes. Emphasize the importance of clear, parsable sections and relevant keyword usage for ATS.~,

            ~role_alignment_analysis~: ~A detailed analysis (2-3 paragraphs) specifically assessing how well the resume's content directly aligns with the duties, responsibilities, and qualifications outlined in the job description or standard expectations for the specified role. Provide concrete examples of strong alignment and significant misalignments, offering tailored advice on how to bridge those gaps effectively.~,

            ~strengths~: [
                ~Specific, strong relevant skills/experiences identified from the resume that directly match job requirements. (e.g., 'Proficiency in Python and machine learning, directly addressing AI Engineer requirements.')~,
                ~Demonstrated impact through quantifiable achievements using strong action verbs. (e.g., 'Increased data processing efficiency by 15% in previous role.')~,
                ~Clear and standard resume formatting that is ATS-friendly.~
            ],
            ~areas_for_improvement~: [
                ~Actionable advice on integrating more specific keywords from the job description into experience bullet points.~,
                ~Suggest adding a 'Projects' section to showcase practical application of skills.~,
                ~Advise on quantifying achievements with numbers, percentages, or results where currently vague.~,
                ~Recommend clarifying career objective/summary to be more role-specific.~,
                ~Suggest using more robust action verbs at the start of bullet points.~,
                ~Consider reordering sections to highlight most relevant experience first.~
            ],
            ~missing_keywords~: [
                ~Crucial keyword from job description (e.g., 'Containerization' if it's key and absent)~,
                ~Important skill from role expectations (e.g., 'Cloud Security Best Practices' if relevant and not found)~
            ],
            ~suggested_summary~: ~A concise (2-3 sentences) professional summary suggestion tailored specifically for the provided job role, leveraging the resume's strengths and incorporating key terms for impact. This summary should act as a compelling elevator pitch.~,
            ~recommended_courses~: [
                { ~name~: ~Course Title 1 (e.g., 'Advanced React Development')~, ~provider~: ~Platform (e.g., Coursera, Udemy)~, ~link~: ~https://example.com/course1~ },
                { ~name~: ~Course Title 2 (e.g., 'Certified Cloud Practitioner')~, ~provider~: ~Platform (e.g., AWS, edX)~, ~link~: ~https://example.com/course2~ }
            ],
            ~ats_keywords_found~: [
                ~List of top 10-15 highly relevant keywords from the job description (or role expectations) found in the resume, indicating good ATS match. (e.g., 'JavaScript', 'SQL', 'Agile Methodologies')~
            ],
            ~ats_keywords_missing~: [
                ~List of top 10-15 important keywords from the job description (or role expectations) *not* found in the resume, that are critical for ATS matching and human review. (e.g., 'CI/CD Pipelines', 'Microservices Architecture', 'AWS Lambda')~
            ],
            ~potential_interview_questions~: [
                ~Question 1: Based on strengths/gaps, e.g., 'Can you elaborate on your experience with X, as mentioned in the job description, and how it directly applies to this role?'~,
                ~Question 2: 'Your resume mentions Y, but the role places a strong emphasis on Z. How do you plan to develop your skills in Z to meet the job requirements?'~,
                ~Question 3: 'Describe a situation where you faced a significant technical challenge and how you overcame it, demonstrating your problem-solving skills and resilience.'~,
                ~Question 4: 'Based on your experience, how do you ensure your projects are completed on time and within budget?'~
            ]
        }

        Ensure the response is valid JSON and directly follows the specified structure. Do not include any additional text or formatting outside the JSON object.
        If any section's data is not applicable or cannot be generated, use appropriate placeholders like 'N/A', 0, or empty arrays to maintain the JSON structure.
        The overall_fit_score and ats_optimization_score should always be numerical values between 0 and 100.
        ".

Definition no_description : pystr :=
  str "No specific job description provided. Analyze based on general industry standards for the specified Job Category and Specific Job Role.".

(** The f-string of lines 137 to 208. *)
Definition prompt (resume_text job_description job_category specific_role : pystr)
  : pystr :=
  prompt_head ++ job_category
  ++ prompt_role ++ specific_role
  ++ prompt_description
  ++ (if truthy job_description then job_description else no_description)
  ++ prompt_resume ++ resume_text
  ++ prompt_schema ++ specific_role
  ++ prompt_tail.

End Prompt.

(** ** The view *)

(** [request.FILES.get('resume_file')]: a Django [UploadedFile], of which the
    view uses [name] and [read()]. *)
Record UploadedFile : Type := {
  name : pystr;
  read : outcome (list byte)
}.

(** Django's [File.__bool__] is [bool(self.name)]. *)
Definition file_truthy (f : UploadedFile) : bool := truthy (name f).

(** The multipart form: the file field and the three text fields, each of
    which may be absent. *)
Record Request : Type := {
  FILES_resume_file : option UploadedFile;
  data_job_description : option pystr;
  data_job_category : option pystr;
  data_specific_role : option pystr
}.

(** [d.get(key, default)]; also the string behind a value that is known
    not to be [None]. *)
Definition get (field : option pystr) (default : pystr) : pystr :=
  match field with
  | Some v => v
  | None => default
  end.

(** [rest_framework.response.Response]: the body, a dict with the keys
    [success], [message] and, on success, [report]; and the status. *)
Record Response (R : Type) : Type := {
  success : bool;
  message : pystr;
  report_of : option R;
  status : Z
}.

Definition HTTP_200_OK : Z := 200.
Definition HTTP_400_BAD_REQUEST : Z := 400.
Definition HTTP_500_INTERNAL_SERVER_ERROR : Z := 500.

(** [not resume_text] for a value that is [None] or a string. *)
Definition falsy (v : option pystr) : bool :=
  match v with
  | None => true
  | Some s => negb (truthy s)
  end.

Definition newline : pystr := str (String (ascii_of_nat 10) EmptyString).

Definition fence_json : pystr := str "```json".
Definition fence : pystr := str "```".

Module AnalyzeResumeView.

Section View.

Context {E : External}.

(** The loop over [reader.pages] (lines 110 to 113). *)
Fixpoint pdf_pages (index : nat) (pages : list (outcome pystr)) (text : pystr)
  : M pystr :=
  match pages with
  | [] => ret text
  | page :: pages' =>
      extracted_page_text <- call (PageExtract index) page ;;
      pdf_pages (S index) pages'
        (if truthy extracted_page_text
         then text ++ (extracted_page_text ++ newline)
         else text)
  end.

(** The loop over [document.paragraphs] (lines 116 and 117). *)
Definition docx_paragraphs (paragraphs : list pystr) (text : pystr) : pystr :=
  fold_left (fun text paragraph_text => text ++ (paragraph_text ++ newline))
    paragraphs text.

(** The [try] block of lines 104 to 124.  [None] is the [return None] of
    either the [else] branch or the handler; [Some text] falls through to
    line 125. *)
Definition extract_try (resume_file : UploadedFile) (file_extension text : pystr)
  : M (option pystr) :=
  try_except
    (file_content_io <- call FileRead (read resume_file) ;;
     if PyStr.eqb file_extension (str ".pdf") then
       pages <- call PdfOpen (PdfReader file_content_io) ;;
       text <- pdf_pages 0 pages text ;;
       ret (Some text)
     else if PyStr.eqb file_extension (str ".docx") then
       paragraphs <- call DocxOpen (Document file_content_io) ;;
       ret (Some (docx_paragraphs paragraphs text))
     else
       log WARNING
         (str "Unsupported file type for text extraction: " ++ file_extension) ;;
       ret None)
    (fun e =>
       log ERROR
         (str "Error extracting text from " ++ name resume_file ++ str " ("
          ++ file_extension ++ str "): " ++ str_of_exn e) ;;
       ret None).

Definition _extract_text_from_resume (resume_file : UploadedFile)
  : M (option pystr) :=
  let file_extension := lower (snd (PosixPath.splitext (name resume_file))) in
  let text := [] in
  r <- extract_try resume_file file_extension text ;;
  match r with
  | None => ret None
  | Some text => ret (Some (strip text))
  end.

(** Lines 213 to 228: the text handed to [json.loads]. *)
Definition candidate (text_response : pystr) : M pystr :=
  if startswith (strip text_response) fence_json then
    let json_start := find text_response fence_json + len fence_json in
    let json_end := rfind text_response fence in
    if json_end >? json_start then
      ret (strip (slice text_response json_start json_end))
    else
      log WARNING (str "JSON markdown block started but not properly closed. Attempting to parse full text.") ;;
      ret (strip (replace (replace text_response fence_json []) fence []))
  else if startswith (strip text_response) fence then
    let json_start := find text_response fence + len fence in
    let json_end := rfind text_response fence in
    if json_end >? json_start then
      ret (strip (slice text_response json_start json_end))
    else
      log WARNING (str "Generic markdown block started but not properly closed. Attempting to parse full text.") ;;
      ret (strip (replace text_response fence []))
  else ret text_response.

(** Lines 230 to 236. *)
Definition parse_report (text_response : pystr) : M report :=
  try_except_JSONDecodeError
    (parsed_report <- call (JsonLoads text_response) (json_loads text_response) ;;
     ret parsed_report)
    (fun e =>
       log ERROR (str "Failed to parse Gemini response as JSON: " ++ str_of_exn e) ;;
       log ERROR (str "Raw Gemini response (attempted parse):" ++ newline
                  ++ text_response) ;;
       raise (PyException
                (str "AI response format error: Could not parse AI response as JSON. Details: "
                 ++ str_of_exn e ++ str ". Raw response start: "
                 ++ slice_to text_response 500 ++ str "..."))).

(** The response sanitiser: lines 213 to 236 of [_get_gemini_analysis]. *)
Definition sanitize (text_response : pystr) : M report :=
  text_response <- candidate text_response ;;
  parse_report text_response.

Definition _get_gemini_analysis
  (resume_text job_description job_category specific_role : pystr) : M report :=
  let prompt :=
    Prompt.prompt resume_text job_description job_category specific_role in
  log INFO (str "Sending prompt to Gemini API with detailed request...") ;;
  text_response <- call (ModelCall prompt) (generate_content prompt) ;;
  sanitize text_response.

Definition no_file_response : Response report :=
  {| success := false;
     message := str "No resume file provided. Please upload a PDF or DOCX.";
     report_of := None;
     status := HTTP_400_BAD_REQUEST |}.

Definition no_text_response : Response report :=
  {| success := false;
     message := str "Could not extract text from resume file. Please ensure it's a valid PDF or DOCX and not scanned image.";
     report_of := None;
     status := HTTP_400_BAD_REQUEST |}.

Definition success_response (r : report) : Response report :=
  {| success := true;
     message := str "Analysis complete.";
     report_of := Some r;
     status := HTTP_200_OK |}.

Definition error_response (e : exn) : Response report :=
  {| success := false;
     message := str "An error occurred during analysis: " ++ str_of_exn e
                ++ str ". Check server logs for details.";
     report_of := None;
     status := HTTP_500_INTERNAL_SERVER_ERROR |}.

(** Steps 2 to 4 of [post], for the file found in the request. *)
Definition post_file (request : Request) (resume_file : UploadedFile)
  : M (Response report) :=
  let job_description := get (data_job_description request) [] in
  let job_category := get (data_job_category request) (str "General") in
  let specific_role := get (data_specific_role request) (str "Applicant") in
  log INFO (str "Job Description length: " ++ str_of_int (len job_description)
            ++ str " chars.") ;;
  log INFO (str "Job Category: " ++ job_category ++ str ", Specific Role: "
            ++ specific_role) ;;
  resume_text <- _extract_text_from_resume resume_file ;;
  if falsy resume_text then
    log ERROR (str "Failed to extract text from resume.") ;;
    ret no_text_response
  else
    let resume_text := get resume_text [] in
    log INFO (str "Extracted " ++ str_of_int (len resume_text)
              ++ str " characters from resume.") ;;
    try_except
      (report <- _get_gemini_analysis resume_text job_description
                   job_category specific_role ;;
       log INFO (str "Successfully received analysis from Gemini API.") ;;
       ret (success_response report))
      (fun e =>
         log ERROR (str "Error during Gemini API call:") ;;
         ret (error_response e)).

Definition post (request : Request) : M (Response report) :=
  log INFO (str "Received POST request for resume analysis.") ;;
  match FILES_resume_file request with
  | Some resume_file =>
      if file_truthy resume_file then post_file request resume_file
      else
        log WARNING (str "No resume file provided in the request.") ;;
        ret no_file_response
  | None =>
      log WARNING (str "No resume file provided in the request.") ;;
      ret no_file_response
  end.

(** [post] from the request as it arrives.  [request.FILES] on line 55
    parses the body the first time it is asked for, and raises when there
    is no parser for the content type or when the form is malformed; the
    line is in no [try], so the exception leaves [post], after the record
    of line 52.  When the body parses, [request.data] on lines 64 to 66 is
    there already. *)
Definition post_lazy (body : outcome Request) : M (Response report) :=
  match body with
  | Return request => post request
  | Raise e =>
      log INFO (str "Received POST request for resume analysis.") ;;
      raise e
  end.

End View.

End AnalyzeResumeView.

(** ** A reference JSON decoder

    The decoder of the [json] module, after [json/decoder.py] and
    [json/scanner.py]: the grammar, the error messages and their positions.
    It instantiates [json_loads] where a concrete decoder is needed. *)

Module Json.

#[warnings="-register-all"] Inductive value : Type :=
| Null
| Bool (b : bool)
| Int (n : Z)
| Float (lexeme : pystr)
| Str (s : pystr)
| Array (items : list value)
| Object (members : list (pystr * value)).

(** A result of a scanning function: a value and the text after it, or an
    error message with the number of characters left at the position it is
    reported for.  [Exhausted] is the end of the fuel. *)
Inductive res (A : Type) : Type :=
| Ok (a : A)
| Err (msg : pystr) (remaining : nat)
| Exhausted.

Arguments Ok {A} a.
Arguments Err {A} msg remaining.
Arguments Exhausted {A}.

(** The characters of [WHITESPACE_STR]: space, tab, line feed, carriage
    return. *)
Definition whitespace (c : char) : bool :=
  ((c =? 32) || (c =? 9) || (c =? 10) || (c =? 13))%N.

(** [WHITESPACE.match(s, end).end()] *)
Fixpoint skip (s : pystr) : pystr :=
  match s with
  | c :: s' => if whitespace c then skip s' else s
  | [] => []
  end.

Definition is_digit (c : char) : bool := ((48 <=? c) && (c <=? 57))%N.

(** The longest run of decimal digits at the head of [s], and the rest. *)
Fixpoint digits (s : pystr) : pystr * pystr :=
  match s with
  | c :: s' =>
      if is_digit c then let (ds, rest) := digits s' in (c :: ds, rest)
      else ([], s)
  | [] => ([], [])
  end.

(** The optional fraction of [NUMBER_RE]: a dot and at least one digit. *)
Definition fraction (s : pystr) : pystr * pystr :=
  match s with
  | c :: s' =>
      if (c =? 46)%N then
        match digits s' with
        | ([], _) => ([], s)
        | (ds, rest) => (c :: ds, rest)
        end
      else ([], s)
  | [] => ([], s)
  end.

(** The optional exponent of [NUMBER_RE]: [e] or [E], an optional sign and
    at least one digit. *)
Definition exponent (s : pystr) : pystr * pystr :=
  match s with
  | e :: s' =>
      if ((e =? 101) || (e =? 69))%N then
        match s' with
        | sign :: s'' =>
            if ((sign =? 45) || (sign =? 43))%N then
              match digits s'' with
              | ([], _) => ([], s)
              | (ds, rest) => (e :: sign :: ds, rest)
              end
            else
              match digits s' with
              | ([], _) => ([], s)
              | (ds, rest) => (e :: ds, rest)
              end
        | [] => ([], s)
        end
      else ([], s)
  | [] => ([], s)
  end.

(** The integer part of [NUMBER_RE] without its sign: a zero, or a digit
    other than zero followed by digits. *)
Definition integer (s : pystr) : option (pystr * pystr) :=
  match s with
  | c :: s' =>
      if (c =? 48)%N then Some ([c], s')
      else if is_digit c then let (ds, rest) := digits s' in Some (c :: ds, rest)
      else None
  | [] => None
  end.

(** [int(lexeme)] for a run of decimal digits. *)
Definition int_of_digits (ds : pystr) : Z :=
  fold_left (fun acc c => 10 * acc + (Z.of_N c - 48)) ds 0.

(** [NUMBER_RE.match]: the number at the head of [s]. *)
Definition match_number (s : pystr) : option (value * pystr) :=
  let (negative, s1) :=
    match s with
    | c :: s' => if (c =? 45)%N then (true, s') else (false, s)
    | [] => (false, s)
    end in
  match integer s1 with
  | None => None
  | Some (int, s2) =>
      let (frac, s3) := fraction s2 in
      let (exp, s4) := exponent s3 in
      match frac, exp with
      | [], [] =>
          Some (Int (if negative then - int_of_digits int else int_of_digits int), s4)
      | _, _ =>
          Some (Float ((if negative then [45%N] else []) ++ int ++ frac ++ exp), s4)
      end
  end.

Definition hex_digit (c : char) : option N :=
  (if (48 <=? c) && (c <=? 57) then Some (c - 48)
   else if (97 <=? c) && (c <=? 102) then Some (c - 87)
   else if (65 <=? c) && (c <=? 70) then Some (c - 55)
   else None)%N.

(** [_decode_uXXXX] *)
Definition decode_uXXXX (a b c d : char) : option N :=
  match hex_digit a, hex_digit b, hex_digit c, hex_digit d with
  | Some x, Some y, Some z, Some w => Some (((x * 16 + y) * 16 + z) * 16 + w)%N
  | _, _, _, _ => None
  end.

(** The table [BACKSLASH]. *)
Definition backslash (c : char) : option char :=
  (if c =? 34 then Some 34
   else if c =? 92 then Some 92
   else if c =? 47 then Some 47
   else if c =? 98 then Some 8
   else if c =? 102 then Some 12
   else if c =? 110 then Some 10
   else if c =? 114 then Some 13
   else if c =? 116 then Some 9
   else None)%N.

Definition high_surrogate (uni : N) : bool :=
  ((55296 <=? uni) && (uni <=? 56319))%N.

Definition low_surrogate (uni : N) : bool :=
  ((56320 <=? uni) && (uni <=? 57343))%N.

Definition join_surrogates (uni uni2 : N) : N :=
  (65536 + N.lor (N.shiftl (uni - 55296) 10) (uni2 - 56320))%N.

(** The scanner of strings reads one character at a time.  Its states:
    in plain text; after a backslash; [k] digits into an escape of four
    hexadecimal digits, with the value read so far and the high surrogate
    that came just before the escape, if any; at the end of such an escape,
    whose character is given out once the next one is seen; after a high
    surrogate and a backslash. *)
Inductive lex : Type :=
| Plain
| Escape
| Hex (k : nat) (acc : N) (high : option N)
| Decoded (high : option N) (uni : N)
| Paired (high : N).

(** What reading one character does: go on in a new state, end the string,
    or fail; [out] is what is added to the content. *)
Inductive move : Type :=
| Next (out : pystr) (st : lex)
| Stop (out : pystr)
| Fail (msg : pystr) (remaining : nat).

(** A character in plain text; [here] is the number of characters left
    at it. *)
Definition plain (here : nat) (out : pystr) (c : char) : move :=
  if (c =? 34)%N then Stop out
  else if (c =? 92)%N then Next out Escape
  else if (c <? 32)%N then Fail (str "Invalid control character at") here
  else Next (out ++ [c]) Plain.

(** A character after a backslash. *)
Definition escape (here : nat) (out : pystr) (c : char) : move :=
  if (c =? 117)%N then Next out (Hex 0 0 None)
  else match backslash c with
       | Some ch => Next (out ++ [ch]) Plain
       | None => Fail (str "Invalid \escape") (S here)
       end.

(** A character after an escape that gave [uni]: a high surrogate waits
    for the escape of a low one. *)
Definition fresh (here : nat) (out : pystr) (uni : N) (c : char) : move :=
  if high_surrogate uni && (c =? 92)%N then Next out (Paired uni)
  else plain here (out ++ [uni]) c.

(** An error in an escape of four digits is reported at its [u], which is
    [k + 1] characters before the digit that comes after [k] others. *)
Definition step (here : nat) (st : lex) (c : char) : move :=
  match st with
  | Plain => plain here [] c
  | Escape => escape here [] c
  | Hex k acc high =>
      match hex_digit c with
      | Some d =>
          if (k =? 3)%nat then Next [] (Decoded high (acc * 16 + d))
          else Next [] (Hex (S k) (acc * 16 + d) high)
      | None => Fail (str "Invalid \uXXXX escape") (here + k + 1)
      end
  | Decoded (Some high) uni =>
      if low_surrogate uni then plain here [join_surrogates high uni] c
      else fresh here [high] uni c
  | Decoded None uni => fresh here [] uni c
  | Paired high =>
      if (c =? 117)%N then Next [] (Hex 0 0 (Some high))
      else escape here [high] c
  end.

Definition prepend (out : pystr) (r : res (list N * list N))
  : res (list N * list N) :=
  match r with
  | Ok (content, rest) => Ok (out ++ content, rest)
  | Err msg k => Err msg k
  | Exhausted => Exhausted
  end.

Fixpoint run (start : nat) (st : lex) (s : pystr) : res (list N * list N) :=
  match s with
  | [] =>
      match st with
      | Hex k _ _ => Err (str "Invalid \uXXXX escape") (k + 1)
      | Decoded _ _ => Err (str "Invalid \uXXXX escape") 5
      | _ => Err (str "Unterminated string starting at") start
      end
  | c :: s' =>
      match step (length s) st c with
      | Next out st' => prepend out (run start st' s')
      | Stop out => Ok (out, s')
      | Fail msg k => Err msg k
      end
  end.

(** [scanstring] in strict mode, as the scanner of [_json] does it, from
    the character after the opening quote; [start] is the number of
    characters left at that quote. *)
Definition scanstring (start : nat) (s : pystr) : res (list N * list N) :=
  run start Plain s.

Definition starts (s : pystr) (word : string) : bool := startswith s (str word).

(** The branches of [_scan_once] that do not recurse: the constants and the
    numbers, tried in the order of the source. *)
Definition scan_atom (s : pystr) : res (value * pystr) :=
  if starts s "null" then Ok (Null, skipn 4 s)
  else if starts s "true" then Ok (Bool true, skipn 4 s)
  else if starts s "false" then Ok (Bool false, skipn 5 s)
  else
    match match_number s with
    | Some r => Ok r
    | None =>
        if starts s "NaN" then Ok (Float (str "NaN"), skipn 3 s)
        else if starts s "Infinity" then Ok (Float (str "Infinity"), skipn 8 s)
        else if starts s "-Infinity" then Ok (Float (str "-Infinity"), skipn 9 s)
        else Err (str "Expecting value") (length s)
    end.

(** [d[key] = v] on the items of a dict, which keeps the place of a key
    that is already there. *)
Fixpoint set_item (d : list (pystr * value)) (key : pystr) (v : value)
  : list (pystr * value) :=
  match d with
  | [] => [(key, v)]
  | (k, w) :: d' =>
      if PyStr.eqb k key then (k, v) :: d' else (k, w) :: set_item d' key v
  end.

(** [dict(pairs)] *)
Definition dict (pairs : list (pystr * value)) : list (pystr * value) :=
  fold_left (fun d kv => set_item d (fst kv) (snd kv)) pairs [].

Definition expecting_name : pystr :=
  str "Expecting property name enclosed in double quotes".

(** [_scan_once], [JSONArray] and [JSONObject].  [elements] is the loop of
    [JSONArray], entered before a value; [members] is the loop of
    [JSONObject], entered after the opening quote of a key.  The accumulators
    hold what was read so far, last first.  Every call of one of the three
    by another uses up one unit of [fuel]. *)
Fixpoint scan_once (fuel : nat) (s : pystr) {struct fuel} : res (value * pystr) :=
  match fuel with
  | O => Exhausted
  | S fuel' =>
      match s with
      | [] => Err (str "Expecting value") 0
      | c :: s' =>
          if (c =? 34)%N then
            match scanstring (length s) s' with
            | Ok (content, rest) => Ok (Str content, rest)
            | Err msg k => Err msg k
            | Exhausted => Exhausted
            end
          else if (c =? 123)%N then
            match skip s' with
            | [] => Err expecting_name 0
            | d :: rest =>
                if (d =? 125)%N then Ok (Object [], rest)
                else if (d =? 34)%N then members fuel' rest []
                else Err expecting_name (S (length rest))
            end
          else if (c =? 91)%N then
            match skip s' with
            | [] => elements fuel' [] []
            | d :: rest =>
                if (d =? 93)%N then Ok (Array [], rest)
                else elements fuel' (d :: rest) []
            end
          else scan_atom s
      end
  end

with elements (fuel : nat) (s : pystr) (values : list value) {struct fuel}
  : res (value * pystr) :=
  match fuel with
  | O => Exhausted
  | S fuel' =>
      match scan_once fuel' s with
      | Ok (v, rest) =>
          match skip rest with
          | [] => Err (str "Expecting ',' delimiter") 0
          | d :: rest' =>
              if (d =? 93)%N then Ok (Array (rev (v :: values)), rest')
              else if (d =? 44)%N then elements fuel' (skip rest') (v :: values)
              else Err (str "Expecting ',' delimiter") (S (length rest'))
          end
      | Err msg k => Err msg k
      | Exhausted => Exhausted
      end
  end

with members (fuel : nat) (s : pystr) (pairs : list (pystr * value)) {struct fuel}
  : res (value * pystr) :=
  match fuel with
  | O => Exhausted
  | S fuel' =>
      match scanstring (S (length s)) s with
      | Ok (key, rest) =>
          match skip rest with
          | [] => Err (str "Expecting ':' delimiter") 0
          | c :: rest1 =>
              if negb (c =? 58)%N
              then Err (str "Expecting ':' delimiter") (S (length rest1))
              else
                match scan_once fuel' (skip rest1) with
                | Ok (v, rest2) =>
                    match skip rest2 with
                    | [] => Err (str "Expecting ',' delimiter") 0
                    | d :: rest3 =>
                        if (d =? 125)%N
                        then Ok (Object (dict (rev ((key, v) :: pairs))), rest3)
                        else if negb (d =? 44)%N
                        then Err (str "Expecting ',' delimiter") (S (length rest3))
                        else
                          match skip rest3 with
                          | [] => Err expecting_name 0
                          | q :: rest4 =>
                              if (q =? 34)%N
                              then members fuel' rest4 ((key, v) :: pairs)
                              else Err expecting_name (S (length rest4))
                          end
                    end
                | Err msg k => Err msg k
                | Exhausted => Exhausted
                end
          end
      | Err msg k => Err msg k
      | Exhausted => Exhausted
      end
  end.

(** [JSONDecodeError.__init__]: the message with the line, the column and
    the index of the position [pos] in [doc]. *)
Definition line_of (doc : pystr) (pos : nat) : Z :=
  Z.of_nat (count_occ N.eq_dec (firstn pos doc) 10%N) + 1.

Definition column_of (doc : pystr) (pos : nat) : Z :=
  let r := rfind (firstn pos doc) newline in
  if r <? 0 then Z.of_nat pos + 1 else Z.of_nat pos - r.

Definition decode_error (msg doc : pystr) (pos : nat) : exn :=
  JSONDecodeError
    (msg ++ str ": line " ++ str_of_int (line_of doc pos)
     ++ str " column " ++ str_of_int (column_of doc pos)
     ++ str " (char " ++ str_of_int (Z.of_nat pos) ++ str ")").

(** [json.loads(s)] for a [str]: [JSONDecoder.decode] passes over the
    whitespace before the value and after it, and nothing may follow.  An
    error found with [k] characters left is reported at that character.
    The fuel is more than the scanner uses on any text. *)
Definition loads (s : pystr) : outcome value :=
  if startswith s [65279%N]
  then Raise (decode_error (str "Unexpected UTF-8 BOM (decode using utf-8-sig)") s 0)
  else
    let position k := (length s - k)%nat in
    match scan_once (S (2 * length s)) (skip s) with
    | Ok (v, rest) =>
        match skip rest with
        | [] => Return v
        | _ :: _ => Raise (decode_error (str "Extra data") s
                             (position (length (skip rest))))
        end
    | Err msg k => Raise (decode_error msg s (position k))
    | Exhausted => Raise (PyException (str "RecursionError"))
    end.

End Json.

(** The view run with the reference decoder, for a given answer of the
    other libraries. *)
Definition reference
  (pdf : list byte -> outcome (list (outcome pystr)))
  (docx : list byte -> outcome (list pystr))
  (model : pystr -> outcome pystr) : External :=
  {| report := Json.value;
     json_loads := Json.loads;
     PdfReader := pdf;
     Document := docx;
     generate_content := model |}.

(** ** Vocabulary of the properties *)

(** A text made of whitespace only (or empty). *)
Definition blank (s : pystr) : Prop := Forall (fun c => isspace c = true) s.

(** [sub] occurs in [s] at index [i]. *)
Definition occurs_at (sub s : pystr) (i : nat) : Prop :=
  exists before after, s = before ++ sub ++ after /\ length before = i.

(** [sub] is a part of [s]. *)
Definition infix (sub s : pystr) : Prop := exists i, occurs_at sub s i.

(** Every text of [ts] followed by a newline, in order. *)
Definition lines (ts : list pystr) : pystr :=
  concat (map (fun t => t ++ newline) ts).

(** The characters a JSON value can begin with: a brace, a bracket, a
    quote, a minus sign, a digit, and the first letters of [true], [false],
    [null], [NaN] and [Infinity]. *)
Definition opens_value (c : char) : bool :=
  ((c =? 123) || (c =? 91) || (c =? 34) || (c =? 45)
   || ((48 <=? c) && (c <=? 57))
   || (c =? 116) || (c =? 102) || (c =? 110) || (c =? 78) || (c =? 73))%N.

(** What the sanitiser needs of [json.loads]: a text that decodes still
    decodes, to the same value, without the whitespace around it, and its
    first character after that whitespace begins a value. *)
Record decoder_contract (E : External) : Prop := {
  loads_strip :
    forall s v, json_loads s = Return v -> json_loads (strip s) = Return v;
  loads_opens :
    forall s v, json_loads s = Return v ->
                exists c rest, strip s = c :: rest /\ opens_value c = true
}.

(** The extension the extractor goes by (line 101). *)
Definition extension (f : UploadedFile) : pystr :=
  lower (snd (PosixPath.splitext (name f))).

(** A library raises while the bytes of [f] are read or parsed: [read()]
    itself, the opening of the document, or [extract_text()] on one of
    the pages. *)
Definition parsing_raises {E : External} (f : UploadedFile) : Prop :=
  (exists e, read f = Raise e)
  \/ (exists content, read f = Return content
       /\ ((extension f = str ".pdf"
            /\ ((exists e, PdfReader content = Raise e)
                \/ (exists pages e, PdfReader content = Return pages
                                    /\ In (Raise e) pages)))
           \/ (extension f = str ".docx"
               /\ exists e, Document content = Raise e))).

(** The events of the extractor: it reads the file, calls the document
    libraries and logs. *)
Definition extraction_event (ev : event) : Prop :=
  match ev with
  | ModelCall _ | JsonLoads _ => False
  | _ => True
  end.

(** The calls that parse the content of the file. *)
Definition parsing_event (ev : event) : Prop :=
  match ev with
  | PdfOpen | PageExtract _ | DocxOpen => True
  | _ => False
  end.

(** The text the sanitiser hands to [json.loads]. *)
Definition candidate_text {E : External} (text_response : pystr) : pystr :=
  match result (AnalyzeResumeView.candidate text_response) with
  | Return text => text
  | Raise _ => text_response
  end.

(** The three text fields of the form, with their defaults (lines 64 to
    66). *)
Definition job_description (request : Request) : pystr :=
  get (data_job_description request) [].
Definition job_category (request : Request) : pystr :=
  get (data_job_category request) (str "General").
Definition specific_role (request : Request) : pystr :=
  get (data_specific_role request) (str "Applicant").

(** The prompt [post] has the model answer for the text of a resume. *)
Definition prompt_of (request : Request) (resume_text : pystr) : pystr :=
  Prompt.prompt resume_text (job_description request) (job_category request)
    (specific_role request).

(** A text made of the whitespace of JSON only (or empty). *)
Definition wsblank (s : pystr) : Prop :=
  Forall (fun c => Json.whitespace c = true) s.

(** A text that ends with a decimal digit. *)
Definition ends_digit (l : pystr) : Prop :=
  exists pre d, l = pre ++ [d] /\ Json.is_digit d = true.

(** The text [rest] is what is left of [s] after a value whose last
    character is not whitespace. *)
Definition consumed (s rest : pystr) : Prop :=
  exists pre d, s = pre ++ d :: rest /\ isspace d = false.

(** [t] is the end of [s]. *)
Definition suffix (t s : pystr) : Prop := exists p, s = p ++ t.

(** The sanitiser falls back to [text] for the answer [raw]: [text] is the
    candidate, no fence is left in it, [json.loads] is called on it, and
    what it decodes to is what the sanitiser returns. *)
Definition falls_back_to {E : External} (raw text : pystr) : Prop :=
  candidate_text raw = text
  /\ (forall n, ~ occurs_at fence text n)
  /\ In (JsonLoads text) (trace (AnalyzeResumeView.sanitize raw))
  /\ (forall v, json_loads text = Return v ->
                result (AnalyzeResumeView.sanitize raw) = Return v).

(** C7 as the specification words it: when at least one page has a text,
    the extractor returns a string that is not empty and has the text of
    every such page as a part. *)
Definition pdf_text_claim {E : External} (f : UploadedFile)
  (texts : list pystr) : Prop :=
  (exists t, In t texts /\ t <> []) ->
  exists s,
    result (AnalyzeResumeView._extract_text_from_resume f) = Return (Some s)
    /\ s <> []
    /\ forall t, In t texts -> t <> [] -> infix t s.

(** C5 as the specification words it: whenever the candidate of [raw]
    fails to parse, the sanitiser fails with an error whose message has the
    detail of the parser and the first 500 characters of the candidate. *)
Definition parse_failure_claim {E : External} (raw : pystr) : Prop :=
  forall e,
    json_loads (candidate_text raw) = Raise e ->
    exists err,
      result (AnalyzeResumeView.sanitize raw) = Raise err
      /\ infix (str_of_exn e) (str_of_exn err)
      /\ infix (firstn 500 (candidate_text raw)) (str_of_exn err).


(** A text of ASCII characters: on such a text [lower] is [str.lower]. *)
Definition ascii_text (s : pystr) : Prop := Forall (fun c => (c < 128)%N) s.

(** ** Sample runs *)

Module Sample.

(** A report with a score out of range and without the other keys. *)
Definition report_text : pystr :=
  Prompt.lit "{~overall_fit_score~: 150, ~strengths~: []}".

Definition report_value : Json.value :=
  Json.Object [(str "overall_fit_score", Json.Int 150);
               (str "strengths", Json.Array [])].

(** The answer of the model: the report in a [json] fence. *)
Definition fenced_answer : pystr :=
  fence_json ++ newline ++ report_text ++ newline ++ fence ++ newline.

(** An answer whose fence is not closed, and one that is not JSON. *)
Definition unclosed_answer : pystr := newline ++ report_text.

Definition refusal : pystr := str "Sorry, " ++ repeat 33%N 600.

Definition pages : list pystr := [str "Jane Doe"; []; str " Engineer "].

Definition paragraphs : list pystr := [str "Jane Doe"; []; str "Engineer"].

(** Libraries that open every file and answer with the fenced report. *)
Definition libs : External :=
  reference (fun _ => Return (map Return pages))
    (fun _ => Return paragraphs)
    (fun _ => Return fenced_answer).

(** Libraries for a scanned document: one page, whose text is a space. *)
Definition scanned : External :=
  reference (fun _ => Return [Return (str " ")])
    (fun _ => Return [])
    (fun _ => Return fenced_answer).

(** Libraries that reject the bytes of every file. *)
Definition broken : External :=
  reference (fun _ => Raise (PyException (str "EOF marker not found")))
    (fun _ => Raise (PyException (str "File is not a zip file")))
    (fun _ => Return fenced_answer).

Definition file (filename : string) : UploadedFile :=
  {| name := str filename; read := Return [] |}.

Definition request (filename : string) : Request :=
  {| FILES_resume_file := Some (file filename);
     data_job_description := None;
     data_job_category := Some (str "Engineering");
     data_specific_role := None |}.

End Sample.

(** ** Counting the calls of a run *)

Definition is_file_read (ev : event) : bool :=
  match ev with FileRead => true | _ => false end.

Definition is_model_call (ev : event) : bool :=
  match ev with ModelCall _ => true | _ => false end.

Definition is_json_loads (ev : event) : bool :=
  match ev with JsonLoads _ => true | _ => false end.

(** How many events of a trace satisfy [p]. *)
Definition calls (p : event -> bool) (t : list event) : nat :=
  length (filter p t).

(** The event is the extraction of a page. *)
Definition page_event (ev : event) : Prop :=
  match ev with PageExtract _ => True | _ => False end.

(** A request like [request], with another job description field. *)
Definition with_description (d : option pystr) (request : Request) : Request :=
  {| FILES_resume_file := FILES_resume_file request;
     data_job_description := d;
     data_job_category := data_job_category request;
     data_specific_role := data_specific_role request |}.

(** ** The configuration of the model client (lines 32 to 40 of [views.py])

    The block runs once, when the module is imported.  [config] is
    [decouple.config], which returns the value of a setting or raises when
    it is not defined; [configure] is [genai.configure]. *)

Module Startup.

Inductive event : Type :=
| Lookup (setting : pystr)
| Configure (api_key : pystr)
| Logged (lvl : level) (msg : pystr).

Record Env : Type := {
  config : pystr -> outcome pystr;
  configure : pystr -> outcome unit
}.

(** Lines 33 to 37, the body of the [try]. *)
Definition configure_model (env : Env) : list event * outcome unit :=
  match config env (str "GOOGLE_API_KEY") with
  | Raise e => ([Lookup (str "GOOGLE_API_KEY")], Raise e)
  | Return gemini_api_key =>
      if negb (truthy gemini_api_key) then
        ([Lookup (str "GOOGLE_API_KEY")],
         Raise (PyException
                  (str "GOOGLE_API_KEY not found in .env or environment variables.")))
      else
        match configure env gemini_api_key with
        | Raise e =>
            ([Lookup (str "GOOGLE_API_KEY"); Configure gemini_api_key], Raise e)
        | Return _ =>
            ([Lookup (str "GOOGLE_API_KEY"); Configure gemini_api_key;
              Logged INFO (str "Google Gemini API configured successfully.")],
             Return tt)
        end
  end.

(** Lines 32 to 40: the [try] with its handler. *)
Definition module_init (env : Env) : list event * outcome unit :=
  match configure_model env with
  | (t, Raise e) =>
      (t ++ [Logged ERROR
               (str "FATAL: Error configuring Google Gemini API. Server might not function correctly: "
                ++ str_of_exn e)],
       Return tt)
  | done => done
  end.

End Startup.

(** ** The routes ([core/urls.py] and [analyzer/urls.py])

    [path(route, view)] matches a path equal to [route];
    [path(route, patterns)], where [patterns] is an included module or the
    patterns of a site, matches a path that starts with [route] and hands
    what follows to [patterns]; the patterns of a list are tried in order
    and the first that resolves wins.  A route of these files has no
    converter. *)

Module Urls.

Inductive view : Type :=
| AnalyzeResumeView_as_view
| AdminView (path : pystr).

#[warnings="-register-all"] Inductive target : Type :=
| View (v : view) (name : pystr)
| Include (urlpatterns : list (pystr * target))
| Site (resolve : pystr -> option pystr).

Fixpoint resolve_pattern (route : pystr) (t : target) (path : pystr)
  {struct t} : option view :=
  match t with
  | View v _ => if PyStr.eqb path route then Some v else None
  | Site site =>
      if startswith path route
      then option_map AdminView (site (skipn (length route) path))
      else None
  | Include urlpatterns =>
      if startswith path route then
        (fix first (ps : list (pystr * target)) : option view :=
           match ps with
           | [] => None
           | (r, t') :: ps' =>
               match resolve_pattern r t' (skipn (length route) path) with
               | Some v => Some v
               | None => first ps'
               end
           end) urlpatterns
      else None
  end.

(** [analyzer/urls.py] *)
Definition analyzer_urlpatterns : list (pystr * target) :=
  [(str "analyze-resume/", View AnalyzeResumeView_as_view (str "analyze_resume"))].

(** [core/urls.py]; [admin_site_urls] stands for [admin.site.urls], which
    answers with the part of the path it resolves. *)
Definition core_urlpatterns (admin_site_urls : pystr -> option pystr)
  : list (pystr * target) :=
  [(str "admin/", Site admin_site_urls);
   (str "api/", Include analyzer_urlpatterns)].

(** The resolver of the project: the leading slash, then the patterns of
    [core/urls.py]. *)
Definition resolve (admin_site_urls : pystr -> option pystr) (path : pystr)
  : option view :=
  resolve_pattern (str "/") (Include (core_urlpatterns admin_site_urls)) path.

End Urls.

(** ** More sample runs *)

Module Cases.

(** A request without a file. *)
Definition no_file : Request :=
  {| FILES_resume_file := None;
     data_job_description := Some (str "Builds compilers.");
     data_job_category := None;
     data_specific_role := None |}.

(** Libraries whose model raises. *)
Definition quota : exn := PyException (str "429 Resource has been exhausted").

Definition model_down : External :=
  reference (fun _ => Return (map Return Sample.pages))
    (fun _ => Return Sample.paragraphs)
    (fun _ => Raise quota).

(** A document of three pages whose second page cannot be read. *)
Definition bad_page : exn := PyException (str "Unexpected end of stream").

Definition torn : External :=
  reference
    (fun _ => Return (map Return [str "Jane Doe"] ++ Raise bad_page
                      :: [Return (str "Engineer")]))
    (fun _ => Return [])
    (fun _ => Return Sample.fenced_answer).

(** A document whose paragraphs are empty or a space. *)
Definition hollow : External :=
  reference (fun _ => Return [])
    (fun _ => Return [[]; str " "])
    (fun _ => Return Sample.fenced_answer).

(** An answer with the report in a fence, with words after it, and one
    with words before it. *)
Definition fence_then_words : pystr :=
  fence_json ++ (newline ++ Sample.report_text ++ newline) ++ fence
  ++ str " I hope this helps.".

Definition words_then_fence : pystr :=
  str "Here is the analysis: " ++ Sample.fenced_answer.

(** Libraries whose model answers with a text that is not JSON. *)
Definition refusing : External :=
  reference (fun _ => Return (map Return Sample.pages))
    (fun _ => Return Sample.paragraphs)
    (fun _ => Return Sample.refusal).

(** Libraries whose decoder raises an exception that is not a decoding
    error. *)
Definition too_deep : External :=
  {| report := Json.value;
     json_loads := fun _ =>
       Raise (PyException (str "maximum recursion depth exceeded"));
     PdfReader := fun _ => Return (map Return Sample.pages);
     Document := fun _ => Return Sample.paragraphs;
     generate_content := fun _ => Return Sample.fenced_answer |}.

(** An answer of 2000 opening brackets, on which CPython's [json.loads]
    raises [RecursionError]; libraries whose decoder does so on this text
    and is the reference decoder on every other. *)
Definition deeply_nested : pystr := repeat 91%N 2000.

Definition recursion_error : exn :=
  PyException (str "maximum recursion depth exceeded while decoding a JSON array from a unicode string").

Definition shallow_stack : External :=
  {| report := Json.value;
     json_loads := fun s =>
       if PyStr.eqb s deeply_nested then Raise recursion_error
       else Json.loads s;
     PdfReader := fun _ => Return (map Return Sample.pages);
     Document := fun _ => Return Sample.paragraphs;
     generate_content := fun _ => Return deeply_nested |}.


End Cases.

(** * Properties *)

Unset Implicit Arguments.

(** ** Strings *)

Section StringFacts.

Lemma lstrip_blank (a s : pystr) : blank a -> lstrip (a ++ s) = lstrip s.
Proof.
  induction 1 as [|c a Hc _ IH]; simpl; [reflexivity|].
  now rewrite Hc.
Qed.

Lemma lstrip_blank_nil (a : pystr) : blank a -> lstrip a = [].
Proof.
  intro H. rewrite <- (app_nil_r a). now rewrite lstrip_blank.
Qed.

Lemma lstrip_split (s : pystr) :
  exists a, blank a /\ s = a ++ lstrip s.
Proof.
  induction s as [|c s [a [Ha Hs]]]; simpl.
  - exists []. split; [constructor | reflexivity].
  - destruct (isspace c) eqn:Hc.
    + exists (c :: a). split; [now constructor | simpl; now f_equal].
    + exists []. split; [constructor | reflexivity].
Qed.

Lemma lstrip_head (s : pystr) (c : char) (t : pystr) :
  lstrip s = c :: t -> isspace c = false.
Proof.
  induction s as [|d s IH]; simpl; [discriminate|].
  destruct (isspace d) eqn:Hd; [exact IH|].
  intros [= <- _]. exact Hd.
Qed.

Lemma lstrip_fixed (c : char) (t : pystr) :
  isspace c = false -> lstrip (c :: t) = c :: t.
Proof. intro H. simpl. now rewrite H. Qed.

Lemma lstrip_app_solid (s t : pystr) :
  lstrip s <> [] -> lstrip (s ++ t) = lstrip s ++ t.
Proof.
  induction s as [|c s IH]; simpl; [congruence|].
  destruct (isspace c); [exact IH | reflexivity].
Qed.

Lemma blank_rev (a : pystr) : blank a -> blank (rev a).
Proof. unfold blank. intro H. now apply Forall_rev. Qed.

Lemma blank_app (a b : pystr) : blank a -> blank b -> blank (a ++ b).
Proof. unfold blank. intros. now apply Forall_app. Qed.

Lemma rstrip_blank (s b : pystr) : blank b -> rstrip (s ++ b) = rstrip s.
Proof.
  intro H. unfold rstrip. rewrite rev_app_distr.
  now rewrite lstrip_blank by now apply blank_rev.
Qed.

Lemma rstrip_blank_nil (b : pystr) : blank b -> rstrip b = [].
Proof.
  intro H. unfold rstrip. now rewrite lstrip_blank_nil by now apply blank_rev.
Qed.

Lemma rstrip_split (s : pystr) :
  exists b, blank b /\ s = rstrip s ++ b.
Proof.
  destruct (lstrip_split (rev s)) as [a [Ha Hs]].
  exists (rev a). split; [now apply blank_rev|].
  unfold rstrip. rewrite <- rev_app_distr, <- Hs. now rewrite rev_involutive.
Qed.

Lemma rstrip_last (s t : pystr) (c : char) :
  rstrip s = t ++ [c] -> isspace c = false.
Proof.
  unfold rstrip. intro H.
  apply (f_equal (@rev char)) in H.
  rewrite rev_involutive, rev_app_distr in H. simpl in H.
  now apply lstrip_head in H.
Qed.

Lemma rstrip_fixed (t : pystr) (c : char) :
  isspace c = false -> rstrip (t ++ [c]) = t ++ [c].
Proof.
  intro H. unfold rstrip. rewrite rev_app_distr. simpl.
  rewrite H. simpl. now rewrite rev_involutive.
Qed.

Lemma rstrip_app_solid (s t : pystr) :
  rstrip t <> [] -> rstrip (s ++ t) = s ++ rstrip t.
Proof.
  unfold rstrip. intro H. rewrite rev_app_distr.
  rewrite lstrip_app_solid.
  - now rewrite rev_app_distr, rev_involutive.
  - intro E. apply H. now rewrite E.
Qed.

Lemma rstrip_cons_solid (c : char) (t : pystr) :
  isspace c = false -> rstrip (c :: t) = c :: rstrip t.
Proof.
  intro H. destruct (rstrip_split t) as [b [Hb Ht]].
  destruct (rstrip t) as [|d r] eqn:E.
  - simpl in Ht. subst t.
    change (c :: b) with ([c] ++ b). rewrite rstrip_blank by assumption.
    now apply (rstrip_fixed []).
  - change (c :: t) with ([c] ++ t).
    rewrite rstrip_app_solid; rewrite E; [reflexivity | discriminate].
Qed.

(** [strip] gives the text between the whitespace at its two ends. *)
Lemma strip_split (s : pystr) :
  exists a b, blank a /\ blank b /\ s = a ++ strip s ++ b.
Proof.
  destruct (lstrip_split s) as [a [Ha Hs]].
  destruct (rstrip_split (lstrip s)) as [b [Hb Hr]].
  exists a, b. repeat split; try assumption.
  unfold strip. now rewrite <- Hr.
Qed.

Lemma strip_blank (s : pystr) : blank s -> strip s = [].
Proof.
  intro H. unfold strip. now rewrite lstrip_blank_nil.
Qed.

Lemma strip_head (s : pystr) (c : char) (t : pystr) :
  strip s = c :: t -> isspace c = false.
Proof.
  unfold strip. intro H.
  destruct (lstrip s) as [|d u] eqn:E.
  - discriminate.
  - assert (Hd := lstrip_head _ _ _ E).
    rewrite rstrip_cons_solid in H by assumption.
    now injection H as <- _.
Qed.

Lemma strip_last (s t : pystr) (c : char) :
  strip s = t ++ [c] -> isspace c = false.
Proof. unfold strip. apply rstrip_last. Qed.

(** Whitespace around a text does not change what [strip] gives. *)
Lemma strip_around (a s b : pystr) :
  blank a -> blank b -> strip (a ++ s ++ b) = strip s.
Proof.
  intros Ha Hb. unfold strip. rewrite lstrip_blank by assumption.
  destruct (lstrip s) as [|c t] eqn:E.
  - destruct (lstrip_split s) as [a' [Ha' Hs]]. rewrite E, app_nil_r in Hs.
    subst a'. rewrite lstrip_blank_nil by now apply blank_app.
    reflexivity.
  - rewrite lstrip_app_solid by (rewrite E; discriminate).
    rewrite E. now apply rstrip_blank.
Qed.

(** A text that begins and ends with characters that are not whitespace is
    left as it is. *)
Lemma strip_solid (c d : char) (t : pystr) :
  isspace c = false -> isspace d = false ->
  strip (c :: t ++ [d]) = c :: t ++ [d].
Proof.
  intros Hc Hd. unfold strip. rewrite lstrip_fixed by assumption.
  now apply (rstrip_fixed (c :: t)).
Qed.

Lemma strip_idempotent (s : pystr) : strip (strip s) = strip s.
Proof.
  destruct (strip s) as [|c t] eqn:E; [reflexivity|].
  assert (Hc := strip_head _ _ _ E).
  destruct (@exists_last _ (c :: t)) as [u [d Hu]]; [discriminate|].
  rewrite Hu in E. assert (Hd := strip_last _ _ _ E).
  rewrite Hu. destruct u as [|c' u].
  - simpl in *. unfold strip. rewrite lstrip_fixed by assumption.
    now apply (rstrip_fixed []).
  - injection Hu as -> ->. simpl. now apply strip_solid.
Qed.

End StringFacts.

Lemma eqb_eq (s t : pystr) : PyStr.eqb s t = true <-> s = t.
Proof.
  revert t. induction s as [|a s IH]; intros [|b t]; simpl;
    try (split; [discriminate | congruence]); [tauto|].
  unfold char_eqb. rewrite andb_true_iff, N.eqb_eq, IH.
  split; [intros [-> ->]; reflexivity | intros [= -> ->]; tauto].
Qed.

Lemma eqb_neq (s t : pystr) : s <> t -> PyStr.eqb s t = false.
Proof.
  intro H. destruct (PyStr.eqb s t) eqn:E; [|reflexivity].
  apply eqb_eq in E. contradiction.
Qed.

Lemma lines_app (ts us : list pystr) : lines (ts ++ us) = lines ts ++ lines us.
Proof. unfold lines. now rewrite map_app, concat_app. Qed.

(** A character that is not whitespace survives [lstrip] with all that
    follows it, and [rstrip] with all that precedes it. *)
Lemma lstrip_keeps (p : pystr) (c : char) (r : pystr) :
  isspace c = false -> exists p1, lstrip (p ++ c :: r) = p1 ++ c :: r.
Proof.
  intro Hc. induction p as [|d p [p1 IH]]; simpl.
  - exists []. now rewrite Hc.
  - destruct (isspace d); [now exists p1 | now exists (d :: p)].
Qed.

Lemma rstrip_keeps (r : pystr) (c : char) (q : pystr) :
  isspace c = false -> exists q1, rstrip (r ++ c :: q) = r ++ c :: q1.
Proof.
  intro Hc. unfold rstrip. rewrite rev_app_distr. simpl. rewrite <- app_assoc.
  destruct (lstrip_keeps (rev q) c (rev r) Hc) as [p1 Hp]. simpl.
  rewrite Hp. exists (rev p1).
  rewrite rev_app_distr. simpl. now rewrite rev_involutive, <- app_assoc.
Qed.

(** A part of a text that begins and ends with characters that are not
    whitespace is still a part of the stripped text. *)
Lemma strip_keeps (p core q : pystr) :
  core <> [] -> strip core = core -> infix core (strip (p ++ core ++ q)).
Proof.
  intros Hne Hfix.
  destruct core as [|c u]; [congruence|].
  assert (Hc : isspace c = false) by now apply (strip_head _ _ _ Hfix).
  destruct (@exists_last _ (c :: u)) as [v [d Hv]]; [discriminate|].
  assert (Hd : isspace d = false).
  { rewrite Hv in Hfix. now apply (strip_last _ _ _ Hfix). }
  unfold strip. simpl app.
  destruct (lstrip_keeps p c (u ++ q) Hc) as [p1 ->].
  change (p1 ++ c :: u ++ q) with (p1 ++ (c :: u) ++ q).
  rewrite Hv, <- !app_assoc. simpl.
  replace (p1 ++ v ++ d :: q) with ((p1 ++ v) ++ d :: q) by now rewrite <- app_assoc.
  destruct (rstrip_keeps (p1 ++ v) d q Hd) as [q1 ->].
  exists (length p1), p1, q1. split; [|reflexivity].
  now rewrite <- !app_assoc.
Qed.

Lemma not_blank_strip (t : pystr) : ~ blank t -> strip t <> [].
Proof.
  intros Hnb E. apply Hnb.
  destruct (strip_split t) as [a [b [Ha [Hb Ht]]]].
  rewrite E in Ht. simpl in Ht. rewrite Ht. now apply blank_app.
Qed.

(** ** The text extractor *)

Section Extractor.

Context {E : External}.

Import AnalyzeResumeView.

(** The loop over the paragraphs appends their lines. *)
Lemma docx_paragraphs_lines (paragraphs : list pystr) (text : pystr) :
  docx_paragraphs paragraphs text = text ++ lines paragraphs.
Proof.
  unfold docx_paragraphs. revert text.
  induction paragraphs as [|p ps IH]; intro text; simpl.
  - unfold lines. simpl. now rewrite app_nil_r.
  - rewrite IH. change (p :: ps) with ([p] ++ ps). rewrite lines_app.
    unfold lines at 2. simpl. now rewrite app_nil_r, <- !app_assoc.
Qed.

(** The loop over the pages, when [extract_text] answers on every page:
    the pages with a text append their lines, the others append nothing. *)
Lemma pdf_pages_lines (texts : list pystr) (index : nat) (text : pystr) :
  pdf_pages index (map Return texts) text
  = (map PageExtract (seq index (length texts)),
     Return (text ++ lines (filter truthy texts))).
Proof.
  revert index text.
  induction texts as [|t ts IH]; intros index text; simpl.
  - unfold lines. simpl. now rewrite app_nil_r.
  - unfold bind, call. rewrite IH. simpl. f_equal. f_equal.
    destruct (truthy t); [|reflexivity].
    change (t :: filter truthy ts) with ([t] ++ filter truthy ts).
    rewrite lines_app. unfold lines at 2. simpl.
    now rewrite app_nil_r, <- !app_assoc.
Qed.

(** The loop over the pages never reads a page after one that raised. *)
Lemma pdf_pages_raises (pages : list (outcome pystr)) (e : exn) :
  In (Raise e) pages ->
  forall index text, exists e', result (pdf_pages index pages text) = Raise e'.
Proof.
  induction pages as [|p ps IH]; intro Hin; [contradiction|].
  intros index text. simpl. unfold bind, call.
  destruct p as [t|e0].
  - destruct Hin as [Hin|Hin]; [discriminate|].
    destruct (IH Hin (S index)
                (if truthy t then text ++ t ++ newline else text)) as [e' He'].
    exists e'. unfold result in *.
    destruct (pdf_pages _ ps _) as [tr r]. simpl in *. exact He'.
  - exists e0. reflexivity.
Qed.

(** The extractor ends with a value, whatever the file and the libraries
    do. *)
Lemma extract_try_returns (f : UploadedFile) (ext text : pystr) :
  exists r, result (extract_try f ext text) = Return r.
Proof.
  unfold extract_try, try_except, bind, call, log, ret, result.
  destruct (read f) as [content|e]; simpl; [|eauto].
  destruct (PyStr.eqb ext (str ".pdf")).
  - destruct (PdfReader content) as [pages|e]; simpl; [|eauto].
    destruct (pdf_pages 0 pages text) as [tr [t|e]]; simpl; eauto.
  - destruct (PyStr.eqb ext (str ".docx")); simpl; [|eauto].
    destruct (Document content) as [ps|e]; simpl; eauto.
Qed.

Lemma extract_returns (f : UploadedFile) :
  exists r, result (_extract_text_from_resume f) = Return r.
Proof.
  unfold _extract_text_from_resume.
  destruct (extract_try_returns f (lower (snd (PosixPath.splitext (name f)))) [])
    as [r Hr].
  unfold result, bind in *.
  destruct (extract_try f _ _) as [tr o]. simpl in Hr. subst o.
  destruct r; simpl; eauto.
Qed.

(** What the extractor returns is what [strip] gives. *)
Lemma extract_stripped (f : UploadedFile) (text : pystr) :
  result (_extract_text_from_resume f) = Return (Some text) ->
  exists raw, result (extract_try f (extension f) []) = Return (Some raw)
              /\ text = strip raw.
Proof.
  unfold _extract_text_from_resume, extension, result, bind.
  destruct (extract_try f _ _) as [tr [[raw|]|e]]; simpl; try discriminate.
  intros [= <-]. now exists raw.
Qed.

End Extractor.

Section ExtractorClaims.

Context {E : External}.

Import AnalyzeResumeView.

Lemma pdf_pages_events (pages : list (outcome pystr)) (index : nat) (text : pystr) :
  Forall extraction_event (trace (pdf_pages index pages text)).
Proof.
  revert index text. induction pages as [|p ps IH]; intros index text; simpl.
  - constructor.
  - unfold bind, call. destruct p as [t|e]; [|repeat constructor].
    specialize (IH (S index) (if truthy t then text ++ t ++ newline else text)).
    unfold trace in *. destruct (pdf_pages _ ps _) as [tr r]. simpl in *.
    constructor; [exact I | exact IH].
Qed.

(** The extractor calls neither the model nor the decoder. *)
Lemma extract_events (f : UploadedFile) :
  Forall extraction_event (trace (_extract_text_from_resume f)).
Proof.
  unfold _extract_text_from_resume, extract_try, try_except, bind, call, log,
    ret, trace.
  destruct (read f) as [content|e]; simpl; [|repeat constructor].
  destruct (PyStr.eqb _ (str ".pdf")).
  - destruct (PdfReader content) as [pages|e]; simpl; [|repeat constructor].
    assert (H := pdf_pages_events pages 0 []). unfold trace in H.
    destruct (pdf_pages 0 pages []) as [tr [t|e]]; simpl in *;
      repeat constructor; rewrite ?app_nil_r; try assumption.
    apply Forall_app. split; [assumption | repeat constructor].
  - destruct (PyStr.eqb _ (str ".docx")); simpl; [|repeat constructor].
    destruct (Document content) as [ps|e]; simpl; repeat constructor.
Qed.

(** C6. For a [.docx] file that python-docx opens, the extractor returns
    the text of every paragraph in document order, each followed by a
    newline whether it is empty or not, with the whitespace at the two ends
    of the whole removed; it reads the file and opens the document, and
    does nothing else. *)
Theorem docx_paragraphs_in_order
  (f : UploadedFile) (content : list byte) (paragraphs : list pystr) :
  extension f = str ".docx" ->
  read f = Return content ->
  Document content = Return paragraphs ->
  _extract_text_from_resume f
  = ([FileRead; DocxOpen], Return (Some (strip (lines paragraphs)))).
Proof.
  intros Hext Hread Hdoc.
  unfold _extract_text_from_resume, extract_try. fold (extension f).
  rewrite Hext, Hread. unfold try_except, bind, call, ret. simpl.
  rewrite Hdoc. simpl. now rewrite docx_paragraphs_lines.
Qed.

(** C7, as the code has it.  For a [.pdf] file whose pages all answer
    [extract_text()], the extractor returns the texts of the pages that are
    not empty, in page order, each followed by a newline, with the
    whitespace at the two ends of the whole removed; a page with an empty
    text adds nothing.  When a page has a character that is not whitespace
    the result is not empty and has the text of that page, less the
    whitespace around it, as a part. *)
Theorem pdf_pages_in_order
  (f : UploadedFile) (content : list byte) (texts : list pystr) :
  extension f = str ".pdf" ->
  read f = Return content ->
  PdfReader content = Return (map Return texts) ->
  let text := strip (lines (filter truthy texts)) in
  result (_extract_text_from_resume f) = Return (Some text)
  /\ (exists a b, blank a /\ blank b
                  /\ lines (filter truthy texts) = a ++ text ++ b)
  /\ (forall t, In t texts -> ~ blank t ->
                text <> [] /\ infix (strip t) text).
Proof.
  intros Hext Hread Hpdf text. split; [|split].
  - unfold _extract_text_from_resume, extract_try. fold (extension f).
    rewrite Hext, Hread. unfold try_except, bind, call, ret, result. simpl.
    rewrite Hpdf. simpl. now rewrite pdf_pages_lines.
  - apply strip_split.
  - intros t Hin Hnb.
    assert (Hcore : strip t <> []) by now apply not_blank_strip.
    assert (Htruthy : truthy t = true).
    { destruct t; [|reflexivity]. exfalso. apply Hnb. constructor. }
    assert (Hf : In t (filter truthy texts)) by (apply filter_In; now split).
    apply in_split in Hf. destruct Hf as [l1 [l2 Hf]].
    destruct (strip_split t) as [a [b [Ha [Hb Ht]]]].
    assert (Hinf : infix (strip t) text).
    { assert (Hbody : lines (filter truthy texts)
                      = (lines l1 ++ a) ++ strip t ++ (b ++ newline ++ lines l2)).
      { rewrite Hf, lines_app.
        change (t :: l2) with ([t] ++ l2). rewrite lines_app.
        unfold lines at 2. simpl. rewrite app_nil_r.
        remember (strip t) as core. rewrite Ht.
        now rewrite <- !app_assoc. }
      unfold text. rewrite Hbody.
      apply strip_keeps; [assumption | apply strip_idempotent]. }
    split; [|exact Hinf].
    intro Hnil. destruct Hinf as [i [p [q [Hpq _]]]]. rewrite Hnil in Hpq.
    destruct p; [|discriminate]. simpl in Hpq.
    destruct (strip t); [congruence | discriminate].
Qed.

(** What the extractor does with an extension it does not know. *)
Lemma unsupported_run (f : UploadedFile) :
  extension f <> str ".pdf" ->
  extension f <> str ".docx" ->
  _extract_text_from_resume f
  = match read f with
    | Return _ =>
        ([FileRead;
          Log WARNING (str "Unsupported file type for text extraction: "
                       ++ extension f)],
         Return None)
    | Raise e =>
        ([FileRead;
          Log ERROR (str "Error extracting text from " ++ name f ++ str " ("
                     ++ extension f ++ str "): " ++ str_of_exn e)],
         Return None)
    end.
Proof.
  intros Hpdf Hdocx.
  unfold _extract_text_from_resume, extract_try. fold (extension f).
  rewrite (eqb_neq _ _ Hpdf), (eqb_neq _ _ Hdocx).
  unfold try_except, bind, call, log, ret.
  destruct (read f) as [content|e]; reflexivity.
Qed.


(** C9. The extractor always ends with a value, never with an exception;
    and when a library raises while the bytes are read or parsed, that
    value is [None]. *)
Theorem parsing_errors_are_caught (f : UploadedFile) :
  (exists r, result (_extract_text_from_resume f) = Return r)
  /\ (parsing_raises f -> result (_extract_text_from_resume f) = Return None).
Proof.
  split; [apply extract_returns|].
  unfold _extract_text_from_resume, extract_try. fold (extension f).
  unfold try_except, bind, call, log, ret, result.
  intros [[e He]|[content [Hread [[Hext H]|[Hext [e He]]]]]].
  - rewrite He. reflexivity.
  - rewrite Hread, Hext. simpl. destruct H as [[e He]|[pages [e [Hp Hin]]]].
    + rewrite He. reflexivity.
    + rewrite Hp. simpl.
      destruct (pdf_pages_raises pages e Hin 0 []) as [e' He'].
      unfold result in He'. destruct (pdf_pages 0 pages []) as [tr r].
      simpl in He'. subst r. reflexivity.
  - rewrite Hread, Hext. simpl. rewrite He. reflexivity.
Qed.

End ExtractorClaims.

(** ** Slices and searches *)

Lemma slice_to_firstn (s : pystr) (b : Z) :
  0 <= b -> slice_to s b = firstn (Z.to_nat b) s.
Proof.
  intro Hb. unfold slice_to, slice, adjust, len.
  assert (H0 : (0 <? 0) = false) by reflexivity. rewrite H0.
  assert (Hb' : (b <? 0) = false) by (apply Z.ltb_ge; lia). rewrite Hb'.
  replace (Z.to_nat (Z.min 0 (Z.of_nat (length s)))) with 0%nat by lia.
  simpl skipn.
  destruct (Z.le_ge_cases b (Z.of_nat (length s))) as [Hle|Hge].
  - rewrite !Z.min_l by lia. f_equal. lia.
  - rewrite Z.min_r, Z.min_l by lia.
    rewrite Z.sub_0_r, Nat2Z.id.
    rewrite firstn_all, firstn_all2 by lia. reflexivity.
Qed.

Lemma slice_middle (a b c : pystr) :
  slice (a ++ b ++ c) (len a) (len a + len b) = b.
Proof.
  unfold slice, adjust, len.
  assert (Ha : (Z.of_nat (length a) <? 0) = false) by (apply Z.ltb_ge; lia).
  assert (Hb : (Z.of_nat (length a) + Z.of_nat (length b) <? 0) = false)
    by (apply Z.ltb_ge; lia).
  rewrite Ha, Hb, !length_app.
  rewrite !Z.min_l by lia.
  replace (Z.to_nat (Z.of_nat (length a) + Z.of_nat (length b) - Z.of_nat (length a)))
    with (length b) by lia.
  rewrite Nat2Z.id, skipn_app, skipn_all, Nat.sub_diag. simpl.
  rewrite firstn_app, firstn_all, Nat.sub_diag. simpl. apply app_nil_r.
Qed.

Lemma startswith_app (p s : pystr) : startswith (p ++ s) p = true.
Proof.
  induction p as [|a p IH]; simpl; [reflexivity|].
  unfold char_eqb. now rewrite N.eqb_refl.
Qed.

Lemma startswith_prefix (s p : pystr) :
  startswith s p = true <-> exists t, s = p ++ t.
Proof.
  revert s. induction p as [|a p IH]; intro s; simpl.
  - split; [now exists s | reflexivity].
  - destruct s as [|b s].
    + split; [discriminate | intros [t [=]]].
    + unfold char_eqb. rewrite andb_true_iff, N.eqb_eq, IH. split.
      * intros [-> [t ->]]. now exists t.
      * intros [t [= -> ->]]. split; [reflexivity | now exists t].
Qed.

(** [rfind] answers [-1] or an index from the offset on. *)
Lemma rfind_from_range (s sub : pystr) (i : Z) :
  rfind_from i s sub = -1 \/ i <= rfind_from i s sub.
Proof.
  revert i. induction s as [|c s IH]; intro i; simpl.
  - destruct (startswith [] sub); [right; lia | now left].
  - destruct (IH (i + 1)) as [H|H].
    + rewrite H. simpl.
      destruct (startswith (c :: s) sub); [right; lia | now left].
    + destruct (0 <=? rfind_from (i + 1) s sub); [right; lia|].
      destruct (startswith (c :: s) sub); [right; lia | now left].
Qed.

(** A character that is not in the text is found nowhere. *)
Lemma rfind_from_absent (s : pystr) (c : char) (i : Z) :
  ~ In c s -> rfind_from i s [c] = -1.
Proof.
  revert i. induction s as [|d s IH]; intros i Hin; simpl; [reflexivity|].
  rewrite IH by (intro; apply Hin; now right). simpl.
  unfold char_eqb. destruct (N.eqb_spec c d) as [->|_]; [|reflexivity].
  exfalso. apply Hin. now left.
Qed.

(** ** The name of the file *)

(** A name without a dot has no extension. *)
Lemma splitext_no_dot (p : pystr) :
  ~ In 46%N p -> PosixPath.splitext p = (p, []).
Proof.
  intro Hdot. unfold PosixPath.splitext, rfind.
  change PosixPath.extsep with [46%N].
  rewrite rfind_from_absent by assumption.
  assert (H : (-1 >? rfind_from 0 p PosixPath.sep) = false).
  { destruct (rfind_from_range p PosixPath.sep 0) as [->|H]; [reflexivity|].
    rewrite Z.gtb_ltb. apply Z.ltb_ge. lia. }
  rewrite H. f_equal. now rewrite slice_to_firstn.
Qed.

(** ** The sanitiser and the handler *)

Section Handler.

Context {E : External}.

Import AnalyzeResumeView.

(** Lines 213 to 228 never raise. *)
Lemma candidate_returns (raw : pystr) :
  exists tr, candidate raw = (tr, Return (candidate_text raw)).
Proof.
  unfold candidate_text, candidate, result, bind, log, ret.
  repeat match goal with
         | |- context [if ?b then _ else _] => destruct b
         end; simpl; eauto.
Qed.

(** The sanitiser hands the candidate text to [json.loads], once. *)
Lemma sanitize_parse (raw : pystr) :
  exists tr,
    trace (candidate raw) = tr
    /\ sanitize raw
       = (tr ++ trace (parse_report (candidate_text raw)),
          result (parse_report (candidate_text raw))).
Proof.
  destruct (candidate_returns raw) as [tr Hc].
  exists tr. unfold sanitize, bind, trace, result. rewrite Hc. simpl.
  split; [reflexivity|]. now destruct (parse_report _).
Qed.

Lemma parse_report_calls (text : pystr) :
  exists tr, trace (parse_report text) = JsonLoads text :: tr.
Proof.
  unfold parse_report, try_except_JSONDecodeError, bind, call, log, ret,
    raise, trace.
  destruct (json_loads text) as [v|[d|m]]; simpl; eauto.
Qed.

Lemma parse_report_ok (text : pystr) (v : report) :
  json_loads text = Return v -> parse_report text = ([JsonLoads text], Return v).
Proof.
  intro H. unfold parse_report, try_except_JSONDecodeError, bind, call, ret.
  now rewrite H.
Qed.

(** The handler, once the file is there: what it answers when the
    extractor gives nothing to analyse. *)
Lemma post_without_text (request : Request) (f : UploadedFile)
  (r : option pystr) :
  FILES_resume_file request = Some f ->
  file_truthy f = true ->
  result (_extract_text_from_resume f) = Return r ->
  falsy r = true ->
  result (post request) = Return no_text_response
  /\ Forall extraction_event (trace (post request)).
Proof.
  intros Hfile Htruthy Hres Hfalsy.
  assert (Hev := extract_events f).
  unfold post, post_file, bind, log, ret, result, trace in *.
  rewrite Hfile, Htruthy. simpl.
  destruct (_extract_text_from_resume f) as [tr o]. simpl in *. subst o.
  rewrite Hfalsy. simpl. split; [reflexivity|].
  repeat constructor. apply Forall_app. split; [assumption | repeat constructor].
Qed.

(** ... and when the extractor gives a text: the answer is made from the
    outcome of [_get_gemini_analysis]. *)
Lemma post_with_text (request : Request) (f : UploadedFile) (text : pystr) :
  FILES_resume_file request = Some f ->
  file_truthy f = true ->
  result (_extract_text_from_resume f) = Return (Some text) ->
  text <> [] ->
  result (post request)
  = match result (_get_gemini_analysis text (job_description request)
                    (job_category request) (specific_role request)) with
    | Return v => Return (success_response v)
    | Raise e => Return (error_response e)
    end.
Proof.
  intros Hfile Htruthy Hres Hne.
  unfold post, post_file, bind, log, ret, result, try_except in *.
  rewrite Hfile, Htruthy. simpl.
  destruct (_extract_text_from_resume f) as [tr o]. simpl in *. subst o.
  destruct text as [|c text]; [congruence|]. simpl.
  fold (job_description request) (job_category request) (specific_role request).
  destruct (_get_gemini_analysis _ _ _ _) as [tr' [v|e]]; reflexivity.
Qed.

Lemma analysis_of_response (text jd cat role raw : pystr) :
  generate_content (Prompt.prompt text jd cat role) = Return raw ->
  result (_get_gemini_analysis text jd cat role) = result (sanitize raw).
Proof.
  intro H. unfold _get_gemini_analysis, bind, log, call, result.
  rewrite H. simpl. now destruct (sanitize raw).
Qed.

(** The model is called only after the extractor gave a text that is not
    empty, and with the prompt made from that text. *)
Lemma post_model_call (request : Request) (prompt : pystr) :
  In (ModelCall prompt) (trace (post request)) ->
  exists f text,
    FILES_resume_file request = Some f
    /\ result (_extract_text_from_resume f) = Return (Some text)
    /\ text <> []
    /\ prompt = prompt_of request text.
Proof.
  unfold post. destruct (FILES_resume_file request) as [f|] eqn:Hfile.
  2:{ unfold bind, log, ret, trace. simpl. intros [[=]|[[=]|[]]]. }
  destruct (file_truthy f) eqn:Htruthy.
  2:{ unfold bind, log, ret, trace. simpl. intros [[=]|[[=]|[]]]. }
  destruct (extract_returns f) as [r Hr].
  destruct (falsy r) eqn:Hfalsy.
  - intro Hin.
    destruct (post_without_text request f r Hfile Htruthy Hr Hfalsy) as [_ Hev].
    unfold post in Hev. rewrite Hfile, Htruthy in Hev.
    rewrite Forall_forall in Hev. destruct (Hev _ Hin).
  - destruct r as [text|]; [|discriminate].
    destruct text as [|c text]; [discriminate|].
    intro Hin. exists f, (c :: text).
    repeat split; try assumption; try discriminate.
    assert (Hev := extract_events f).
    unfold post_file, _get_gemini_analysis, bind, log, call, ret, result, trace,
      try_except in *.
    destruct (_extract_text_from_resume f) as [tr o]. simpl in *. subst o.
    simpl in Hin.
    fold (job_description request) (job_category request)
      (specific_role request) in Hin.
    fold (prompt_of request (c :: text)) in Hin.
    destruct (generate_content (prompt_of request (c :: text))) as [raw|e].
    + destruct (sanitize_parse raw) as [trc [Htrc Hs]]. rewrite Hs in Hin.
      destruct (candidate_returns raw) as [trc' Hc].
      unfold trace in Htrc. rewrite Hc in Htrc. simpl in Htrc. subst trc'.
      assert (Hcand : Forall (fun ev => exists l m, ev = Log l m) trc).
      { clear - Hc. unfold candidate, bind, log, ret in Hc.
        repeat match type of Hc with
               | context [if ?b then _ else _] => destruct b
               end; simpl in Hc; injection Hc as <-; repeat constructor; eauto. }
      destruct (parse_report_calls (candidate_text raw)) as [trp Htrp].
      assert (Hparse : Forall (fun ev => forall p, ev <> ModelCall p)
                         (trace (parse_report (candidate_text raw)))).
      { clear. unfold parse_report, try_except_JSONDecodeError, bind, call,
          log, ret, raise, trace.
        destruct (json_loads _) as [v|[d|m]]; simpl;
          repeat constructor; discriminate. }
      destruct (result (parse_report (candidate_text raw))); simpl in Hin;
        repeat (destruct Hin as [Hin|Hin]; [try discriminate|]);
        try (injection Hin as <-; reflexivity);
        rewrite ?in_app_iff in Hin; simpl in Hin;
        repeat match type of Hin with
               | _ \/ _ => destruct Hin as [Hin|Hin]
               | In _ tr => rewrite Forall_forall in Hev; destruct (Hev _ Hin)
               | In _ trc => rewrite Forall_forall in Hcand;
                             destruct (Hcand _ Hin) as [? [? [=]]]
               | In _ (trace _) => rewrite Forall_forall in Hparse;
                                   destruct (Hparse _ Hin _ eq_refl)
               | In _ (_ ++ _) => apply in_app_iff in Hin
               | In _ (_ :: _) => destruct Hin as [Hin|Hin]
               | In _ [] => destruct Hin
               | _ = ModelCall _ => try discriminate;
                                    injection Hin as <-; reflexivity
               | False => destruct Hin
               end.
    + simpl in Hin.
      repeat match type of Hin with
             | _ \/ _ => destruct Hin as [Hin|Hin]
             | In _ tr => rewrite Forall_forall in Hev; destruct (Hev _ Hin)
             | In _ (_ ++ _) => apply in_app_iff in Hin
             | In _ (_ :: _) => destruct Hin as [Hin|Hin]
             | In _ [] => destruct Hin
             | _ = ModelCall _ => try discriminate;
                                  injection Hin as <-; reflexivity
             | False => destruct Hin
             end.
Qed.

End Handler.

(** Lines 233 to 236: the exception raised for a text that does not
    decode. *)
Lemma parse_report_error {E : External} (text detail : pystr) :
  json_loads text = Raise (JSONDecodeError detail) ->
  result (AnalyzeResumeView.parse_report text)
  = Raise (PyException
             (str "AI response format error: Could not parse AI response as JSON. Details: "
              ++ detail ++ str ". Raw response start: "
              ++ slice_to text 500 ++ str "...")).
Proof.
  intro H.
  unfold AnalyzeResumeView.parse_report, try_except_JSONDecodeError, bind,
    call, log, raise, result.
  rewrite H. cbv beta iota. cbn [snd app]. reflexivity.
Qed.

Section HandlerClaims.

Context {E : External}.

Import AnalyzeResumeView.

(** C2. When the text gathered from the document is empty or made of
    whitespace only, what the extractor returns after [strip] is the empty
    string, which [post] takes for a failure: it answers with the
    client-error response and calls neither the model nor the decoder.
    And whenever [post] calls the model, the prompt is made from a resume
    text that is not empty and has no whitespace at its ends. *)
Theorem empty_text_is_failure (request : Request) (f : UploadedFile) :
  FILES_resume_file request = Some f ->
  file_truthy f = true ->
  (forall raw,
      result (extract_try f (extension f) []) = Return (Some raw) ->
      blank raw ->
      result (_extract_text_from_resume f) = Return (Some [])
      /\ result (post request) = Return no_text_response
      /\ status no_text_response = HTTP_400_BAD_REQUEST
      /\ Forall extraction_event (trace (post request)))
  /\ (forall prompt,
         In (ModelCall prompt) (trace (post request)) ->
         exists text,
           result (_extract_text_from_resume f) = Return (Some text)
           /\ text <> [] /\ strip text = text
           /\ prompt = prompt_of request text).
Proof.
  intros Hfile Htruthy. split.
  - intros raw Hraw Hblank.
    assert (Hres : result (_extract_text_from_resume f) = Return (Some [])).
    { unfold _extract_text_from_resume. fold (extension f).
      unfold result, bind in *.
      destruct (extract_try f (extension f) []) as [tr o]. simpl in *. subst o.
      simpl. now rewrite strip_blank. }
    destruct (post_without_text request f (Some []) Hfile Htruthy Hres eq_refl)
      as [Hpost Hev].
    repeat split; assumption.
  - intros prompt Hin.
    destruct (post_model_call request prompt Hin)
      as [f' [text [Hfile' [Hres [Hne Hprompt]]]]].
    rewrite Hfile in Hfile'. injection Hfile' as <-.
    exists text. repeat split; try assumption.
    destruct (extract_stripped f text Hres) as [raw [_ ->]].
    apply strip_idempotent.
Qed.

(** C3. When the candidate text of the answer of the model decodes, the
    sanitiser returns the decoded value as it is, whatever it is, and [post]
    puts that value in the success response. *)
Theorem report_returned_verbatim
  (request : Request) (f : UploadedFile) (text raw : pystr) (v : report) :
  FILES_resume_file request = Some f ->
  file_truthy f = true ->
  result (_extract_text_from_resume f) = Return (Some text) ->
  text <> [] ->
  generate_content (prompt_of request text) = Return raw ->
  json_loads (candidate_text raw) = Return v ->
  result (sanitize raw) = Return v
  /\ result (post request)
     = Return {| success := true;
                 message := str "Analysis complete.";
                 report_of := Some v;
                 status := HTTP_200_OK |}.
Proof.
  intros Hfile Htruthy Hres Hne Hmodel Hloads.
  assert (Hs : result (sanitize raw) = Return v).
  { destruct (sanitize_parse raw) as [tr [_ ->]].
    now rewrite (parse_report_ok _ _ Hloads). }
  split; [exact Hs|].
  rewrite (post_with_text request f text Hfile Htruthy Hres Hne).
  unfold prompt_of in Hmodel.
  rewrite (analysis_of_response _ _ _ _ _ Hmodel), Hs. reflexivity.
Qed.

(** C5, as the code has it.  When [json.loads] raises on the candidate
    text, the sanitiser returns no value.  When what it raises is a
    decoding error ([json.JSONDecodeError]), the sanitiser raises an
    exception whose message has the detail of that error and the first 500
    characters of the candidate text; any other exception of [json.loads]
    leaves the sanitiser as it was raised, without those characters. *)
Theorem parse_failure_is_reported (raw : pystr) (e : exn) :
  json_loads (candidate_text raw) = Raise e ->
  (forall v, result (sanitize raw) <> Return v)
  /\ match e with
     | JSONDecodeError detail =>
         let msg :=
           str "AI response format error: Could not parse AI response as JSON. Details: "
           ++ detail ++ str ". Raw response start: "
           ++ firstn 500 (candidate_text raw) ++ str "..." in
         result (sanitize raw) = Raise (PyException msg)
         /\ infix detail msg
         /\ infix (firstn 500 (candidate_text raw)) msg
     | PyException _ => result (sanitize raw) = Raise e
     end.
Proof.
  intro Hloads.
  assert (Hres : result (sanitize raw)
                 = match e with
                   | JSONDecodeError detail =>
                       Raise (PyException
                                (str "AI response format error: Could not parse AI response as JSON. Details: "
                                 ++ detail ++ str ". Raw response start: "
                                 ++ firstn 500 (candidate_text raw)
                                 ++ str "..."))
                   | PyException _ => Raise e
                   end).
  { destruct (sanitize_parse raw) as [tr [_ ->]]. unfold result at 1.
    cbn [snd]. destruct e as [detail|m].
    - rewrite (parse_report_error _ _ Hloads).
      rewrite slice_to_firstn by lia. reflexivity.
    - unfold parse_report, try_except_JSONDecodeError, bind, call, result.
      now rewrite Hloads. }
  split.
  - intros v Hv. rewrite Hres in Hv. destruct e; discriminate.
  - destruct e as [detail|m]; [|exact Hres].
    cbv zeta. split; [exact Hres|]. split.
    + exists (length (str "AI response format error: Could not parse AI response as JSON. Details: ")),
        (str "AI response format error: Could not parse AI response as JSON. Details: "),
        (str ". Raw response start: " ++ firstn 500 (candidate_text raw)
         ++ str "...").
      split; reflexivity.
    + exists (length (str "AI response format error: Could not parse AI response as JSON. Details: "
                      ++ detail ++ str ". Raw response start: ")),
        (str "AI response format error: Could not parse AI response as JSON. Details: "
         ++ detail ++ str ". Raw response start: "),
        (str "...").
      split; [|reflexivity]. now rewrite <- !app_assoc.
Qed.

(** C10. For a file whose name has no dot, [splitext] gives the empty
    extension, the extractor returns [None], and [post] answers with the
    client-error response about the text that could not be extracted. *)
Theorem no_extension_is_client_error (request : Request) (f : UploadedFile) :
  FILES_resume_file request = Some f ->
  name f <> [] ->
  ~ In 46%N (name f) ->
  snd (PosixPath.splitext (name f)) = []
  /\ result (_extract_text_from_resume f) = Return None
  /\ result (post request)
     = Return {| success := false;
                 message := str "Could not extract text from resume file. Please ensure it's a valid PDF or DOCX and not scanned image.";
                 report_of := None;
                 status := HTTP_400_BAD_REQUEST |}.
Proof.
  intros Hfile Hname Hdot.
  assert (Hext : extension f = []).
  { unfold extension. now rewrite splitext_no_dot. }
  assert (Hres : result (_extract_text_from_resume f) = Return None).
  { rewrite unsupported_run by (rewrite Hext; discriminate).
    now destruct (read f). }
  split; [now rewrite splitext_no_dot|]. split; [exact Hres|].
  apply (post_without_text request f None); try assumption; try reflexivity.
  unfold file_truthy. destruct (name f); [congruence | reflexivity].
Qed.

End HandlerClaims.

(** ** Fences *)

Lemma space_not_backtick (c : char) : isspace c = true -> (96 =? c)%N = false.
Proof.
  intro H. destruct (N.eqb_spec 96 c) as [<-|_]; [discriminate | reflexivity].
Qed.

Lemma blank_no_fence_start (ws p : pystr) :
  blank ws -> startswith ws (96%N :: p) = false.
Proof.
  intro H. destruct H as [|c ws' Hc _]; cbn [startswith]; [reflexivity|].
  unfold char_eqb. now rewrite space_not_backtick.
Qed.

Lemma startswith_cons (a b : char) (s p : pystr) :
  startswith (a :: s) (b :: p) = char_eqb b a && startswith s p.
Proof. reflexivity. Qed.

Lemma find_from_head (s sub : pystr) (i : Z) :
  startswith s sub = true -> find_from i s sub = i.
Proof. intro H. destruct s; cbn [find_from]; now rewrite H. Qed.

(** [find] gets to a marker over the whitespace before it. *)
Lemma find_from_after_blank (ws p rest : pystr) (i : Z) :
  blank ws ->
  find_from i (ws ++ (96%N :: p) ++ rest) (96%N :: p) = i + len ws.
Proof.
  intro Hws. revert i. induction Hws as [|c ws Hc _ IH]; intro i.
  - cbn [app]. rewrite find_from_head by apply startswith_app.
    unfold len. simpl. lia.
  - cbn [app find_from].
    assert (Hs : forall t, startswith (c :: t) (96%N :: p) = false).
    { intro t. cbn [startswith]. unfold char_eqb. now rewrite space_not_backtick. }
    rewrite Hs. change (96%N :: p ++ rest) with ((96%N :: p) ++ rest).
    rewrite IH. unfold len. cbn [length]. lia.
Qed.

Lemma rfind_from_blank (ws p : pystr) (i : Z) :
  blank ws -> rfind_from i ws (96%N :: p) = -1.
Proof.
  intro Hws. revert i. induction Hws as [|c ws Hc _ IH]; intro i.
  - reflexivity.
  - cbn [rfind_from]. rewrite IH. cbn [Z.leb].
    assert (Hs : startswith (c :: ws) (96%N :: p) = false).
    { cbn [startswith]. unfold char_eqb. now rewrite space_not_backtick. }
    now rewrite Hs.
Qed.

(** [rfind] answers the closing fence when only whitespace follows it. *)
Lemma rfind_from_closing (pre ws : pystr) (i : Z) :
  0 <= i -> blank ws ->
  rfind_from i (pre ++ fence ++ ws) fence = i + len pre.
Proof.
  intros Hi Hws. revert i Hi. induction pre as [|c pre IH]; intros i Hi.
  - change (rfind_from i (96%N :: 96%N :: 96%N :: ws) [96%N; 96%N; 96%N] = i + 0).
    cbn [rfind_from]. rewrite (rfind_from_blank ws [96%N; 96%N] (i + 1 + 1 + 1) Hws).
    cbn [Z.leb].
    assert (H1 : startswith (96%N :: ws) [96%N; 96%N; 96%N] = false).
    { rewrite startswith_cons, (blank_no_fence_start ws [96%N] Hws).
      apply andb_false_r. }
    assert (H2 : startswith (96%N :: 96%N :: ws) [96%N; 96%N; 96%N] = false).
    { rewrite !startswith_cons, (blank_no_fence_start ws [] Hws).
      now rewrite !andb_false_r. }
    rewrite H1. cbn [Z.leb]. rewrite H2. cbn [Z.leb].
    simpl. lia.
  - cbn [app rfind_from]. rewrite IH by lia.
    assert (H : (0 <=? i + 1 + len pre) = true) by (apply Z.leb_le; unfold len; lia).
    rewrite H. unfold len. cbn [length]. lia.
Qed.

(** What [rfind] answers, when it is not [-1], is the index of an
    occurrence. *)
Lemma rfind_from_occurs (s sub : pystr) (i : Z) :
  0 <= i -> 0 <= rfind_from i s sub ->
  exists n, occurs_at sub s n /\ rfind_from i s sub = i + Z.of_nat n.
Proof.
  revert i. induction s as [|c s IH]; intros i Hi Hr.
  - cbn [rfind_from] in *. destruct (startswith [] sub) eqn:Es; [|lia].
    apply startswith_prefix in Es. destruct Es as [t Ht].
    exists 0%nat. split; [exists [], t; now split | lia].
  - cbn [rfind_from] in *.
    destruct (0 <=? rfind_from (i + 1) s sub) eqn:El.
    + apply Z.leb_le in El. destruct (IH (i + 1)) as [n [[b [a [Hs Hb]]] Hn]];
        [lia | assumption |].
      exists (S n). split; [|lia].
      exists (c :: b), a. split; [now rewrite Hs | simpl; now rewrite Hb].
    + destruct (startswith (c :: s) sub) eqn:Es; [|lia].
      apply startswith_prefix in Es. destruct Es as [t Ht].
      exists 0%nat. split; [exists [], t; now split | lia].
Qed.

(** An occurrence that begins after a prefix is an occurrence in the
    rest. *)
Lemma app_eq_longer (a b before rest : pystr) :
  a ++ b = before ++ rest -> (length a <= length before)%nat ->
  exists mid, before = a ++ mid /\ b = mid ++ rest.
Proof.
  revert before. induction a as [|x a IH]; intros before Heq Hle.
  - now exists before.
  - destruct before as [|y before]; [simpl in Hle; lia|].
    injection Heq as -> Heq.
    destruct (IH before Heq) as [mid [-> ->]]; [simpl in Hle; lia|].
    now exists mid.
Qed.

Lemma occurs_at_after (sub a b : pystr) (n : nat) :
  occurs_at sub (a ++ b) n -> (length a <= n)%nat ->
  occurs_at sub b (n - length a).
Proof.
  intros [before [after [Hs Hb]]] Hle.
  destruct (app_eq_longer a b before (sub ++ after) Hs) as [mid [-> ->]]; [lia|].
  exists mid, after. split; [reflexivity|].
  rewrite length_app in Hb. lia.
Qed.

(** One step of [replace] for the fence: an occurrence at the head is
    dropped, any other character is kept. *)
Lemma replace_fence_step (s : pystr) :
  replace s fence []
  = if startswith s fence then replace (skipn 3 s) fence []
    else match s with
         | [] => []
         | c :: s' => c :: replace s' fence []
         end.
Proof.
  unfold replace. change fence with [96%N; 96%N; 96%N].
  destruct s as [|c s]; [reflexivity|].
  cbn [replace_from]. destruct (startswith (c :: s) [96%N; 96%N; 96%N]) eqn:Es.
  - apply startswith_prefix in Es. destruct Es as [t Ht].
    injection Ht as -> ->. reflexivity.
  - reflexivity.
Qed.

Lemma replace_fence_head (s x : pystr) :
  replace s fence [] = 96%N :: x -> exists s', s = 96%N :: s'.
Proof.
  rewrite replace_fence_step. destruct (startswith s fence) eqn:Es.
  - apply startswith_prefix in Es. destruct Es as [t ->]. intros _.
    now exists ([96%N; 96%N] ++ t).
  - destruct s as [|c s]; [discriminate|]. intros [= -> _]. now exists s.
Qed.

(** After [replace] no fence is left. *)
Lemma replace_fence_clean (s : pystr) (n : nat) :
  ~ occurs_at fence (replace s fence []) n.
Proof.
  remember (length s) as k eqn:Hk.
  revert s n Hk. induction k as [k IH] using lt_wf_ind. intros s n Hk.
  rewrite replace_fence_step.
  destruct (startswith s fence) eqn:Es.
  - apply startswith_prefix in Es. destruct Es as [t ->].
    apply (IH (length t)); [subst k; simpl; lia | reflexivity].
  - destruct s as [|c s]; intros [before [after [Hs Hb]]].
    + destruct before; discriminate.
    + destruct before as [|b before].
      * change ([] ++ fence ++ after) with (96%N :: 96%N :: 96%N :: after) in Hs.
        injection Hs as -> Hs.
        destruct (replace_fence_head _ _ Hs) as [s1 ->].
        change (replace_from 0 (96%N :: s1) fence [])
          with (replace (96%N :: s1) fence []) in Hs.
        rewrite replace_fence_step in Hs.
        destruct (startswith (96%N :: s1) fence) eqn:Es1.
        -- apply startswith_prefix in Es1. destruct Es1 as [t Ht].
           injection Ht as ->. discriminate.
        -- injection Hs as Hs.
           destruct (replace_fence_head _ _ Hs) as [s2 ->]. discriminate.
      * injection Hs as -> Hs.
        apply (IH (length s)) with (s := s) (n := length before);
          [subst k; simpl; lia | reflexivity |].
        now exists before, after.
Qed.

(** A part of the stripped text is a part of the text. *)
Lemma strip_occurs (sub s : pystr) (n : nat) :
  occurs_at sub (strip s) n -> exists m, occurs_at sub s m.
Proof.
  intros [before [after [Hs _]]].
  destruct (strip_split s) as [a [b [_ [_ Hab]]]].
  exists (length (a ++ before)), (a ++ before), (after ++ b).
  split; [|reflexivity]. rewrite Hab, Hs. now rewrite <- !app_assoc.
Qed.

Lemma rstrip_after_solid (r : pystr) (c : char) (q : pystr) :
  isspace c = false -> rstrip (r ++ c :: q) = r ++ c :: rstrip q.
Proof.
  intro Hc. destruct (rstrip_split q) as [b [Hb Hq]].
  destruct (rstrip q) as [|d u] eqn:Eq.
  - simpl in Hq. subst q.
    change (r ++ c :: b) with (r ++ [c] ++ b). rewrite app_assoc.
    rewrite rstrip_blank by assumption. now apply rstrip_fixed.
  - change (r ++ c :: q) with (r ++ [c] ++ q). rewrite app_assoc.
    rewrite rstrip_app_solid by (rewrite Eq; discriminate).
    now rewrite Eq, <- app_assoc.
Qed.

(** The stripped answer begins with the marker the answer begins with. *)
Lemma strip_opening (ws p body : pystr) (c : char) :
  blank ws -> isspace c = false ->
  strip (ws ++ (96%N :: p ++ [c]) ++ body) = (96%N :: p ++ [c]) ++ rstrip body.
Proof.
  intros Hws Hc.
  assert (Heq : forall t, (96%N :: p ++ [c]) ++ t = (96%N :: p) ++ c :: t).
  { intro t. cbn [app]. now rewrite <- app_assoc. }
  unfold strip. rewrite lstrip_blank by assumption.
  rewrite !Heq. cbn [app]. rewrite lstrip_fixed by reflexivity.
  change (96%N :: p ++ c :: body) with ((96%N :: p) ++ c :: body).
  now rewrite rstrip_after_solid.
Qed.

Lemma startswith_rstrip (s p : pystr) :
  startswith s p = false -> startswith (rstrip s) p = false.
Proof.
  intro H. destruct (startswith (rstrip s) p) eqn:Es; [|reflexivity].
  apply startswith_prefix in Es. destruct Es as [t Ht].
  destruct (rstrip_split s) as [b [_ Hs]].
  assert (Hp : startswith s p = true).
  { apply startswith_prefix. exists (t ++ b). now rewrite Hs, Ht, <- app_assoc. }
  congruence.
Qed.

Section Sanitizer.

Context {E : External}.

Import AnalyzeResumeView.

(** The branches of lines 213 to 228. *)
Lemma candidate_tagged_closed (raw : pystr) :
  startswith (strip raw) fence_json = true ->
  rfind raw fence > find raw fence_json + len fence_json ->
  candidate raw
  = ([], Return (strip (slice raw (find raw fence_json + len fence_json)
                          (rfind raw fence)))).
Proof.
  intros Hs Hgt. unfold candidate. rewrite Hs.
  apply Z.gt_lt, Z.gtb_lt in Hgt. now rewrite Hgt.
Qed.

Lemma candidate_tagged_open (raw : pystr) :
  startswith (strip raw) fence_json = true ->
  rfind raw fence <= find raw fence_json + len fence_json ->
  candidate raw
  = ([Log WARNING (str "JSON markdown block started but not properly closed. Attempting to parse full text.")],
     Return (strip (replace (replace raw fence_json []) fence []))).
Proof.
  intros Hs Hle. unfold candidate. rewrite Hs.
  assert (H : (rfind raw fence >? find raw fence_json + len fence_json) = false).
  { rewrite Z.gtb_ltb. apply Z.ltb_ge. lia. }
  now rewrite H.
Qed.

Lemma candidate_generic_closed (raw : pystr) :
  startswith (strip raw) fence_json = false ->
  startswith (strip raw) fence = true ->
  rfind raw fence > find raw fence + len fence ->
  candidate raw
  = ([], Return (strip (slice raw (find raw fence + len fence)
                          (rfind raw fence)))).
Proof.
  intros Hj Hs Hgt. unfold candidate. rewrite Hj, Hs.
  apply Z.gt_lt, Z.gtb_lt in Hgt. now rewrite Hgt.
Qed.

Lemma candidate_generic_open (raw : pystr) :
  startswith (strip raw) fence_json = false ->
  startswith (strip raw) fence = true ->
  rfind raw fence <= find raw fence + len fence ->
  candidate raw
  = ([Log WARNING (str "Generic markdown block started but not properly closed. Attempting to parse full text.")],
     Return (strip (replace raw fence []))).
Proof.
  intros Hj Hs Hle. unfold candidate. rewrite Hj, Hs.
  assert (H : (rfind raw fence >? find raw fence + len fence) = false).
  { rewrite Z.gtb_ltb. apply Z.ltb_ge. lia. }
  now rewrite H.
Qed.

Lemma candidate_bare (raw : pystr) :
  startswith (strip raw) fence = false ->
  candidate raw = ([], Return raw).
Proof.
  intro Hs. unfold candidate. rewrite Hs.
  destruct (startswith (strip raw) fence_json) eqn:Hj; [|reflexivity].
  apply startswith_prefix in Hj. destruct Hj as [t Ht].
  assert (H : startswith (strip raw) fence = true).
  { apply startswith_prefix. exists (str "json" ++ t). now rewrite Ht. }
  congruence.
Qed.

Lemma candidate_text_of (raw text : pystr) (tr : list event) :
  candidate raw = (tr, Return text) -> candidate_text raw = text.
Proof. intro H. unfold candidate_text, result. now rewrite H. Qed.

(** Where there is no fence after the opening marker, [rfind] does not get
    past it. *)
Lemma rfind_unclosed (opening body : pystr) :
  (forall n, (0 < n)%nat -> ~ occurs_at fence body n) ->
  rfind (opening ++ body) fence <= len opening.
Proof.
  intro Hno. unfold rfind.
  destruct (Z_lt_le_dec (rfind_from 0 (opening ++ body) fence) 0) as [Hneg|Hpos].
  - unfold len. lia.
  - destruct (rfind_from_occurs _ _ 0 (Z.le_refl 0) Hpos) as [n [Hocc Hn]].
    rewrite Hn. unfold len.
    destruct (le_gt_dec n (length opening)) as [Hle|Hgt]; [lia|].
    exfalso. apply (Hno (n - length opening)%nat); [lia|].
    apply occurs_at_after; [assumption | lia].
Qed.

Lemma falls_back (raw text : pystr) (tr : list event) :
  candidate raw = (tr, Return text) ->
  (forall n, ~ occurs_at fence text n) ->
  falls_back_to raw text.
Proof.
  intros Hc Hclean. unfold falls_back_to.
  assert (Ht := candidate_text_of _ _ _ Hc).
  split; [exact Ht|]. split; [exact Hclean|].
  destruct (sanitize_parse raw) as [tr' [_ Hs]]. rewrite Hs, Ht.
  split.
  - unfold trace at 1. cbn [fst].
    destruct (parse_report_calls text) as [trp ->].
    apply in_app_iff. right. now left.
  - intros v Hv. unfold result at 1. cbn [snd].
    now rewrite (parse_report_ok _ _ Hv).
Qed.

(** C4. An answer that begins, after whitespace, with a fence marker and
    has no fence after that marker: the sanitiser removes every occurrence
    of the markers from the whole answer, strips the result and hands it to
    [json.loads].  The first part is for the marker with the [json] tag,
    the second for the marker without it. *)
Theorem unclosed_fence_falls_back (ws body : pystr) :
  blank ws ->
  (forall n, (0 < n)%nat -> ~ occurs_at fence body n) ->
  falls_back_to (ws ++ fence_json ++ body)
    (strip (replace (replace (ws ++ fence_json ++ body) fence_json []) fence []))
  /\ (startswith body (str "json") = false ->
      falls_back_to (ws ++ fence ++ body)
        (strip (replace (ws ++ fence ++ body) fence []))).
Proof.
  intros Hws Hno. split.
  - set (raw := ws ++ fence_json ++ body).
    assert (Hs : startswith (strip raw) fence_json = true).
    { unfold raw. change fence_json with (96%N :: str "``jso" ++ [110%N]).
      rewrite strip_opening by (assumption || reflexivity).
      apply startswith_app. }
    assert (Hfind : find raw fence_json = len ws).
    { unfold find, raw. change fence_json with (96%N :: str "``json").
      now rewrite find_from_after_blank. }
    assert (Hr : rfind raw fence <= find raw fence_json + len fence_json).
    { rewrite Hfind. unfold raw. rewrite app_assoc.
      assert (H := rfind_unclosed (ws ++ fence_json) body Hno).
      unfold len in *. rewrite length_app in H. lia. }
    apply (falls_back raw _ _ (candidate_tagged_open raw Hs Hr)).
    intros n Hn. apply strip_occurs in Hn. destruct Hn as [m Hm].
    exact (replace_fence_clean _ _ Hm).
  - intro Hj. set (raw := ws ++ fence ++ body).
    assert (Hstrip : strip raw = fence ++ rstrip body).
    { unfold raw. change fence with (96%N :: [96%N] ++ [96%N]).
      now rewrite strip_opening. }
    assert (Hs : startswith (strip raw) fence = true).
    { rewrite Hstrip. apply startswith_app. }
    assert (Hsj : startswith (strip raw) fence_json = false).
    { rewrite Hstrip. change fence_json with (fence ++ str "json").
      change fence with [96%N; 96%N; 96%N]. cbn [app].
      rewrite !startswith_cons. unfold char_eqb. rewrite N.eqb_refl.
      cbn [andb]. now apply startswith_rstrip. }
    assert (Hfind : find raw fence = len ws).
    { unfold find, raw. change fence with (96%N :: [96%N; 96%N]).
      now rewrite find_from_after_blank. }
    assert (Hr : rfind raw fence <= find raw fence + len fence).
    { rewrite Hfind. unfold raw. rewrite app_assoc.
      assert (H := rfind_unclosed (ws ++ fence) body Hno).
      unfold len in *. rewrite length_app in H. lia. }
    apply (falls_back raw _ _ (candidate_generic_open raw Hsj Hs Hr)).
    intros n Hn. apply strip_occurs in Hn. destruct Hn as [m Hm].
    exact (replace_fence_clean _ _ Hm).
Qed.

End Sanitizer.

Section RoundTrip.

Context {E : External}.

Import AnalyzeResumeView.

Hypothesis contract : decoder_contract E.

(** A text that decodes begins, after whitespace, with a character that
    opens a value: not with a backquote, and not with a [j]. *)
Lemma decoded_head (j : pystr) (v : report) :
  json_loads j = Return v ->
  j <> []
  /\ startswith (strip j) fence = false
  /\ forall ws rest, blank ws -> startswith (ws ++ j ++ rest) (str "json") = false.
Proof.
  intro Hv. destruct (@loads_opens E contract j v Hv) as [c [t [Hs Hc]]].
  assert (Hne : j <> []) by (intros ->; discriminate).
  split; [exact Hne|]. split.
  - rewrite Hs. change fence with [96%N; 96%N; 96%N].
    rewrite startswith_cons. unfold char_eqb.
    destruct (N.eqb_spec 96 c) as [<-|_]; [discriminate | reflexivity].
  - intros ws rest Hws.
    assert (Hhead : forall d u, ws ++ j ++ rest = d :: u -> (106 =? d)%N = false).
    { intros d u Hd. destruct Hws as [|w ws Hw _].
      - destruct (strip_split j) as [a [b [Ha [_ Hj]]]].
        rewrite Hs in Hj. destruct Ha as [|w a Hw _].
        + rewrite Hj in Hd. injection Hd as <- _.
          destruct (N.eqb_spec 106 c) as [<-|_]; [discriminate | reflexivity].
        + rewrite Hj in Hd. injection Hd as <- _.
          destruct (N.eqb_spec 106 w) as [<-|_]; [discriminate | reflexivity].
      - injection Hd as <- _.
        destruct (N.eqb_spec 106 w) as [<-|_]; [discriminate | reflexivity]. }
    destruct (ws ++ j ++ rest) as [|d u] eqn:Hd; [reflexivity|].
    change (str "json") with (106%N :: str "son"). rewrite startswith_cons.
    unfold char_eqb. now rewrite (Hhead d u eq_refl).
Qed.

(** The candidate of an answer with an opening marker, a text between
    whitespace and a closing fence is that text, stripped. *)
Lemma closed_fence_slice (ws0 p inner ws3 : pystr) :
  blank ws0 -> blank ws3 -> inner <> [] ->
  let raw := ws0 ++ (96%N :: p) ++ inner ++ fence ++ ws3 in
  find raw (96%N :: p) = len ws0
  /\ rfind raw fence > len ws0 + len (96%N :: p)
  /\ slice raw (len ws0 + len (96%N :: p)) (rfind raw fence) = inner.
Proof.
  intros H0 H3 Hne raw.
  assert (Hfind : find raw (96%N :: p) = len ws0).
  { unfold find, raw. now rewrite find_from_after_blank. }
  assert (Hrfind : rfind raw fence = len (ws0 ++ (96%N :: p)) + len inner).
  { unfold rfind, raw.
    replace (ws0 ++ (96%N :: p) ++ inner ++ fence ++ ws3)
      with (((ws0 ++ (96%N :: p)) ++ inner) ++ fence ++ ws3)
      by now rewrite <- !app_assoc.
    rewrite rfind_from_closing by (assumption || lia).
    unfold len. rewrite !length_app. lia. }
  assert (Hlen : len (ws0 ++ (96%N :: p)) = len ws0 + len (96%N :: p)).
  { unfold len. rewrite length_app. lia. }
  split; [exact Hfind|]. split.
  - rewrite Hrfind, Hlen. destruct inner; [congruence|]. unfold len. simpl. lia.
  - rewrite Hrfind, <- Hlen. unfold raw.
    replace (ws0 ++ (96%N :: p) ++ inner ++ fence ++ ws3)
      with ((ws0 ++ (96%N :: p)) ++ inner ++ (fence ++ ws3))
      by now rewrite <- !app_assoc.
    apply slice_middle.
Qed.

Lemma strip_closed (ws0 p inner ws3 : pystr) :
  blank ws0 -> blank ws3 ->
  strip (ws0 ++ (96%N :: p) ++ inner ++ fence ++ ws3)
  = (96%N :: p) ++ inner ++ fence.
Proof.
  intros H0 H3.
  replace (ws0 ++ (96%N :: p) ++ inner ++ fence ++ ws3)
    with (ws0 ++ ((96%N :: p) ++ inner ++ fence) ++ ws3)
    by now rewrite <- !app_assoc.
  rewrite strip_around by assumption.
  change fence with ([96%N; 96%N] ++ [96%N]).
  replace ((96%N :: p) ++ inner ++ [96%N; 96%N] ++ [96%N])
    with (96%N :: (p ++ inner ++ [96%N; 96%N]) ++ [96%N])
    by (cbn [app]; now rewrite <- !app_assoc).
  now apply strip_solid.
Qed.

(** C1. A text [j] that [json.loads] decodes to [v], given to the
    sanitiser between a [json] fence and a closing fence, between a fence
    without a tag and a closing fence, or as it is, comes out as [v].  The
    fences may have whitespace before them, after them and between them and
    the text. *)
Theorem fenced_json_round_trip (j ws0 ws1 ws2 ws3 : pystr) (v : report) :
  json_loads j = Return v ->
  blank ws0 -> blank ws1 -> blank ws2 -> blank ws3 ->
  result (sanitize (ws0 ++ fence_json ++ (ws1 ++ j ++ ws2) ++ fence ++ ws3))
  = Return v
  /\ result (sanitize (ws0 ++ fence ++ (ws1 ++ j ++ ws2) ++ fence ++ ws3))
     = Return v
  /\ result (sanitize j) = Return v.
Proof.
  intros Hv H0 H1 H2 H3.
  destruct (decoded_head j v Hv) as [Hne [Hbare Htag]].
  assert (Hinner : ws1 ++ j ++ ws2 <> []).
  { intro Hnil. apply app_eq_nil in Hnil. destruct Hnil as [_ Hnil].
    apply app_eq_nil in Hnil. tauto. }
  assert (Hcand : json_loads (strip (ws1 ++ j ++ ws2)) = Return v).
  { rewrite strip_around by assumption. exact (@loads_strip E contract j v Hv). }
  assert (Hdone : forall raw tr,
             candidate raw = (tr, Return (strip (ws1 ++ j ++ ws2))) ->
             result (sanitize raw) = Return v).
  { intros raw tr Hc. destruct (sanitize_parse raw) as [tr' [_ ->]].
    rewrite (candidate_text_of _ _ _ Hc). unfold result at 1. cbn [snd].
    now rewrite (parse_report_ok _ _ Hcand). }
  split; [|split].
  - set (raw := ws0 ++ fence_json ++ (ws1 ++ j ++ ws2) ++ fence ++ ws3).
    destruct (closed_fence_slice ws0 (str "``json") (ws1 ++ j ++ ws2) ws3
                H0 H3 Hinner) as [Hfind [Hgt Hslice]].
    change (96%N :: str "``json") with fence_json in *. fold raw in Hfind, Hgt, Hslice.
    assert (Hs : startswith (strip raw) fence_json = true).
    { unfold raw. change fence_json with (96%N :: str "``json").
      rewrite strip_closed by assumption. apply startswith_app. }
    apply (Hdone raw []). rewrite (candidate_tagged_closed raw Hs).
    + now rewrite Hfind, Hslice.
    + now rewrite Hfind.
  - set (raw := ws0 ++ fence ++ (ws1 ++ j ++ ws2) ++ fence ++ ws3).
    destruct (closed_fence_slice ws0 (str "``") (ws1 ++ j ++ ws2) ws3
                H0 H3 Hinner) as [Hfind [Hgt Hslice]].
    change (96%N :: str "``") with fence in *. fold raw in Hfind, Hgt, Hslice.
    assert (Hstrip : strip raw = fence ++ (ws1 ++ j ++ ws2) ++ fence).
    { unfold raw. change fence with (96%N :: str "``") at 1 3.
      now rewrite strip_closed. }
    assert (Hs : startswith (strip raw) fence = true).
    { rewrite Hstrip. apply startswith_app. }
    assert (Hsj : startswith (strip raw) fence_json = false).
    { rewrite Hstrip. change fence_json with (fence ++ str "json").
      change fence with [96%N; 96%N; 96%N] at 1 3. cbn [app].
      rewrite !startswith_cons. unfold char_eqb. rewrite N.eqb_refl.
      cbn [andb]. rewrite <- !app_assoc. now apply Htag. }
    apply (Hdone raw []). rewrite (candidate_generic_closed raw Hsj Hs).
    + now rewrite Hfind, Hslice.
    + now rewrite Hfind.
  - destruct (sanitize_parse j) as [tr [_ ->]].
    rewrite (candidate_text_of _ _ _ (candidate_bare j Hbare)).
    unfold result at 1. cbn [snd]. now rewrite (parse_report_ok _ _ Hv).
Qed.

End RoundTrip.

(** ** The reference decoder *)

Module JsonFacts.

Import Json.

Lemma whitespace_isspace (c : char) : whitespace c = true -> isspace c = true.
Proof.
  unfold whitespace. rewrite !orb_true_iff, !N.eqb_eq.
  intros [[[->| ->]| ->]| ->]; reflexivity.
Qed.

Lemma wsblank_blank (s : pystr) : wsblank s -> blank s.
Proof.
  unfold wsblank, blank. apply Forall_impl. exact whitespace_isspace.
Qed.

Lemma skip_split (s : pystr) : exists a, wsblank a /\ s = a ++ skip s.
Proof.
  induction s as [|c s [a [Ha Hs]]]; simpl.
  - exists []. split; [constructor | reflexivity].
  - destruct (whitespace c) eqn:Hc.
    + exists (c :: a). split; [now constructor | simpl; now f_equal].
    + exists []. split; [constructor | reflexivity].
Qed.

Lemma skip_head (s : pystr) (c : char) (t : pystr) :
  skip s = c :: t -> whitespace c = false.
Proof.
  induction s as [|d s IH]; simpl; [discriminate|].
  destruct (whitespace d) eqn:Hd; [exact IH|].
  intros [= <- _]. exact Hd.
Qed.

Lemma skip_wsblank (r : pystr) : wsblank r -> skip r = [].
Proof.
  induction 1 as [|c r Hc _ IH]; simpl; [reflexivity|]. now rewrite Hc.
Qed.

Lemma skip_nil_wsblank (r : pystr) : skip r = [] -> wsblank r.
Proof.
  intro H. destruct (skip_split r) as [a [Ha Hr]].
  rewrite H, app_nil_r in Hr. now subst.
Qed.

Lemma skip_fixed (c : char) (t : pystr) :
  whitespace c = false -> skip (c :: t) = c :: t.
Proof. intro H. simpl. now rewrite H. Qed.

(** Skipping whitespace before a tail of whitespace: either all of the text
    is skipped, or the tail is left where it is. *)
Lemma skip_app (y r : pystr) :
  wsblank r ->
  (skip y = [] /\ skip (y ++ r) = [])
  \/ (skip y <> [] /\ skip (y ++ r) = skip y ++ r).
Proof.
  intro Hr. induction y as [|c y IH]; simpl.
  - left. split; [reflexivity | now apply skip_wsblank].
  - destruct (whitespace c); [exact IH|].
    right. split; [discriminate | reflexivity].
Qed.

Lemma skip_length (s : pystr) : (length (skip s) <= length s)%nat.
Proof.
  destruct (skip_split s) as [a [_ Hs]].
  rewrite Hs at 2. rewrite length_app. lia.
Qed.

(** *** Strings *)

Lemma prepend_ok (out : pystr) (r : res (list N * list N)) (v rest : pystr) :
  prepend out r = Ok (v, rest) -> exists v', r = Ok (v', rest) /\ v = out ++ v'.
Proof.
  destruct r as [[v' rest']| |]; simpl; try discriminate.
  intros [= <- <-]. now exists v'.
Qed.

(** Only a quote ends a string. *)
Lemma step_stop (here : nat) (st : lex) (c : char) (out : pystr) :
  step here st c = Stop out -> c = 34%N.
Proof.
  unfold step, fresh, escape, plain.
  destruct st as [| |k acc high|[high|] uni|high];
    repeat match goal with
           | |- context [if ?b then _ else _] => destruct b eqn:?
           | |- context [match ?x with _ => _ end] => destruct x eqn:?
           end; try discriminate;
    intros _; now apply N.eqb_eq.
Qed.

(** Where the character is matters to the position of an error only. *)
Lemma step_here (here here' : nat) (st : lex) (c : char) :
  match step here st c with
  | Fail _ _ => True
  | m => step here' st c = m
  end.
Proof.
  unfold step, fresh, escape, plain.
  destruct st as [| |k acc high|[high|] uni|high];
    repeat match goal with
           | |- context [if ?b then _ else _] => destruct b eqn:?
           | |- context [match ?x with _ => _ end] => destruct x eqn:?
           end; try exact I; try reflexivity; try congruence.
Qed.

(** The scanner stops after a quote. *)
Lemma run_consumed (start : nat) (st : lex) (s v rest : pystr) :
  run start st s = Ok (v, rest) -> exists pre, s = pre ++ 34%N :: rest.
Proof.
  revert st v. induction s as [|c s IH]; intros st v H; cbn [run] in H.
  - destruct st; discriminate.
  - destruct (step (length (c :: s)) st c) as [out st'|out|msg k] eqn:Hstep.
    + apply prepend_ok in H. destruct H as [v' [H _]].
      destruct (IH _ _ H) as [pre ->]. now exists (c :: pre).
    + injection H as <- <-. apply step_stop in Hstep. subst c. now exists [].
    + discriminate.
Qed.

(** What the scanner gives does not depend on what follows the quote. *)
Lemma run_local (start start' : nat) (st : lex) (y r v z : pystr) :
  run start st (y ++ r) = Ok (v, z ++ r) -> run start' st y = Ok (v, z).
Proof.
  revert st v. induction y as [|c y IH]; intros st v H.
  - apply run_consumed in H. destruct H as [pre H]. exfalso.
    apply (f_equal (@length N)) in H. simpl in H.
    rewrite !length_app in H. simpl in H. rewrite length_app in H. lia.
  - cbn [app run] in *.
    assert (Hh := step_here (length (c :: y ++ r)) (length (c :: y)) st c).
    destruct (step (length (c :: y ++ r)) st c) as [out st'|out|msg k];
      [| |discriminate]; rewrite Hh.
    + apply prepend_ok in H. destruct H as [v' [H ->]].
      now rewrite (IH _ _ H).
    + injection H as <- H. apply app_inv_tail in H. now subst.
Qed.

(** *** Numbers *)

Lemma ends_digit_app (a b : pystr) : ends_digit b -> ends_digit (a ++ b).
Proof.
  intros [pre [d [-> Hd]]]. exists (a ++ pre), d. now rewrite app_assoc.
Qed.

Lemma ends_digit_cons (c : char) (b : pystr) : ends_digit b -> ends_digit (c :: b).
Proof. apply (ends_digit_app [c]). Qed.

Lemma digits_spec (s : pystr) :
  s = fst (digits s) ++ snd (digits s)
  /\ (fst (digits s) = [] \/ ends_digit (fst (digits s))).
Proof.
  induction s as [|c s [IH1 IH2]]; simpl; [now split; [|left]|].
  destruct (is_digit c) eqn:Hc; [|now split; [|left]].
  destruct (digits s) as [ds rest]. simpl in *. split; [now f_equal|].
  right. destruct IH2 as [->|H]; [now exists [], c | now apply ends_digit_cons].
Qed.

Lemma whitespace_not_digit (c : char) : whitespace c = true -> is_digit c = false.
Proof.
  unfold whitespace. rewrite !orb_true_iff, !N.eqb_eq.
  intros [[[->| ->]| ->]| ->]; reflexivity.
Qed.

Lemma digits_app (y r : pystr) :
  wsblank r -> digits (y ++ r) = (fst (digits y), snd (digits y) ++ r).
Proof.
  intro Hr. induction y as [|c y IH]; simpl.
  - destruct Hr as [|w r' Hw _]; [reflexivity|]. simpl.
    now rewrite (whitespace_not_digit _ Hw).
  - destruct (is_digit c); [|reflexivity].
    rewrite IH. now destruct (digits y).
Qed.

Lemma fraction_spec (s : pystr) :
  s = fst (fraction s) ++ snd (fraction s)
  /\ (fst (fraction s) = [] \/ ends_digit (fst (fraction s))).
Proof.
  unfold fraction. destruct s as [|c s]; [now split; [|left]|].
  destruct (c =? 46)%N; [|now split; [|left]].
  destruct (digits_spec s) as [H1 H2].
  destruct (digits s) as [[|d ds] rest]; simpl in *; [now split; [|left]|].
  split; [now f_equal|]. right. apply ends_digit_cons.
  destruct H2 as [H|H]; [discriminate | exact H].
Qed.

Lemma fraction_app (y r : pystr) :
  wsblank r -> fraction (y ++ r) = (fst (fraction y), snd (fraction y) ++ r).
Proof.
  intro Hr. unfold fraction. destruct y as [|c y]; simpl.
  - destruct Hr as [|w r' Hw _]; [reflexivity|].
    destruct (N.eqb_spec w 46) as [->|_]; [discriminate | reflexivity].
  - destruct (c =? 46)%N; [|reflexivity].
    rewrite digits_app by assumption.
    destruct (digits y) as [[|d ds] rest]; reflexivity.
Qed.

Lemma exponent_spec (s : pystr) :
  s = fst (exponent s) ++ snd (exponent s)
  /\ (fst (exponent s) = [] \/ ends_digit (fst (exponent s))).
Proof.
  unfold exponent. destruct s as [|e s]; [now split; [|left]|].
  destruct ((e =? 101) || (e =? 69))%N; [|now split; [|left]].
  destruct s as [|sign s]; [now split; [|left]|].
  destruct ((sign =? 45) || (sign =? 43))%N.
  - destruct (digits_spec s) as [H1 H2].
    destruct (digits s) as [[|d ds] rest]; simpl in *; [now split; [|left]|].
    split; [now do 2 f_equal|]. right. do 2 apply ends_digit_cons.
    destruct H2 as [H|H]; [discriminate | exact H].
  - destruct (digits_spec (sign :: s)) as [H1 H2].
    destruct (digits (sign :: s)) as [[|d ds] rest]; simpl in *;
      [now split; [|left]|].
    split; [now f_equal|]. right. apply ends_digit_cons.
    destruct H2 as [H|H]; [discriminate | exact H].
Qed.

Lemma exponent_app (y r : pystr) :
  wsblank r -> exponent (y ++ r) = (fst (exponent y), snd (exponent y) ++ r).
Proof.
  intro Hr. unfold exponent. destruct y as [|e y]; cbn [app].
  - destruct Hr as [|w r' Hw _]; [reflexivity|].
    assert (H : ((w =? 101) || (w =? 69))%N = false).
    { revert Hw. unfold whitespace. rewrite !orb_true_iff, !N.eqb_eq.
      intros [[[->| ->]| ->]| ->]; reflexivity. }
    now rewrite H.
  - destruct ((e =? 101) || (e =? 69))%N; [|reflexivity].
    destruct y as [|sign y]; cbn [app].
    + destruct Hr as [|w r' Hw _]; [reflexivity|].
      assert (H : ((w =? 45) || (w =? 43))%N = false).
      { revert Hw. unfold whitespace. rewrite !orb_true_iff, !N.eqb_eq.
        intros [[[->| ->]| ->]| ->]; reflexivity. }
      rewrite H. cbn [digits]. now rewrite (whitespace_not_digit _ Hw).
    + destruct ((sign =? 45) || (sign =? 43))%N.
      * rewrite digits_app by assumption.
        destruct (digits y) as [[|d ds] rest]; reflexivity.
      * change (sign :: y ++ r) with ((sign :: y) ++ r).
        rewrite digits_app by assumption.
        destruct (digits (sign :: y)) as [[|d ds] rest]; reflexivity.
Qed.

Lemma integer_spec (s i rest : pystr) :
  integer s = Some (i, rest) -> s = i ++ rest /\ ends_digit i.
Proof.
  unfold integer. destruct s as [|c s]; [discriminate|].
  destruct (c =? 48)%N eqn:Hz.
  - intros [= <- <-]. split; [reflexivity|]. exists [], c. split; [reflexivity|].
    apply N.eqb_eq in Hz. now subst.
  - destruct (is_digit c) eqn:Hc; [|discriminate].
    destruct (digits_spec s) as [H1 H2]. destruct (digits s) as [ds r].
    intros [= <- <-]. simpl in *. split; [now f_equal|].
    destruct H2 as [->|H]; [now exists [], c | now apply ends_digit_cons].
Qed.

Lemma integer_app (y r : pystr) :
  wsblank r ->
  integer (y ++ r)
  = match integer y with
    | Some (i, rest) => Some (i, rest ++ r)
    | None => None
    end.
Proof.
  intro Hr. unfold integer. destruct y as [|c y]; cbn [app].
  - destruct Hr as [|w r' Hw _]; [reflexivity|].
    rewrite (whitespace_not_digit _ Hw).
    destruct (N.eqb_spec w 48) as [->|_]; [discriminate | reflexivity].
  - destruct (c =? 48)%N; [reflexivity|].
    destruct (is_digit c); [|reflexivity].
    rewrite digits_app by assumption. now destruct (digits y).
Qed.

Lemma match_number_spec (s : pystr) (v : value) (rest : pystr) :
  match_number s = Some (v, rest) -> exists l, s = l ++ rest /\ ends_digit l.
Proof.
  unfold match_number.
  set (sign := match s with
               | c :: s' => if (c =? 45)%N then (true, s') else (false, s)
               | [] => (false, s)
               end).
  assert (Hsign : exists m, s = m ++ snd sign).
  { subst sign. destruct s as [|c s]; [now exists []|].
    destruct (c =? 45)%N; [now exists [c] | now exists []]. }
  destruct sign as [negative s1]. destruct Hsign as [m Hm]. simpl in Hm.
  destruct (integer s1) as [[i s2]|] eqn:Hi; [|discriminate].
  apply integer_spec in Hi. destruct Hi as [H1 Hdi].
  destruct (fraction_spec s2) as [H2 Hdf].
  destruct (fraction s2) as [f s3]. simpl in *.
  destruct (exponent_spec s3) as [H3 Hde].
  destruct (exponent s3) as [e s4]. simpl in *.
  intro H. assert (Hrest : rest = s4) by (destruct f, e; now injection H).
  subst rest. exists (m ++ i ++ f ++ e). split.
  - rewrite Hm, H1, H2, H3. now rewrite <- !app_assoc.
  - apply ends_digit_app.
    destruct Hde as [->|Hde].
    + rewrite app_nil_r. destruct Hdf as [->|Hdf].
      * now rewrite app_nil_r.
      * now apply ends_digit_app.
    + rewrite app_assoc. now apply ends_digit_app.
Qed.

Lemma match_number_app (y r : pystr) :
  wsblank r ->
  match_number (y ++ r)
  = match match_number y with
    | Some (v, rest) => Some (v, rest ++ r)
    | None => None
    end.
Proof.
  intro Hr. unfold match_number.
  assert (Hsign :
    (match y ++ r with
     | c :: s' => if (c =? 45)%N then (true, s') else (false, y ++ r)
     | [] => (false, y ++ r)
     end)
    = (let p := match y with
                | c :: s' => if (c =? 45)%N then (true, s') else (false, y)
                | [] => (false, y)
                end in (fst p, snd p ++ r))).
  { destruct y as [|c y]; cbn [app].
    - destruct Hr as [|w r' Hw _]; [reflexivity|].
      assert (H : (w =? 45)%N = false).
      { revert Hw. unfold whitespace. rewrite !orb_true_iff, !N.eqb_eq.
        intros [[[->| ->]| ->]| ->]; reflexivity. }
      now rewrite H.
    - now destruct (c =? 45)%N. }
  rewrite Hsign. clear Hsign.
  destruct (match y with
            | c :: s' => if (c =? 45)%N then (true, s') else (false, y)
            | [] => (false, y)
            end) as [negative s1]. cbn [fst snd].
  rewrite integer_app by assumption.
  destruct (integer s1) as [[i s2]|]; [|reflexivity].
  rewrite fraction_app by assumption. destruct (fraction s2) as [f s3].
  cbn [fst snd]. rewrite exponent_app by assumption.
  destruct (exponent s3) as [e s4]. cbn [fst snd].
  destruct f, e; reflexivity.
Qed.


(** *** Constants *)

Lemma starts_split (s : pystr) (word : string) :
  starts s word = true ->
  s = str word ++ skipn (length (str word)) s.
Proof.
  unfold starts. intro H. apply startswith_prefix in H. destruct H as [t ->].
  now rewrite skipn_app, skipn_all, Nat.sub_diag.
Qed.

Lemma startswith_app_tail (y r w : pystr) :
  wsblank r -> Forall (fun c => whitespace c = false) w ->
  startswith (y ++ r) w = startswith y w.
Proof.
  intros Hr Hw. revert y. induction Hw as [|a w Ha _ IH]; intro y.
  - reflexivity.
  - destruct y as [|b y]; cbn [app].
    + destruct Hr as [|c r' Hc _]; [reflexivity|].
      rewrite startswith_cons. unfold char_eqb.
      destruct (N.eqb_spec a c) as [->|_]; [congruence | reflexivity].
    + rewrite !startswith_cons. now rewrite IH.
Qed.

Lemma starts_app (y r : pystr) (word : string) :
  wsblank r -> forallb (fun c => negb (whitespace c)) (str word) = true ->
  starts (y ++ r) word = starts y word.
Proof.
  intros Hr Hw. apply startswith_app_tail; [assumption|].
  apply Forall_forall. intros c Hc.
  rewrite forallb_forall in Hw. specialize (Hw c Hc).
  now destruct (whitespace c).
Qed.

Lemma starts_skipn (y r : pystr) (word : string) (n : nat) :
  n = length (str word) -> starts y word = true ->
  skipn n (y ++ r) = skipn n y ++ r.
Proof.
  unfold starts. intros -> H. apply startswith_prefix in H. destruct H as [t ->].
  rewrite <- app_assoc. now rewrite !skipn_app, !skipn_all, Nat.sub_diag.
Qed.

Lemma consumed_after (p t rest : pystr) :
  consumed t rest -> consumed (p ++ t) rest.
Proof.
  intros [pre [d [-> Hd]]]. exists (p ++ pre), d. now rewrite <- app_assoc.
Qed.

Lemma consumed_length (s rest : pystr) :
  consumed s rest -> (length rest < length s)%nat.
Proof.
  intros [pre [d [-> _]]]. rewrite length_app. simpl. lia.
Qed.

Lemma consumed_word (s : pystr) (word : string) (pre : pystr) (d : char) :
  starts s word = true -> str word = pre ++ [d] -> isspace d = false ->
  consumed s (skipn (length (str word)) s).
Proof.
  intros Hs Hw Hd. apply starts_split in Hs.
  exists pre, d. split; [|assumption].
  rewrite Hs at 1. rewrite Hw, <- app_assoc. reflexivity.
Qed.

Lemma digit_not_space (d : char) : is_digit d = true -> isspace d = false.
Proof.
  unfold is_digit, isspace. rewrite andb_true_iff, !N.leb_le. intros [H1 H2].
  repeat match goal with
         | |- context [(?a <=? ?b)%N] =>
             destruct (N.leb_spec a b); try lia
         | |- context [(?a =? ?b)%N] =>
             destruct (N.eqb_spec a b); try lia
         end; reflexivity.
Qed.

Lemma scan_atom_consumed (s : pystr) (v : value) (rest : pystr) :
  scan_atom s = Ok (v, rest) -> consumed s rest.
Proof.
  unfold scan_atom.
  destruct (starts s "null") eqn:H1.
  { intros [= <- <-]. now apply (consumed_word s "null" (str "nul") 108%N). }
  destruct (starts s "true") eqn:H2.
  { intros [= <- <-]. now apply (consumed_word s "true" (str "tru") 101%N). }
  destruct (starts s "false") eqn:H3.
  { intros [= <- <-]. now apply (consumed_word s "false" (str "fals") 101%N). }
  destruct (match_number s) as [[w r]|] eqn:Hn.
  { intros [= <- <-]. apply match_number_spec in Hn.
    destruct Hn as [l [-> [pre [d [-> Hd]]]]].
    exists pre, d. split; [now rewrite <- app_assoc | now apply digit_not_space]. }
  destruct (starts s "NaN") eqn:H4.
  { intros [= <- <-]. now apply (consumed_word s "NaN" (str "Na") 78%N). }
  destruct (starts s "Infinity") eqn:H5.
  { intros [= <- <-].
    now apply (consumed_word s "Infinity" (str "Infinit") 121%N). }
  destruct (starts s "-Infinity") eqn:H6.
  { intros [= <- <-].
    now apply (consumed_word s "-Infinity" (str "-Infinit") 121%N). }
  discriminate.
Qed.

Lemma scan_atom_app (y r : pystr) :
  wsblank r ->
  scan_atom (y ++ r)
  = match scan_atom y with
    | Ok (v, z) => Ok (v, z ++ r)
    | Err msg k => Err msg (k + length r)
    | Exhausted => Exhausted
    end.
Proof.
  intro Hr. unfold scan_atom.
  rewrite !starts_app by (assumption || reflexivity).
  rewrite match_number_app by assumption.
  destruct (starts y "null") eqn:H1.
  { now rewrite (starts_skipn y r "null" 4 eq_refl H1). }
  destruct (starts y "true") eqn:H2.
  { now rewrite (starts_skipn y r "true" 4 eq_refl H2). }
  destruct (starts y "false") eqn:H3.
  { now rewrite (starts_skipn y r "false" 5 eq_refl H3). }
  destruct (match_number y) as [[w z]|]; [reflexivity|].
  destruct (starts y "NaN") eqn:H4.
  { now rewrite (starts_skipn y r "NaN" 3 eq_refl H4). }
  destruct (starts y "Infinity") eqn:H5.
  { now rewrite (starts_skipn y r "Infinity" 8 eq_refl H5). }
  destruct (starts y "-Infinity") eqn:H6.
  { now rewrite (starts_skipn y r "-Infinity" 9 eq_refl H6). }
  now rewrite length_app.
Qed.

Lemma integer_opens (s i rest : pystr) :
  integer s = Some (i, rest) -> exists c t, s = c :: t /\ is_digit c = true.
Proof.
  unfold integer. destruct s as [|c s]; [discriminate|].
  destruct (c =? 48)%N eqn:Hz.
  - intros _. exists c, s. apply N.eqb_eq in Hz. now subst.
  - destruct (is_digit c) eqn:Hc; [|discriminate]. intros _. now exists c, s.
Qed.

Lemma scan_atom_opens (s : pystr) (v : value) (rest : pystr) :
  scan_atom s = Ok (v, rest) -> exists c t, s = c :: t /\ opens_value c = true.
Proof.
  unfold scan_atom.
  assert (Hw : forall word c w, str word = c :: w -> opens_value c = true ->
                 starts s word = true -> exists c t, s = c :: t /\ opens_value c = true).
  { intros word c w Hword Hc Hs. apply starts_split in Hs. rewrite Hword in Hs.
    exists c, (w ++ skipn (length (c :: w)) s). now split. }
  destruct (starts s "null") eqn:H1; [intros _; now apply (Hw "null"%string 110%N (str "ull"))|].
  destruct (starts s "true") eqn:H2; [intros _; now apply (Hw "true"%string 116%N (str "rue"))|].
  destruct (starts s "false") eqn:H3; [intros _; now apply (Hw "false"%string 102%N (str "alse"))|].
  destruct (match_number s) as [[w r]|] eqn:Hn.
  { intros _. unfold match_number in Hn.
    destruct s as [|c s]; [discriminate|].
    destruct (c =? 45)%N eqn:Hm.
    - exists c, s. apply N.eqb_eq in Hm. now subst.
    - destruct (integer (c :: s)) as [[i s2]|] eqn:Hi; [|discriminate].
      apply integer_opens in Hi. destruct Hi as [c' [t [[= <- <-] Hd]]].
      exists c, s. split; [reflexivity|]. unfold opens_value.
      unfold is_digit in Hd. rewrite Hd. now rewrite !orb_true_r. }
  destruct (starts s "NaN") eqn:H4; [intros _; now apply (Hw "NaN"%string 78%N (str "aN"))|].
  destruct (starts s "Infinity") eqn:H5;
    [intros _; now apply (Hw "Infinity"%string 73%N (str "nfinity"))|].
  destruct (starts s "-Infinity") eqn:H6;
    [intros _; now apply (Hw "-Infinity"%string 45%N (str "Infinity"))|].
  discriminate.
Qed.


(** *** Values *)

Lemma suffix_refl (s : pystr) : suffix s s.
Proof. now exists []. Qed.

Lemma suffix_trans (a b c : pystr) : suffix a b -> suffix b c -> suffix a c.
Proof. intros [p ->] [q ->]. exists (q ++ p). now rewrite app_assoc. Qed.

Lemma suffix_cons (t s : pystr) (c : char) : suffix t s -> suffix t (c :: s).
Proof. intros [p ->]. now exists (c :: p). Qed.

Lemma suffix_tail (t s : pystr) (c : char) : suffix (c :: t) s -> suffix t s.
Proof. intros [p ->]. exists (p ++ [c]). now rewrite <- app_assoc. Qed.

Lemma suffix_skip (s : pystr) : suffix (skip s) s.
Proof. destruct (skip_split s) as [a [_ H]]. now exists a. Qed.

Lemma suffix_skip_eq (s t : pystr) : skip s = t -> suffix t s.
Proof. intros <-. apply suffix_skip. Qed.

Lemma suffix_length (t s : pystr) : suffix t s -> (length t <= length s)%nat.
Proof. intros [p ->]. rewrite length_app. lia. Qed.

Lemma consumed_suffix (s rest : pystr) : consumed s rest -> suffix rest s.
Proof.
  intros [pre [d [-> _]]]. exists (pre ++ [d]). now rewrite <- app_assoc.
Qed.

Lemma suffix_consumed (t s rest : pystr) :
  suffix t s -> consumed t rest -> consumed s rest.
Proof. intros [p ->]. apply consumed_after. Qed.

Lemma consumed_step (s t : pystr) (d : char) :
  suffix (d :: t) s -> isspace d = false -> consumed s t.
Proof. intros [p ->] Hd. now exists p, d. Qed.

Lemma run_suffix (start : nat) (st : lex) (s v rest : pystr) :
  run start st s = Ok (v, rest) -> suffix (34%N :: rest) s.
Proof. intro H. apply run_consumed in H. destruct H as [pre ->]. now exists pre. Qed.

Ltac char_is H := apply N.eqb_eq in H; subst.

(** A value that is scanned ends with a character that is not whitespace:
    a quote, a brace, a bracket, a digit or the last letter of a
    constant. *)
Lemma scan_consumed (n : nat) :
  (forall s v rest, scan_once n s = Ok (v, rest) -> consumed s rest)
  /\ (forall s acc v rest, elements n s acc = Ok (v, rest) -> consumed s rest)
  /\ (forall s acc v rest, members n s acc = Ok (v, rest) -> consumed s rest).
Proof.
  induction n as [|n [IHs [IHe IHm]]]; [repeat split; intros; discriminate|].
  split; [|split].
  - intros s v rest H. cbn [scan_once] in H.
    destruct s as [|c s]; [discriminate|].
    destruct (c =? 34)%N eqn:Hq.
    { destruct (scanstring _ s) as [[content r]| |] eqn:Hs; try discriminate.
      injection H as <- <-. apply run_suffix in Hs.
      apply (consumed_step _ _ 34%N); [now apply suffix_cons | reflexivity]. }
    destruct (c =? 123)%N eqn:Hb.
    { destruct (skip s) as [|d t] eqn:Hk; [discriminate|].
      apply suffix_skip_eq in Hk.
      destruct (d =? 125)%N eqn:Hd.
      - injection H as <- <-. char_is Hd.
        apply (consumed_step _ _ 125%N); [now apply suffix_cons | reflexivity].
      - destruct (d =? 34)%N; [|discriminate]. apply IHm in H.
        apply (suffix_consumed t); [|assumption].
        apply suffix_cons. now apply suffix_tail in Hk. }
    destruct (c =? 91)%N eqn:Hk91.
    { destruct (skip s) as [|d t] eqn:Hk.
      - apply IHe in H. apply consumed_length in H. simpl in H. lia.
      - apply suffix_skip_eq in Hk. destruct (d =? 93)%N eqn:Hd.
        + injection H as <- <-. char_is Hd.
          apply (consumed_step _ _ 93%N); [now apply suffix_cons | reflexivity].
        + apply IHe in H. apply (suffix_consumed (d :: t)); [|assumption].
          now apply suffix_cons. }
    now apply scan_atom_consumed in H.
  - intros s acc v rest H. cbn [elements] in H.
    destruct (scan_once n s) as [[v1 rest1]| |] eqn:H1; try discriminate.
    apply IHs in H1. apply consumed_suffix in H1.
    destruct (skip rest1) as [|d t] eqn:Hk; [discriminate|].
    apply suffix_skip_eq in Hk.
    assert (Hdt : suffix (d :: t) s) by (eapply suffix_trans; eassumption).
    destruct (d =? 93)%N eqn:Hd.
    + injection H as <- <-. char_is Hd. now apply (consumed_step _ _ 93%N).
    + destruct (d =? 44)%N; [|discriminate]. apply IHe in H.
      apply (suffix_consumed (skip t)); [|assumption].
      apply (suffix_trans _ t); [apply suffix_skip | now apply suffix_tail in Hdt].
  - intros s acc v rest H. cbn [members] in H.
    destruct (scanstring _ s) as [[key rest0]| |] eqn:H0; try discriminate.
    apply run_suffix in H0. apply suffix_tail in H0.
    destruct (skip rest0) as [|c rest1] eqn:Hk0; [discriminate|].
    apply suffix_skip_eq in Hk0.
    destruct (c =? 58)%N; [|discriminate]. cbn [negb] in H.
    destruct (scan_once n (skip rest1)) as [[v1 rest2]| |] eqn:H1;
      try discriminate.
    apply IHs in H1. apply consumed_suffix in H1.
    destruct (skip rest2) as [|d rest3] eqn:Hk2; [discriminate|].
    apply suffix_skip_eq in Hk2.
    assert (H2 : suffix rest2 s).
    { apply (suffix_trans _ (skip rest1)); [assumption|].
      apply (suffix_trans _ rest1); [apply suffix_skip|].
      apply (suffix_trans _ rest0); [|assumption].
      now apply suffix_tail in Hk0. }
    assert (H3 : suffix (d :: rest3) s) by (eapply suffix_trans; eassumption).
    destruct (d =? 125)%N eqn:Hd.
    + injection H as <- <-. char_is Hd. now apply (consumed_step _ _ 125%N).
    + destruct (d =? 44)%N; [|discriminate]. cbn [negb] in H.
      destruct (skip rest3) as [|q rest4] eqn:Hk3; [discriminate|].
      apply suffix_skip_eq in Hk3.
      destruct (q =? 34)%N; [|discriminate]. apply IHm in H.
      apply (suffix_consumed rest4); [|assumption].
      apply suffix_tail in Hk3. apply suffix_tail in H3.
      eapply suffix_trans; eassumption.
Qed.


(** A value begins with a character that opens a value. *)
Lemma scan_opens (n : nat) (s : pystr) (v : value) (rest : pystr) :
  scan_once n s = Ok (v, rest) ->
  exists c t, s = c :: t /\ opens_value c = true.
Proof.
  destruct n as [|n]; [discriminate|]. cbn [scan_once].
  destruct s as [|c s]; [discriminate|].
  destruct (c =? 34)%N eqn:Hq; [char_is Hq; intros _; now exists 34%N, s|].
  destruct (c =? 123)%N eqn:Hb; [char_is Hb; intros _; now exists 123%N, s|].
  destruct (c =? 91)%N eqn:Hk; [char_is Hk; intros _; now exists 91%N, s|].
  apply scan_atom_opens.
Qed.

Lemma skip_app_cons (x r rest : pystr) (d : char) :
  wsblank r -> skip (x ++ r) = d :: rest ->
  exists t, skip x = d :: t /\ rest = t ++ r.
Proof.
  intros Hr H. destruct (skip_app x r Hr) as [[_ H0]|[Hne H1]].
  - congruence.
  - rewrite H1 in H. destruct (skip x) as [|d' t]; [congruence|].
    injection H as -> <-. now exists t.
Qed.

Lemma suffix_app_tail (z r rest : pystr) :
  suffix (z ++ r) rest -> exists z1, rest = z1 ++ r.
Proof. intros [p ->]. exists (p ++ z). now rewrite app_assoc. Qed.

(** What the scanner gives for a value does not depend on whitespace after
    the value, nor on the fuel once there is more of it than twice the
    length of the text. *)
Lemma scan_local (n : nat) :
  (forall y r v z m,
      wsblank r -> scan_once n (y ++ r) = Ok (v, z ++ r) ->
      (2 * length y < m)%nat -> scan_once m y = Ok (v, z))
  /\ (forall y r acc v z m,
         wsblank r -> elements n (y ++ r) acc = Ok (v, z ++ r) ->
         (2 * length y + 1 < m)%nat -> elements m y acc = Ok (v, z))
  /\ (forall y r acc v z m,
         wsblank r -> members n (y ++ r) acc = Ok (v, z ++ r) ->
         (2 * length y + 1 < m)%nat -> members m y acc = Ok (v, z)).
Proof.
  induction n as [|n [IHs [IHe IHm]]]; [repeat split; intros; discriminate|].
  assert (Hcons := scan_consumed n). destruct Hcons as [Cs [Ce Cm]].
  split; [|split].
  - intros y r v z m Hr H Hm.
    destruct m as [|m]; [lia|].
    destruct y as [|c y].
    { apply (proj1 (scan_consumed (S n))) in H. apply consumed_length in H.
      simpl in H. rewrite length_app in H. lia. }
    cbn [app scan_once] in *. cbn [length] in Hm.
    destruct (c =? 34)%N eqn:Hq.
    { destruct (scanstring _ (y ++ r)) as [[content rest1]| |] eqn:Hs;
        try discriminate.
      injection H as <- ->. unfold scanstring in *.
      now rewrite (run_local _ (length (c :: y)) _ _ _ _ _ Hs). }
    destruct (c =? 123)%N eqn:Hb.
    { destruct (skip (y ++ r)) as [|d rest0] eqn:Hk; [discriminate|].
      destruct (skip_app_cons _ _ _ _ Hr Hk) as [t [Hkt ->]]. rewrite Hkt.
      assert (Hlen := skip_length y). rewrite Hkt in Hlen. simpl in Hlen.
      destruct (d =? 125)%N.
      - injection H as <- H. apply app_inv_tail in H. now subst.
      - destruct (d =? 34)%N; [|discriminate].
        apply (IHm _ _ _ _ _ m Hr H). lia. }
    destruct (c =? 91)%N eqn:Hk91.
    { destruct (skip (y ++ r)) as [|d rest0] eqn:Hk.
      - apply Ce in H. apply consumed_length in H. simpl in H. lia.
      - destruct (skip_app_cons _ _ _ _ Hr Hk) as [t [Hkt ->]]. rewrite Hkt.
        assert (Hlen := skip_length y). rewrite Hkt in Hlen. simpl in Hlen.
        destruct (d =? 93)%N.
        + injection H as <- H. apply app_inv_tail in H. now subst.
        + change (d :: t ++ r) with ((d :: t) ++ r) in H.
          apply (IHe _ _ _ _ _ m Hr H). simpl. lia. }
    change (c :: y ++ r) with ((c :: y) ++ r) in H.
    rewrite scan_atom_app in H by assumption.
    destruct (scan_atom (c :: y)) as [[w z']| |]; try discriminate.
    injection H as <- H. apply app_inv_tail in H. now subst.
  - intros y r acc v z m Hr H Hm.
    destruct m as [|m]; [lia|]. cbn [elements] in *.
    destruct (scan_once n (y ++ r)) as [[v1 rest1]| |] eqn:H1; try discriminate.
    destruct (skip rest1) as [|d rest'] eqn:Hk; [discriminate|].
    assert (Hsuf : suffix (z ++ r) rest1).
    { apply suffix_skip_eq in Hk. destruct (d =? 93)%N.
      - injection H as _ <-. now apply suffix_tail in Hk.
      - destruct (d =? 44)%N; [|discriminate]. apply Ce in H.
        apply consumed_suffix in H.
        apply (suffix_trans _ (skip rest')); [assumption|].
        apply (suffix_trans _ rest'); [apply suffix_skip|].
        now apply suffix_tail in Hk. }
    destruct (suffix_app_tail _ _ _ Hsuf) as [z1 ->].
    assert (H1' := IHs _ _ _ _ m Hr H1 ltac:(lia)). rewrite H1'.
    apply (proj1 (scan_consumed m)) in H1'. apply consumed_length in H1'.
    destruct (skip_app_cons _ _ _ _ Hr Hk) as [t [Hkt ->]]. rewrite Hkt.
    assert (Hlen := skip_length z1). rewrite Hkt in Hlen. simpl in Hlen.
    destruct (d =? 93)%N.
    + injection H as <- H. apply app_inv_tail in H. now subst.
    + destruct (d =? 44)%N; [|discriminate].
      destruct (skip_app t r Hr) as [[_ H0]|[_ H0]]; rewrite H0 in H.
      * apply Ce in H. apply consumed_length in H. simpl in H. lia.
      * assert (Hlen' := skip_length t).
        apply (IHe _ _ _ _ _ m Hr H). lia.
  - intros y r acc v z m Hr H Hm.
    destruct m as [|m]; [lia|]. cbn [members] in *.
    destruct (scanstring _ (y ++ r)) as [[key rest0]| |] eqn:H0;
      try discriminate.
    destruct (skip rest0) as [|c rest1] eqn:Hk0; [discriminate|].
    destruct (c =? 58)%N eqn:Hc; [|discriminate]. cbn [negb] in H.
    destruct (scan_once n (skip rest1)) as [[v1 rest2]| |] eqn:H1;
      try discriminate.
    destruct (skip rest2) as [|d rest3] eqn:Hk2; [discriminate|].
    assert (Hsuf2 : suffix (z ++ r) rest2).
    { apply suffix_skip_eq in Hk2. destruct (d =? 125)%N.
      - injection H as _ <-. now apply suffix_tail in Hk2.
      - destruct (d =? 44)%N; [|discriminate]. cbn [negb] in H.
        destruct (skip rest3) as [|q rest4] eqn:Hk3; [discriminate|].
        apply suffix_skip_eq in Hk3.
        destruct (q =? 34)%N; [|discriminate]. apply Cm in H.
        apply consumed_suffix in H.
        apply (suffix_trans _ rest4); [assumption|].
        apply (suffix_trans _ rest3); [now apply suffix_tail in Hk3|].
        now apply suffix_tail in Hk2. }
    assert (Hsuf1 : suffix (z ++ r) (skip rest1)).
    { apply Cs in H1. apply consumed_suffix in H1.
      eapply suffix_trans; eassumption. }
    assert (Hsuf0 : suffix (z ++ r) rest0).
    { apply suffix_skip_eq in Hk0. apply suffix_tail in Hk0.
      apply (suffix_trans _ (skip rest1)); [assumption|].
      apply (suffix_trans _ rest1); [apply suffix_skip | assumption]. }
    destruct (suffix_app_tail _ _ _ Hsuf0) as [z0 ->].
    unfold scanstring in *.
    assert (H0' := run_local _ (S (length y)) _ _ _ _ _ H0). rewrite H0'.
    apply run_suffix in H0'. apply suffix_length in H0'. simpl in H0'.
    destruct (skip_app_cons _ _ _ _ Hr Hk0) as [t1 [Hkt1 ->]]. rewrite Hkt1.
    assert (Hlen0 := skip_length z0). rewrite Hkt1 in Hlen0. simpl in Hlen0.
    rewrite Hc. cbn [negb].
    destruct (skip_app t1 r Hr) as [[_ Hnil]|[_ Happ]].
    { rewrite Hnil in H1. apply Cs in H1. apply consumed_length in H1.
      simpl in H1. lia. }
    rewrite Happ in H1, Hsuf1. clear Hsuf1.
    destruct (suffix_app_tail _ _ _ Hsuf2) as [z2 ->].
    assert (Hlen1 := skip_length t1).
    assert (H1' := IHs _ _ _ _ m Hr H1 ltac:(lia)). rewrite H1'.
    apply (proj1 (scan_consumed m)) in H1'. apply consumed_length in H1'.
    destruct (skip_app_cons _ _ _ _ Hr Hk2) as [t3 [Hkt3 ->]]. rewrite Hkt3.
    assert (Hlen2 := skip_length z2). rewrite Hkt3 in Hlen2. simpl in Hlen2.
    destruct (d =? 125)%N.
    + injection H as <- H. apply app_inv_tail in H. now subst.
    + destruct (d =? 44)%N; [|discriminate]. cbn [negb] in *.
      destruct (skip (t3 ++ r)) as [|q rest4] eqn:Hk3; [discriminate|].
      destruct (skip_app_cons _ _ _ _ Hr Hk3) as [t4 [Hkt4 ->]]. rewrite Hkt4.
      assert (Hlen3 := skip_length t3). rewrite Hkt4 in Hlen3. simpl in Hlen3.
      destruct (q =? 34)%N; [|discriminate].
      apply (IHm _ _ _ _ _ m Hr H). lia.
Qed.


(** *** Documents *)

Lemma opens_value_solid (c : char) :
  opens_value c = true -> isspace c = false /\ c <> 65279%N.
Proof.
  unfold opens_value. rewrite !orb_true_iff, !N.eqb_eq, andb_true_iff.
  intros [[[[[[[[[->| ->]| ->]| ->]|H]| ->]| ->]| ->]| ->]| ->];
    try (split; [reflexivity | discriminate]).
  split.
  - apply digit_not_space. unfold is_digit. now apply andb_true_iff.
  - destruct H as [_ H]. apply N.leb_le in H. lia.
Qed.

Lemma strip_fixed (x : pystr) :
  (exists c t, x = c :: t /\ isspace c = false) ->
  (exists p d, x = p ++ [d] /\ isspace d = false) ->
  strip x = x.
Proof.
  intros [c [t [Hx Hc]]] [p [d [Hp Hd]]]. unfold strip.
  rewrite Hx, lstrip_fixed by assumption. rewrite <- Hx, Hp.
  now apply rstrip_fixed.
Qed.

(** A text that [loads] decodes is a value with whitespace around it. *)
Lemma loads_document (s : pystr) (v : value) :
  loads s = Return v ->
  exists a x r,
    s = a ++ x ++ r /\ wsblank a /\ wsblank r
    /\ (exists c t, x = c :: t /\ opens_value c = true)
    /\ (exists p d, x = p ++ [d] /\ isspace d = false)
    /\ scan_once (S (2 * length s)) (x ++ r) = Ok (v, r).
Proof.
  unfold loads. destruct (startswith s [65279%N]); [discriminate|].
  destruct (scan_once _ (skip s)) as [[w rest]| |] eqn:Hs; try discriminate.
  destruct (skip rest) eqn:Hk; [|discriminate]. intros [= ->].
  destruct (skip_split s) as [a [Ha Hsa]].
  assert (Hc := proj1 (scan_consumed _) _ _ _ Hs).
  destruct Hc as [p [d [Hp Hd]]].
  destruct (scan_opens _ _ _ _ Hs) as [c [t [Hct Hco]]].
  exists a, (p ++ [d]), rest.
  assert (Hx : skip s = (p ++ [d]) ++ rest) by now rewrite <- app_assoc.
  repeat split.
  - now rewrite <- Hx.
  - assumption.
  - now apply skip_nil_wsblank.
  - rewrite Hct in Hp. destruct p as [|c' p]; injection Hp as <- _;
      [now exists c, [] | now exists c, (p ++ [d])].
  - now exists p, d.
  - now rewrite <- Hx.
Qed.

(** Without the whitespace around it, the text decodes to the same
    value. *)
Lemma loads_stripped (s : pystr) (v : value) :
  loads s = Return v -> loads (strip s) = Return v /\
  exists c rest, strip s = c :: rest /\ opens_value c = true.
Proof.
  intro H. destruct (loads_document s v H)
    as [a [x [r [Hs [Ha [Hr [[c [t [Hx Hc]]] [Hlast Hscan]]]]]]]].
  destruct (opens_value_solid c Hc) as [Hsolid Hbom].
  assert (Hstrip : strip s = x).
  { rewrite Hs, strip_around by now apply wsblank_blank.
    apply strip_fixed; [now exists c, t | assumption]. }
  rewrite Hstrip. split; [|now exists c, t].
  apply (proj1 (scan_local _) x r v [] (S (2 * length x)) Hr) in Hscan; [|lia].
  unfold loads.
  assert (Hb : startswith x [65279%N] = false).
  { rewrite Hx, startswith_cons. unfold char_eqb.
    destruct (N.eqb_spec 65279 c); [congruence | reflexivity]. }
  assert (Hk : skip x = x).
  { rewrite Hx. apply skip_fixed.
    destruct (whitespace c) eqn:Hw; [|reflexivity].
    apply whitespace_isspace in Hw. congruence. }
  now rewrite Hb, Hk, Hscan.
Qed.

(** *** Fuel *)

Lemma run_fuel (start : nat) (st : lex) (s : pystr) :
  run start st s <> Exhausted.
Proof.
  revert st. induction s as [|c s IH]; intro st; cbn [run].
  - destruct st; discriminate.
  - destruct (step _ st c) as [out st'|out|msg k]; try discriminate.
    specialize (IH st'). destruct (run start st' s) as [[v r]| |];
      [discriminate | discriminate | congruence].
Qed.

Lemma scan_atom_fuel (s : pystr) : scan_atom s <> Exhausted.
Proof.
  unfold scan_atom.
  repeat match goal with
         | |- context [if ?b then _ else _] => destruct b
         | |- context [match match_number ?x with _ => _ end] =>
             destruct (match_number x)
         end; discriminate.
Qed.

(** The scanner does not run out of fuel when it is given more than twice
    the length of the text. *)
Lemma scan_fuel (n : nat) :
  (forall s, (2 * length s < n)%nat -> scan_once n s <> Exhausted)
  /\ (forall s acc, (2 * length s + 1 < n)%nat -> elements n s acc <> Exhausted)
  /\ (forall s acc, (2 * length s + 1 < n)%nat -> members n s acc <> Exhausted).
Proof.
  induction n as [|n [IHs [IHe IHm]]]; [repeat split; intros; lia|].
  split; [|split].
  - intros s Hn. cbn [scan_once]. destruct s as [|c s]; [discriminate|].
    cbn [length] in Hn.
    destruct (c =? 34)%N.
    { assert (H := run_fuel (length (c :: s)) Plain s). unfold scanstring.
      destruct (run _ Plain s) as [[v r]| |]; [discriminate | discriminate | congruence]. }
    destruct (c =? 123)%N.
    { assert (Hlen := skip_length s).
      destruct (skip s) as [|d t]; [discriminate|]. simpl in Hlen.
      destruct (d =? 125)%N; [discriminate|].
      destruct (d =? 34)%N; [|discriminate]. apply IHm. lia. }
    destruct (c =? 91)%N.
    { assert (Hlen := skip_length s).
      destruct (skip s) as [|d t]; [apply IHe; simpl; lia|]. simpl in Hlen.
      destruct (d =? 93)%N; [discriminate|]. apply IHe. simpl. lia. }
    apply scan_atom_fuel.
  - intros s acc Hn. cbn [elements].
    assert (H1 := IHs s ltac:(lia)).
    destruct (scan_once n s) as [[v1 rest1]| |] eqn:Hs;
      [|discriminate | congruence].
    apply (proj1 (scan_consumed n)) in Hs. apply consumed_length in Hs.
    assert (Hlen := skip_length rest1).
    destruct (skip rest1) as [|d t]; [discriminate|]. simpl in Hlen.
    destruct (d =? 93)%N; [discriminate|].
    destruct (d =? 44)%N; [|discriminate].
    assert (Hlen' := skip_length t). apply IHe. lia.
  - intros s acc Hn. cbn [members].
    assert (H0 := run_fuel (S (length s)) Plain s). unfold scanstring.
    destruct (run _ Plain s) as [[key rest0]| |] eqn:Hr;
      [|discriminate | congruence].
    apply run_suffix in Hr. apply suffix_length in Hr. simpl in Hr.
    assert (Hlen0 := skip_length rest0).
    destruct (skip rest0) as [|c rest1]; [discriminate|]. simpl in Hlen0.
    destruct (c =? 58)%N; [|discriminate]. cbn [negb].
    assert (Hlen1 := skip_length rest1).
    assert (H1 := IHs (skip rest1) ltac:(lia)).
    destruct (scan_once n (skip rest1)) as [[v1 rest2]| |] eqn:Hs;
      [|discriminate | congruence].
    apply (proj1 (scan_consumed n)) in Hs. apply consumed_length in Hs.
    assert (Hlen2 := skip_length rest2).
    destruct (skip rest2) as [|d rest3]; [discriminate|]. simpl in Hlen2.
    destruct (d =? 125)%N; [discriminate|].
    destruct (d =? 44)%N; [|discriminate]. cbn [negb].
    assert (Hlen3 := skip_length rest3).
    destruct (skip rest3) as [|q rest4]; [discriminate|]. simpl in Hlen3.
    destruct (q =? 34)%N; [|discriminate]. apply IHm. lia.
Qed.

(** [loads] returns a value or raises a [JSONDecodeError]: the fuel it
    gives the scanner is enough for every text. *)
Lemma loads_total (s : pystr) :
  (exists v, loads s = Return v)
  \/ (exists detail, loads s = Raise (JSONDecodeError detail)).
Proof.
  unfold loads, decode_error.
  destruct (startswith s [65279%N]); [right; eauto|].
  assert (Hlen := skip_length s).
  assert (H := proj1 (scan_fuel (S (2 * length s))) (skip s) ltac:(lia)).
  destruct (scan_once _ (skip s)) as [[v rest]| |]; [| right; eauto | congruence].
  destruct (skip rest); [left | right]; eauto.
Qed.

End JsonFacts.

(** The reference decoder keeps the contract of the sanitiser. *)
Lemma reference_contract
  (pdf : list byte -> outcome (list (outcome pystr)))
  (docx : list byte -> outcome (list pystr))
  (model : pystr -> outcome pystr) :
  decoder_contract (reference pdf docx model).
Proof.
  split; intros s v H; now apply JsonFacts.loads_stripped in H.
Qed.

(** ** Sample runs *)

Import AnalyzeResumeView.

(** A text without a backquote has no fence. *)
Lemma no_backquote_no_fence (body : pystr) :
  forallb (fun c => negb (c =? 96)%N) body = true ->
  forall n, ~ occurs_at fence body n.
Proof.
  intros Hall n [before [after [Hs _]]].
  rewrite forallb_forall in Hall.
  assert (Hin : In 96%N body).
  { rewrite Hs. apply in_or_app. right. now left. }
  now specialize (Hall _ Hin).
Qed.

(** The sample report between fences with newlines, and bare, through the
    reference decoder. *)
Lemma fenced_json_round_trip_witness :
  @json_loads Sample.libs Sample.report_text = Return Sample.report_value
  /\ blank newline
  /\ result (sanitize (E := Sample.libs)
               ([] ++ fence_json ++ (newline ++ Sample.report_text ++ newline)
                ++ fence ++ newline))
     = Return Sample.report_value
  /\ result (sanitize (E := Sample.libs)
               ([] ++ fence ++ (newline ++ Sample.report_text ++ newline)
                ++ fence ++ newline))
     = Return Sample.report_value
  /\ result (sanitize (E := Sample.libs) Sample.report_text)
     = Return Sample.report_value.
Proof.
  assert (Hv : @json_loads Sample.libs Sample.report_text
               = Return Sample.report_value) by (vm_compute; reflexivity).
  assert (Hnl : blank newline) by (repeat constructor).
  split; [exact Hv|]. split; [exact Hnl|].
  apply (fenced_json_round_trip (E := Sample.libs)
           (reference_contract _ _ _) Sample.report_text [] newline newline
           newline Sample.report_value Hv);
    solve [constructor | exact Hnl].
Defined.

(** A scanned document, whose only page gives a space. *)
Lemma empty_text_is_failure_witness :
  FILES_resume_file (Sample.request "scan.pdf") = Some (Sample.file "scan.pdf")
  /\ file_truthy (Sample.file "scan.pdf") = true
  /\ result (extract_try (E := Sample.scanned) (Sample.file "scan.pdf")
               (extension (Sample.file "scan.pdf")) [])
     = Return (Some (str " " ++ newline))
  /\ blank (str " " ++ newline)
  /\ result (_extract_text_from_resume (E := Sample.scanned)
               (Sample.file "scan.pdf"))
     = Return (Some [])
  /\ result (post (E := Sample.scanned) (Sample.request "scan.pdf"))
     = Return no_text_response
  /\ status (no_text_response (E := Sample.scanned)) = HTTP_400_BAD_REQUEST
  /\ Forall extraction_event
       (trace (post (E := Sample.scanned) (Sample.request "scan.pdf"))).
Proof.
  assert (H1 : FILES_resume_file (Sample.request "scan.pdf")
               = Some (Sample.file "scan.pdf")) by reflexivity.
  assert (H2 : file_truthy (Sample.file "scan.pdf") = true) by reflexivity.
  assert (H3 : result (extract_try (E := Sample.scanned) (Sample.file "scan.pdf")
                         (extension (Sample.file "scan.pdf")) [])
               = Return (Some (str " " ++ newline)))
    by (vm_compute; reflexivity).
  assert (H4 : blank (str " " ++ newline)) by (repeat constructor).
  repeat (split; [assumption|]).
  exact (proj1 (empty_text_is_failure (E := Sample.scanned)
                  (Sample.request "scan.pdf") (Sample.file "scan.pdf") H1 H2)
           _ H3 H4).
Defined.

(** A report with a score of 150 and without most keys goes through as it
    is. *)
Lemma report_returned_verbatim_witness :
  FILES_resume_file (Sample.request "cv.docx") = Some (Sample.file "cv.docx")
  /\ file_truthy (Sample.file "cv.docx") = true
  /\ result (_extract_text_from_resume (E := Sample.libs) (Sample.file "cv.docx"))
     = Return (Some (str "Jane Doe" ++ newline ++ newline ++ str "Engineer"))
  /\ @json_loads Sample.libs
       (candidate_text (E := Sample.libs) Sample.fenced_answer)
     = Return Sample.report_value
  /\ result (sanitize (E := Sample.libs) Sample.fenced_answer)
     = Return Sample.report_value
  /\ result (post (E := Sample.libs) (Sample.request "cv.docx"))
     = Return {| success := true;
                 message := str "Analysis complete.";
                 report_of := Some Sample.report_value;
                 status := HTTP_200_OK |}.
Proof.
  assert (H1 : FILES_resume_file (Sample.request "cv.docx")
               = Some (Sample.file "cv.docx")) by reflexivity.
  assert (H2 : file_truthy (Sample.file "cv.docx") = true) by reflexivity.
  assert (H3 : result (_extract_text_from_resume (E := Sample.libs)
                         (Sample.file "cv.docx"))
               = Return (Some (str "Jane Doe" ++ newline ++ newline
                               ++ str "Engineer")))
    by (vm_compute; reflexivity).
  assert (H4 : @json_loads Sample.libs
                 (candidate_text (E := Sample.libs) Sample.fenced_answer)
               = Return Sample.report_value) by (vm_compute; reflexivity).
  repeat (split; [assumption|]).
  apply (report_returned_verbatim (E := Sample.libs) (Sample.request "cv.docx")
           (Sample.file "cv.docx") _ Sample.fenced_answer _ H1 H2 H3);
    [discriminate | reflexivity | exact H4].
Defined.

(** The sample report after an opening marker that is never closed. *)
Lemma unclosed_fence_falls_back_witness :
  blank newline
  /\ (forall n, (0 < n)%nat -> ~ occurs_at fence Sample.unclosed_answer n)
  /\ startswith Sample.unclosed_answer (str "json") = false
  /\ falls_back_to (E := Sample.libs)
       (newline ++ fence_json ++ Sample.unclosed_answer) Sample.report_text
  /\ falls_back_to (E := Sample.libs)
       (newline ++ fence ++ Sample.unclosed_answer) Sample.report_text.
Proof.
  assert (H1 : blank newline) by (repeat constructor).
  assert (H2 : forall n, (0 < n)%nat -> ~ occurs_at fence Sample.unclosed_answer n).
  { intros n _. apply no_backquote_no_fence. vm_compute. reflexivity. }
  assert (H3 : startswith Sample.unclosed_answer (str "json") = false)
    by (vm_compute; reflexivity).
  repeat (split; [assumption|]).
  destruct (unclosed_fence_falls_back (E := Sample.libs) newline
              Sample.unclosed_answer H1 H2) as [Htag Hgen].
  split; [exact Htag | exact (Hgen H3)].
Defined.

(** An answer of 607 characters that is not JSON: the message ends with
    its first 500 characters. *)
Lemma parse_failure_is_reported_witness :
  @json_loads Sample.libs (candidate_text (E := Sample.libs) Sample.refusal)
  = Raise (JSONDecodeError (str "Expecting value: line 1 column 1 (char 0)"))
  /\ result (sanitize (E := Sample.libs) Sample.refusal)
     = Raise (PyException
                (str "AI response format error: Could not parse AI response as JSON. Details: "
                 ++ str "Expecting value: line 1 column 1 (char 0)"
                 ++ str ". Raw response start: "
                 ++ str "Sorry, " ++ repeat 33%N 493 ++ str "...")).
Proof.
  assert (H1 : @json_loads Sample.libs
                 (candidate_text (E := Sample.libs) Sample.refusal)
               = Raise (JSONDecodeError
                          (str "Expecting value: line 1 column 1 (char 0)")))
    by (vm_compute; reflexivity).
  split; [exact H1|].
  exact (proj1 (proj2 (parse_failure_is_reported (E := Sample.libs)
                         Sample.refusal _ H1))).
Defined.

(** A character that a text is checked not to have. *)
Lemma no_char (c : char) (s : pystr) :
  forallb (fun d => negb (d =? c)%N) s = true -> ~ In c s.
Proof.
  intros Hall Hin. rewrite forallb_forall in Hall.
  specialize (Hall c Hin). now rewrite N.eqb_refl in Hall.
Qed.

(** C5 as the specification words it fails for an answer of 2000 opening
    brackets: the candidate is the answer, [json.loads] raises
    [RecursionError] on it, which is not a decoding error, and the
    sanitiser lets it through: its text has no bracket, so it does not
    have the first 500 characters of the candidate. *)
Lemma parse_failure_without_preview_counterexample :
  ~ parse_failure_claim (E := Cases.shallow_stack) Cases.deeply_nested.
Proof.
  intro H.
  assert (Hloads : @json_loads Cases.shallow_stack
                     (candidate_text (E := Cases.shallow_stack)
                        Cases.deeply_nested)
                   = Raise Cases.recursion_error) by (vm_compute; reflexivity).
  destruct (H _ Hloads) as [err [Hres [_ Hpreview]]].
  assert (Herr : err = Cases.recursion_error).
  { vm_compute in Hres. injection Hres as <-. reflexivity. }
  subst err. destruct Hpreview as [i [before [after [Heq _]]]].
  assert (Hin : In 91%N (str_of_exn Cases.recursion_error)).
  { rewrite Heq. apply in_or_app. right. apply in_or_app. left.
    vm_compute. now left. }
  revert Hin. apply no_char. vm_compute. reflexivity.
Qed.

(** Three paragraphs, the second one empty: it shows as a blank line. *)
Lemma docx_paragraphs_in_order_witness :
  extension (Sample.file "cv.DOCX") = str ".docx"
  /\ read (Sample.file "cv.DOCX") = Return []
  /\ @Document Sample.libs [] = Return Sample.paragraphs
  /\ _extract_text_from_resume (E := Sample.libs) (Sample.file "cv.DOCX")
     = ([FileRead; DocxOpen],
        Return (Some (str "Jane Doe" ++ newline ++ newline ++ str "Engineer"))).
Proof.
  assert (H1 : extension (Sample.file "cv.DOCX") = str ".docx")
    by (vm_compute; reflexivity).
  do 3 (split; [first [assumption | reflexivity]|]).
  exact (docx_paragraphs_in_order (E := Sample.libs) (Sample.file "cv.DOCX")
           [] Sample.paragraphs H1 eq_refl eq_refl).
Defined.

(** Three pages, the second one without text; the whitespace at the end of
    the last one is stripped. *)
Lemma pdf_pages_in_order_witness :
  extension (Sample.file "cv.pdf") = str ".pdf"
  /\ read (Sample.file "cv.pdf") = Return []
  /\ @PdfReader Sample.libs [] = Return (map Return Sample.pages)
  /\ In (str " Engineer ") Sample.pages
  /\ ~ blank (str " Engineer ")
  /\ result (_extract_text_from_resume (E := Sample.libs) (Sample.file "cv.pdf"))
     = Return (Some (str "Jane Doe" ++ newline ++ str " Engineer"))
  /\ infix (str "Engineer") (str "Jane Doe" ++ newline ++ str " Engineer").
Proof.
  assert (H1 : extension (Sample.file "cv.pdf") = str ".pdf")
    by (vm_compute; reflexivity).
  assert (H4 : In (str " Engineer ") Sample.pages) by (right; right; now left).
  assert (H5 : ~ blank (str " Engineer ")).
  { intro H. inversion H as [|c l _ Hl]. inversion Hl as [|c' l' Hc _].
    discriminate. }
  do 5 (split; [first [assumption | reflexivity]|]).
  destruct (pdf_pages_in_order (E := Sample.libs) (Sample.file "cv.pdf") []
              Sample.pages H1 eq_refl eq_refl) as [Hres [_ Hin]].
  split; [exact Hres | exact (proj2 (Hin _ H4 H5))].
Defined.

(** C7 as the specification words it fails for a document whose only page
    has a space for its text: the page has a text, and the extractor
    returns the empty string. *)
Lemma pdf_blank_page_counterexample :
  ~ pdf_text_claim (E := Sample.scanned) (Sample.file "scan.pdf") [str " "].
Proof.
  intro H.
  assert (Hpage : exists t, In t [str " "] /\ t <> []).
  { exists (str " "). split; [now left | discriminate]. }
  destruct (H Hpage) as [s [Hs [Hne _]]].
  vm_compute in Hs. injection Hs as <-. now apply Hne.
Qed.



(** A file that PyPDF2 rejects. *)
Lemma parsing_errors_are_caught_witness :
  parsing_raises (E := Sample.broken) (Sample.file "cv.pdf")
  /\ result (_extract_text_from_resume (E := Sample.broken) (Sample.file "cv.pdf"))
     = Return None.
Proof.
  assert (H : parsing_raises (E := Sample.broken) (Sample.file "cv.pdf")).
  { right. exists []. split; [reflexivity|]. left.
    split; [vm_compute; reflexivity|]. left. eexists. reflexivity. }
  split; [exact H|].
  exact (proj2 (parsing_errors_are_caught (E := Sample.broken)
                  (Sample.file "cv.pdf")) H).
Defined.

(** A file called [resume]. *)
Lemma no_extension_is_client_error_witness :
  FILES_resume_file (Sample.request "resume") = Some (Sample.file "resume")
  /\ name (Sample.file "resume") <> []
  /\ ~ In 46%N (name (Sample.file "resume"))
  /\ snd (PosixPath.splitext (name (Sample.file "resume"))) = []
  /\ result (_extract_text_from_resume (E := Sample.libs) (Sample.file "resume"))
     = Return None
  /\ result (post (E := Sample.libs) (Sample.request "resume"))
     = Return {| success := false;
                 message := str "Could not extract text from resume file. Please ensure it's a valid PDF or DOCX and not scanned image.";
                 report_of := None;
                 status := HTTP_400_BAD_REQUEST |}.
Proof.
  assert (H2 : name (Sample.file "resume") <> []) by discriminate.
  assert (H3 : ~ In 46%N (name (Sample.file "resume"))).
  { vm_compute. intro H. repeat (destruct H as [H|H]; [discriminate|]).
    exact H. }
  do 3 (split; [first [assumption | reflexivity]|]).
  exact (no_extension_is_client_error (E := Sample.libs)
           (Sample.request "resume") (Sample.file "resume") eq_refl H2 H3).
Defined.
(** * Further properties of the view *)

Lemma calls_app (p : event -> bool) (a b : list event) :
  calls p (a ++ b) = (calls p a + calls p b)%nat.
Proof. unfold calls. now rewrite filter_app, length_app. Qed.

Lemma calls_none (p : event -> bool) (t : list event) :
  (forall ev, In ev t -> p ev = false) -> calls p t = 0%nat.
Proof.
  unfold calls. induction t as [|ev t IH]; intro H; [reflexivity|].
  simpl. rewrite (H ev (or_introl eq_refl)). apply IH.
  intros ev' Hin. apply H. now right.
Qed.

Section HandlerRuns.

Context {E : External}.

(** The run of [_get_gemini_analysis]: the log record, the call of the
    model and, when the model answers, the run of the sanitiser. *)
Lemma analysis_run (text jd cat role : pystr) :
  _get_gemini_analysis text jd cat role
  = match generate_content (Prompt.prompt text jd cat role) with
    | Return raw =>
        (Log INFO (str "Sending prompt to Gemini API with detailed request...")
         :: ModelCall (Prompt.prompt text jd cat role) :: trace (sanitize raw),
         result (sanitize raw))
    | Raise e =>
        ([Log INFO (str "Sending prompt to Gemini API with detailed request...");
          ModelCall (Prompt.prompt text jd cat role)],
         Raise e)
    end.
Proof.
  unfold _get_gemini_analysis, bind, log, call, trace, result.
  cbv beta iota. cbn [fst snd app].
  destruct (generate_content _) as [raw|e]; [|reflexivity].
  now destruct (sanitize raw) as [tr [v|e]].
Qed.

(** The run of the sanitiser: the records of the candidate step, one call
    of the decoder and, when it fails to decode, two error records. *)
Lemma sanitize_run (raw : pystr) :
  exists tr tr',
    Forall (fun ev => exists m, ev = Log WARNING m) tr
    /\ Forall (fun ev => exists m, ev = Log ERROR m) tr'
    /\ trace (sanitize raw) = tr ++ JsonLoads (candidate_text raw) :: tr'.
Proof.
  destruct (sanitize_parse raw) as [tr [Htr Hs]].
  exists tr.
  assert (Hw : Forall (fun ev => exists m, ev = Log WARNING m) tr).
  { subst tr. unfold candidate, trace, bind, log, ret.
    repeat match goal with
           | |- context [if ?b then _ else _] => destruct b
           end; cbn [fst app]; repeat constructor; eauto. }
  rewrite Hs. unfold trace at 1. cbn [fst].
  unfold parse_report, try_except_JSONDecodeError, bind, call, log, ret,
    raise, trace.
  destruct (json_loads (candidate_text raw)) as [v|[d|m]]; cbn [fst snd app].
  - exists []. split; [assumption|]. split; [constructor|reflexivity].
  - eexists. split; [assumption|]. split; [|reflexivity].
    repeat constructor; eauto.
  - exists []. split; [assumption|]. split; [constructor|reflexivity].
Qed.

(** [post] for a request with a file: what it logs around the run of the
    extractor and of the analysis, and what it answers. *)
Lemma post_file_run (request : Request) (f : UploadedFile) :
  FILES_resume_file request = Some f ->
  file_truthy f = true ->
  exists pre,
    length pre = 3%nat
    /\ Forall (fun ev => exists m, ev = Log INFO m) pre
    /\ match _extract_text_from_resume f with
       | (tr, Return (Some (c :: t))) =>
           let a := _get_gemini_analysis (c :: t) (job_description request)
                      (job_category request) (specific_role request) in
           exists m1 l2 m2,
             post request
             = (pre ++ tr ++ Log INFO m1 :: trace a ++ [Log l2 m2],
                match result a with
                | Return v => Return (success_response v)
                | Raise e => Return (error_response e)
                end)
       | (tr, Return _) =>
           exists m,
             post request = (pre ++ tr ++ [Log ERROR m], Return no_text_response)
       | (tr, Raise e) => post request = (pre ++ tr, Raise e)
       end.
Proof.
  intros Hf Ht. unfold post. rewrite Hf, Ht. unfold post_file.
  fold (job_description request) (job_category request) (specific_role request).
  eexists [_; _; _]. split; [reflexivity|]. split.
  { repeat constructor; eauto. }
  destruct (_extract_text_from_resume f) as [tr [[[|c t]|]|e]] eqn:He.
  - eexists. unfold bind, log, ret. cbv beta iota. cbn [fst snd app falsy negb truthy get].
    cbv beta iota.
    cbn [fst snd app]. try rewrite app_nil_r; reflexivity.
  - cbv zeta.
    destruct (_get_gemini_analysis (c :: t) _ _ _) as [ta [v|e]] eqn:Ha.
    + do 3 eexists. unfold bind, log, ret, try_except.
      cbv beta iota. cbn [fst snd app falsy negb truthy get].
      cbv beta iota.
      rewrite Ha. cbn [fst snd app trace result]. try rewrite app_nil_r.
      reflexivity.
    + do 3 eexists. unfold bind, log, ret, try_except.
      cbv beta iota. cbn [fst snd app falsy negb truthy get].
      cbv beta iota.
      rewrite Ha. cbn [fst snd app trace result]. try rewrite app_nil_r.
      reflexivity.
  - eexists. unfold bind, log, ret. cbv beta iota. cbn [fst snd app falsy negb truthy get].
    cbv beta iota.
    cbn [fst snd app]. try rewrite app_nil_r; reflexivity.
  - unfold bind, log, ret. cbv beta iota. cbn [fst snd app falsy negb truthy get].
    reflexivity.
Qed.

End HandlerRuns.

Section ExtractorRuns.

Context {E : External}.

(** The loop over the pages logs nothing but the extraction of pages. *)
Lemma pdf_pages_only_pages (pages : list (outcome pystr)) (index : nat)
  (text : pystr) :
  Forall page_event (trace (pdf_pages index pages text)).
Proof.
  revert index text. induction pages as [|p ps IH]; intros index text; simpl.
  - constructor.
  - unfold bind, call. destruct p as [t|e]; [|repeat constructor].
    specialize (IH (S index) (if truthy t then text ++ t ++ newline else text)).
    unfold trace in *. destruct (pdf_pages _ ps _) as [tr r]. simpl in *.
    constructor; [exact I | exact IH].
Qed.

(** The loop over the pages, when the page after [texts] raises. *)
Lemma pdf_pages_stop (texts : list pystr) (e : exn)
  (later : list (outcome pystr)) (index : nat) (text : pystr) :
  pdf_pages index (map Return texts ++ Raise e :: later) text
  = (map PageExtract (seq index (S (length texts))), Raise e).
Proof.
  revert index text.
  induction texts as [|t ts IH]; intros index text.
  - reflexivity.
  - cbn [map app pdf_pages]. unfold bind, call. rewrite IH. reflexivity.
Qed.

(** The run of the extractor, by the extension of the file and the answers
    of the libraries. *)
Lemma extract_run (f : UploadedFile) :
  _extract_text_from_resume f
  = match read f with
    | Raise e =>
        ([FileRead;
          Log ERROR (str "Error extracting text from " ++ name f ++ str " ("
                     ++ extension f ++ str "): " ++ str_of_exn e)],
         Return None)
    | Return content =>
        if PyStr.eqb (extension f) (str ".pdf") then
          match PdfReader content with
          | Raise e =>
              ([FileRead; PdfOpen;
                Log ERROR (str "Error extracting text from " ++ name f ++ str " ("
                           ++ extension f ++ str "): " ++ str_of_exn e)],
               Return None)
          | Return pages =>
              match pdf_pages 0 pages [] with
              | (tr, Return text) =>
                  (FileRead :: PdfOpen :: tr, Return (Some (strip text)))
              | (tr, Raise e) =>
                  (FileRead :: PdfOpen :: tr
                   ++ [Log ERROR (str "Error extracting text from " ++ name f
                                  ++ str " (" ++ extension f ++ str "): "
                                  ++ str_of_exn e)],
                   Return None)
              end
          end
        else if PyStr.eqb (extension f) (str ".docx") then
          match Document content with
          | Raise e =>
              ([FileRead; DocxOpen;
                Log ERROR (str "Error extracting text from " ++ name f ++ str " ("
                           ++ extension f ++ str "): " ++ str_of_exn e)],
               Return None)
          | Return paragraphs =>
              ([FileRead; DocxOpen], Return (Some (strip (lines paragraphs))))
          end
        else
          ([FileRead;
            Log WARNING (str "Unsupported file type for text extraction: "
                         ++ extension f)],
           Return None)
    end.
Proof.
  unfold _extract_text_from_resume, extract_try. fold (extension f).
  unfold try_except, bind, call, log, ret.
  destruct (read f) as [content|e]; cbn [fst snd app]; [|reflexivity].
  destruct (PyStr.eqb (extension f) (str ".pdf")).
  - destruct (PdfReader content) as [pages|e]; cbn [fst snd app];
      [|reflexivity].
    destruct (pdf_pages 0 pages []) as [tr [t|e]]; cbn [fst snd app];
      rewrite ?app_nil_r; reflexivity.
  - destruct (PyStr.eqb (extension f) (str ".docx")); cbn [fst snd app];
      [|reflexivity].
    destruct (Document content) as [ps|e]; cbn [fst snd app]; [|reflexivity].
    now rewrite docx_paragraphs_lines.
Qed.

Lemma page_event_not_read (tr : list event) :
  Forall page_event tr -> calls is_file_read tr = 0%nat.
Proof.
  intro H. apply calls_none. intros ev Hin.
  rewrite Forall_forall in H. specialize (H ev Hin). now destruct ev.
Qed.

(** The extractor reads the file first, and once. *)
Lemma extract_reads_once (f : UploadedFile) :
  (exists tr, trace (_extract_text_from_resume f) = FileRead :: tr)
  /\ calls is_file_read (trace (_extract_text_from_resume f)) = 1%nat.
Proof.
  rewrite extract_run. unfold trace.
  destruct (read f) as [content|e]; [|split; [eexists|]; reflexivity].
  destruct (PyStr.eqb (extension f) (str ".pdf")).
  - destruct (PdfReader content) as [pages|e];
      [|split; [eexists|]; reflexivity].
    assert (H := pdf_pages_only_pages pages 0 []). unfold trace in H.
    destruct (pdf_pages 0 pages []) as [tr [t|e]]; cbn [fst] in *.
    + split; [eexists; reflexivity|].
      change (FileRead :: PdfOpen :: tr) with ([FileRead; PdfOpen] ++ tr).
      rewrite calls_app, (page_event_not_read tr H). reflexivity.
    + split; [eexists; reflexivity|].
      change (FileRead :: PdfOpen :: tr ++ ?l)
        with ([FileRead; PdfOpen] ++ tr ++ l).
      rewrite !calls_app, (page_event_not_read tr H). reflexivity.
  - destruct (PyStr.eqb (extension f) (str ".docx")).
    + destruct (Document content) as [ps|e]; split; try eexists; reflexivity.
    + split; [eexists|]; reflexivity.
Qed.

(** X9. Whatever the file and the libraries do, the extractor starts by
    reading the file, and reads it once: the content is read before the
    extension is looked at, also for a file it does not support. *)
Theorem file_is_read_once (f : UploadedFile) :
  (exists tr, trace (_extract_text_from_resume f) = FileRead :: tr)
  /\ calls is_file_read (trace (_extract_text_from_resume f)) = 1%nat.
Proof. exact (extract_reads_once f). Qed.

Lemma page_event_in (tr : list event) (ev : event) :
  Forall page_event tr -> In ev tr -> exists i, ev = PageExtract i.
Proof.
  intros H Hin. rewrite Forall_forall in H. specialize (H ev Hin).
  destruct ev; try contradiction. eauto.
Qed.

(** X10. The extension alone chooses the library: the content is handed to
    PyPDF2 only when the extension is [.pdf] and to python-docx only when
    it is [.docx], whatever the bytes are, and neither library is called
    when the file cannot be read. *)
Theorem extension_selects_parser (f : UploadedFile) (ev : event) :
  In ev (trace (_extract_text_from_resume f)) ->
  parsing_event ev ->
  (exists content, read f = Return content)
  /\ extension f = match ev with
                   | DocxOpen => str ".docx"
                   | _ => str ".pdf"
                   end.
Proof.
  rewrite extract_run. unfold trace.
  destruct (read f) as [content|e].
  2:{ cbn [fst]. intros [<-|[<-|[]]] []. }
  intros Hin Hp. split; [eauto|].
  destruct (PyStr.eqb (extension f) (str ".pdf")) eqn:Hpdf.
  - apply eqb_eq in Hpdf.
    destruct ev; try contradiction; try exact Hpdf. exfalso.
    destruct (PdfReader content) as [pages|e].
    + assert (H := pdf_pages_only_pages pages 0 []). unfold trace in H.
      destruct (pdf_pages 0 pages []) as [tr [t|e]]; cbn [fst] in *.
      * destruct Hin as [Hin|[Hin|Hin]]; try discriminate.
        destruct (page_event_in _ _ H Hin); discriminate.
      * destruct Hin as [Hin|[Hin|Hin]]; try discriminate.
        apply in_app_or in Hin. destruct Hin as [Hin|[Hin|[]]];
          [|discriminate].
        destruct (page_event_in _ _ H Hin); discriminate.
    + cbn [fst] in Hin. destruct Hin as [Hin|[Hin|[Hin|[]]]]; discriminate.
  - destruct (PyStr.eqb (extension f) (str ".docx")) eqn:Hdocx.
    + apply eqb_eq in Hdocx.
      destruct ev; try contradiction; try exact Hdocx; exfalso;
        destruct (Document content) as [ps|e]; cbn [fst] in Hin;
        repeat (destruct Hin as [Hin|Hin]; [discriminate|]); exact Hin.
    + cbn [fst] in Hin. exfalso.
      destruct Hin as [<-|[<-|[]]]; exact Hp.
Qed.

(** X11. When [extract_text()] raises on a page of a [.pdf] file, the
    extractor stops there: the pages before it and that page are the only
    ones asked for their text, the error is logged, and the result is
    [None]; the text of the earlier pages is not returned. *)
Theorem failing_page_stops_extraction
  (f : UploadedFile) (content : list byte) (texts : list pystr) (e : exn)
  (later : list (outcome pystr)) :
  extension f = str ".pdf" ->
  read f = Return content ->
  PdfReader content = Return (map Return texts ++ Raise e :: later) ->
  _extract_text_from_resume f
  = ([FileRead; PdfOpen] ++ map PageExtract (seq 0 (S (length texts)))
     ++ [Log ERROR (str "Error extracting text from " ++ name f ++ str " ("
                    ++ str ".pdf" ++ str "): " ++ str_of_exn e)],
     Return None).
Proof.
  intros Hext Hread Hpdf. rewrite extract_run, Hread, Hext, Hpdf.
  change (PyStr.eqb (str ".pdf") (str ".pdf")) with true. cbv iota.
  now rewrite pdf_pages_stop.
Qed.

(** X12. A text the extractor returns has no whitespace at its ends: it is
    a fixed point of [strip], and its first and last characters, when it
    has any, are not whitespace. *)
Theorem extracted_text_is_stripped (f : UploadedFile) (text : pystr) :
  result (_extract_text_from_resume f) = Return (Some text) ->
  strip text = text
  /\ (forall c t, text = c :: t -> isspace c = false)
  /\ (forall t c, text = t ++ [c] -> isspace c = false).
Proof.
  intro H. destruct (extract_stripped f text H) as [raw [_ ->]].
  split; [apply strip_idempotent|]. split.
  - intros c t Ht. exact (strip_head raw c t Ht).
  - intros t c Ht. exact (strip_last raw t c Ht).
Qed.

Lemma lines_blank (ts : list pystr) : Forall blank ts -> blank (lines ts).
Proof.
  induction 1 as [|t ts Ht _ IH]; [constructor|].
  change (t :: ts) with ([t] ++ ts). rewrite lines_app.
  apply blank_app; [|exact IH].
  unfold lines. cbn [map concat]. rewrite app_nil_r.
  apply blank_app; [exact Ht | repeat constructor].
Qed.

Lemma filter_blank (ts : list pystr) :
  Forall blank ts -> Forall blank (filter truthy ts).
Proof.
  intro H. apply Forall_forall. intros t Hin. apply filter_In in Hin.
  rewrite Forall_forall in H. now apply H.
Qed.

(** X4. A document without a visible character is answered like a file
    without text: for a [.docx] file whose paragraphs are all empty or
    whitespace, and for a [.pdf] file whose pages all have an empty or
    whitespace text (or that has no page), the extractor returns the empty
    string, [post] answers 400 with the extraction message, and the model
    is not called. *)
Theorem blank_document_is_client_error
  (request : Request) (f : UploadedFile) (content : list byte)
  (texts : list pystr) :
  FILES_resume_file request = Some f ->
  file_truthy f = true ->
  read f = Return content ->
  Forall blank texts ->
  (extension f = str ".docx" /\ Document content = Return texts)
  \/ (extension f = str ".pdf" /\ PdfReader content = Return (map Return texts)) ->
  result (_extract_text_from_resume f) = Return (Some [])
  /\ result (post request) = Return no_text_response
  /\ calls is_model_call (trace (post request)) = 0%nat.
Proof.
  intros Hf Ht Hread Hb Hdoc.
  assert (He : result (_extract_text_from_resume f) = Return (Some [])).
  { rewrite extract_run, Hread.
    destruct Hdoc as [[Hext Hdoc]|[Hext Hdoc]]; rewrite Hext, Hdoc.
    - change (PyStr.eqb (str ".docx") (str ".pdf")) with false.
      change (PyStr.eqb (str ".docx") (str ".docx")) with true. cbv iota.
      unfold result. cbn [snd]. now rewrite (strip_blank _ (lines_blank _ Hb)).
    - change (PyStr.eqb (str ".pdf") (str ".pdf")) with true. cbv iota.
      rewrite pdf_pages_lines. unfold result. cbn [snd app].
      now rewrite (strip_blank _ (lines_blank _ (filter_blank _ Hb))). }
  split; [exact He|].
  destruct (post_without_text request f (Some []) Hf Ht He eq_refl)
    as [Hr Hev].
  split; [exact Hr|].
  apply calls_none. intros ev Hin. rewrite Forall_forall in Hev.
  specialize (Hev ev Hin). now destruct ev.
Qed.

End ExtractorRuns.

(** ** The extension of a name *)

(** The last occurrence of a character. *)
Lemma rfind_from_last (pre rest : pystr) (c : char) (i : Z) :
  0 <= i -> ~ In c rest -> rfind_from i (pre ++ c :: rest) [c] = i + len pre.
Proof.
  revert i. induction pre as [|d pre IH]; intros i Hi Hc.
  - cbn [app rfind_from]. rewrite rfind_from_absent by assumption.
    cbn [Z.leb]. rewrite startswith_cons. unfold char_eqb.
    rewrite N.eqb_refl. cbn [andb startswith]. unfold len. simpl. lia.
  - cbn [app rfind_from]. rewrite IH by (assumption || lia).
    assert (H : (0 <=? i + 1 + len pre) = true)
      by (apply Z.leb_le; unfold len; lia).
    rewrite H. unfold len. cbn [length]. lia.
Qed.

(** The index after the last separator is the length of the directory
    part. *)
Lemma rfind_sep (dir rest : pystr) :
  dir = [] \/ (exists d, dir = d ++ PosixPath.sep) ->
  ~ In 47%N rest ->
  rfind (dir ++ rest) PosixPath.sep + 1 = len dir.
Proof.
  intros [->|[d ->]] Hrest; unfold rfind; change PosixPath.sep with [47%N].
  - cbn [app]. now rewrite rfind_from_absent.
  - rewrite <- app_assoc. cbn [app].
    rewrite rfind_from_last by (assumption || lia).
    unfold len. rewrite length_app. cbn [length]. lia.
Qed.

Lemma slice_one (pre rest : pystr) (c : char) :
  slice (pre ++ c :: rest) (len pre) (len pre + 1) = [c].
Proof. exact (slice_middle pre [c] rest). Qed.

Lemma slice_to_app (a b : pystr) : slice_to (a ++ b) (len a) = a.
Proof.
  unfold len. rewrite slice_to_firstn by lia.
  rewrite Nat2Z.id, firstn_app, firstn_all, Nat.sub_diag. cbn [firstn].
  apply app_nil_r.
Qed.

Lemma slice_from_app (a b : pystr) : slice_from (a ++ b) (len a) = b.
Proof.
  unfold slice_from.
  assert (H := slice_middle a b []). rewrite app_nil_r in H.
  unfold len in *. rewrite length_app, Nat2Z.inj_add. exact H.
Qed.

(** The loop over the leading dots of the file name: it stops at the first
    character that is not a dot, and gives up when there is none. *)
Lemma skip_leading_dots_stop (dots : pystr) :
  Forall (fun c => c = 46%N) dots ->
  forall (pre rest : pystr) (c : char) (n : nat) (dotIndex : Z),
    c <> 46%N ->
    PosixPath.skip_leading_dots (length dots + S n) (pre ++ dots ++ c :: rest)
      (len pre) dotIndex
    = (slice_to (pre ++ dots ++ c :: rest) dotIndex,
       slice_from (pre ++ dots ++ c :: rest) dotIndex).
Proof.
  induction 1 as [|d dots -> _ IH]; intros pre rest c n dotIndex Hc.
  - cbn [length Nat.add app PosixPath.skip_leading_dots].
    rewrite slice_one, eqb_neq; [reflexivity|].
    change PosixPath.extsep with [46%N]. congruence.
  - cbn [length Nat.add app PosixPath.skip_leading_dots].
    rewrite slice_one. change (PyStr.eqb [46%N] PosixPath.extsep) with true.
    cbn [negb].
    replace (len pre + 1) with (len (pre ++ [46%N]))
      by (unfold len; rewrite length_app; cbn [length]; lia).
    change (pre ++ 46%N :: dots ++ c :: rest)
      with (pre ++ [46%N] ++ dots ++ c :: rest).
    rewrite app_assoc. now apply IH.
Qed.

Lemma skip_leading_dots_all (dots : pystr) :
  Forall (fun c => c = 46%N) dots ->
  forall (pre rest : pystr) (dotIndex : Z),
    PosixPath.skip_leading_dots (length dots) (pre ++ dots ++ rest)
      (len pre) dotIndex
    = (pre ++ dots ++ rest, []).
Proof.
  induction 1 as [|d dots -> _ IH]; intros pre rest dotIndex.
  - cbn [length PosixPath.skip_leading_dots]. f_equal.
    now rewrite slice_to_firstn.
  - cbn [length app PosixPath.skip_leading_dots].
    rewrite slice_one. change (PyStr.eqb [46%N] PosixPath.extsep) with true.
    cbn [negb].
    replace (len pre + 1) with (len (pre ++ [46%N]))
      by (unfold len; rewrite length_app; cbn [length]; lia).
    change (pre ++ 46%N :: dots ++ rest) with (pre ++ [46%N] ++ dots ++ rest).
    rewrite app_assoc, IH. now rewrite <- app_assoc.
Qed.

(** A text with a character that is not a dot: its dots, the character,
    and the rest. *)
Lemma first_not_dot (s : pystr) :
  (exists c, In c s /\ c <> 46%N) ->
  exists dots c rest,
    s = dots ++ c :: rest /\ Forall (fun c => c = 46%N) dots /\ c <> 46%N.
Proof.
  induction s as [|d s IH]; intros [c [Hin Hc]]; [contradiction|].
  destruct (N.eq_dec d 46) as [->|Hd].
  - destruct IH as [dots [c' [rest [-> [Hdots Hc']]]]].
    { exists c. destruct Hin as [<-|Hin]; [congruence | now split]. }
    exists (46%N :: dots), c', rest. repeat split; [|assumption].
    now constructor.
  - exists [], d, s. repeat split; [constructor | assumption].
Qed.

Lemma not_in_app (c : char) (a b : pystr) :
  ~ In c a -> ~ In c b -> ~ In c (a ++ b).
Proof. intros Ha Hb Hin. apply in_app_or in Hin. tauto. Qed.

(** [splitext] of a name with a stem and an extension. *)
Lemma splitext_regular (dir stem e : pystr) :
  dir = [] \/ (exists d, dir = d ++ PosixPath.sep) ->
  ~ In 47%N stem ->
  (exists c, In c stem /\ c <> 46%N) ->
  ~ In 46%N e -> ~ In 47%N e ->
  PosixPath.splitext (dir ++ stem ++ 46%N :: e) = (dir ++ stem, 46%N :: e).
Proof.
  intros Hdir Hstem Hc Hdot Hsep.
  destruct (first_not_dot stem Hc) as [dots [c [rest [-> [Hdots Hc']]]]].
  unfold PosixPath.splitext.
  assert (Hs : rfind (dir ++ (dots ++ c :: rest) ++ 46%N :: e) PosixPath.sep + 1
               = len dir).
  { apply rfind_sep; [assumption|]. apply not_in_app; [assumption|].
    intros [H|H]; [discriminate | contradiction]. }
  assert (Hd : rfind (dir ++ (dots ++ c :: rest) ++ 46%N :: e) PosixPath.extsep
               = len (dir ++ dots ++ c :: rest)).
  { unfold rfind. change PosixPath.extsep with [46%N].
    rewrite app_assoc. now rewrite rfind_from_last by (assumption || lia). }
  rewrite Hs, Hd.
  assert (Hgt : (len (dir ++ dots ++ c :: rest)
                 >? rfind (dir ++ (dots ++ c :: rest) ++ 46%N :: e)
                      PosixPath.sep) = true).
  { rewrite Z.gtb_ltb. apply Z.ltb_lt. unfold len in *.
    rewrite !length_app. cbn [length]. lia. }
  rewrite Hgt.
  replace (Z.to_nat (len (dir ++ dots ++ c :: rest) - len dir))
    with (length dots + S (length rest))%nat
    by (unfold len; rewrite !length_app; cbn [length]; lia).
  rewrite <- !app_assoc. cbn [app].
  rewrite skip_leading_dots_stop by assumption.
  change (dir ++ dots ++ c :: rest ++ 46%N :: e)
    with (dir ++ dots ++ (c :: rest) ++ 46%N :: e).
  rewrite !app_assoc. rewrite <- (app_assoc dir dots (c :: rest)).
  now rewrite slice_to_app, slice_from_app.
Qed.

(** [splitext] of a name whose last component is made of dots up to its
    last dot. *)
Lemma splitext_hidden (dir dots e : pystr) :
  dir = [] \/ (exists d, dir = d ++ PosixPath.sep) ->
  Forall (fun c => c = 46%N) dots ->
  ~ In 46%N e -> ~ In 47%N e ->
  PosixPath.splitext (dir ++ dots ++ 46%N :: e)
  = (dir ++ dots ++ 46%N :: e, []).
Proof.
  intros Hdir Hdots Hdot Hsep.
  unfold PosixPath.splitext.
  assert (Hs : rfind (dir ++ dots ++ 46%N :: e) PosixPath.sep + 1 = len dir).
  { apply rfind_sep; [assumption|]. apply not_in_app.
    - intro Hin. rewrite Forall_forall in Hdots.
      specialize (Hdots _ Hin). discriminate.
    - intros [H|H]; [discriminate | contradiction]. }
  assert (Hd : rfind (dir ++ dots ++ 46%N :: e) PosixPath.extsep
               = len (dir ++ dots)).
  { unfold rfind. change PosixPath.extsep with [46%N].
    rewrite app_assoc. now rewrite rfind_from_last by (assumption || lia). }
  rewrite Hs, Hd.
  destruct (len (dir ++ dots) >? _); [|f_equal; now rewrite slice_to_firstn].
  replace (Z.to_nat (len (dir ++ dots) - len dir)) with (length dots)
    by (unfold len; rewrite !length_app; lia).
  now apply skip_leading_dots_all.
Qed.

Section NameExtras.

Context {E : External}.

(** X13. For a name with a stem that has a character other than a dot,
    followed by a dot and a suffix without dot or slash, [splitext] cuts
    the name at its last dot.  When the suffix is made of ASCII characters
    the extension the extractor goes by is that dot and the suffix with its
    capital letters in lower case, so the test of the extension ignores
    the case of ASCII letters: a suffix that is [pdf] or [docx] up to the
    case of its letters is handled as [.pdf] or [.docx]. *)
Theorem extension_of_regular_name (f : UploadedFile) (dir stem e : pystr) :
  name f = dir ++ stem ++ 46%N :: e ->
  dir = [] \/ (exists d, dir = d ++ PosixPath.sep) ->
  ~ In 47%N stem ->
  (exists c, In c stem /\ c <> 46%N) ->
  ~ In 46%N e -> ~ In 47%N e ->
  PosixPath.splitext (name f) = (dir ++ stem, 46%N :: e)
  /\ (ascii_text e -> extension f = 46%N :: lower e)
  /\ (lower e = str "pdf" -> extension f = str ".pdf")
  /\ (lower e = str "docx" -> extension f = str ".docx").
Proof.
  intros Hname Hdir Hstem Hc Hdot Hsep.
  assert (H : PosixPath.splitext (name f) = (dir ++ stem, 46%N :: e))
    by (rewrite Hname; now apply splitext_regular).
  split; [exact H|].
  assert (Hext : extension f = 46%N :: lower e)
    by (unfold extension; now rewrite H).
  split; [intros _; exact Hext|].
  split; intro Hl; rewrite Hext, Hl; reflexivity.
Qed.

(** X14. A name whose last component starts with its only dots, such as
    [.pdf] or [..docx], has no extension: [splitext] leaves the name whole,
    the extractor takes the file for one of an unknown type and returns
    [None] without calling PyPDF2 or python-docx. *)
Theorem hidden_name_is_unsupported (f : UploadedFile) (dir dots e : pystr) :
  name f = dir ++ dots ++ 46%N :: e ->
  dir = [] \/ (exists d, dir = d ++ PosixPath.sep) ->
  Forall (fun c => c = 46%N) dots ->
  ~ In 46%N e -> ~ In 47%N e ->
  PosixPath.splitext (name f) = (name f, [])
  /\ result (_extract_text_from_resume f) = Return None
  /\ (forall ev, In ev (trace (_extract_text_from_resume f)) ->
                 ~ parsing_event ev).
Proof.
  intros Hname Hdir Hdots Hdot Hsep.
  assert (H : PosixPath.splitext (name f) = (name f, []))
    by (rewrite Hname; now apply splitext_hidden).
  split; [exact H|].
  assert (Hext : extension f = []) by (unfold extension; now rewrite H).
  rewrite unsupported_run by (rewrite Hext; discriminate).
  destruct (read f) as [content|e0]; (split; [reflexivity|]);
    intros ev [<-|[<-|[]]] [].
Qed.

End NameExtras.

(** ** More on fences *)

Lemma no_backquote_start (s p : pystr) :
  ~ In 96%N s -> startswith s (96%N :: p) = false.
Proof.
  intro H. destruct s as [|c s]; [reflexivity|].
  rewrite startswith_cons. unfold char_eqb.
  destruct (N.eqb_spec 96 c) as [<-|_]; [|reflexivity].
  exfalso. apply H. now left.
Qed.

Lemma rfind_from_no_backquote (s p : pystr) (i : Z) :
  ~ In 96%N s -> rfind_from i s (96%N :: p) = -1.
Proof.
  revert i. induction s as [|c s IH]; intros i H; [reflexivity|].
  cbn [rfind_from]. rewrite IH by (intro; apply H; now right).
  cbn [Z.leb]. now rewrite no_backquote_start.
Qed.

(** [rfind] answers the closing fence when no backquote follows it. *)
Lemma rfind_from_last_fence (pre rest : pystr) (i : Z) :
  0 <= i -> ~ In 96%N rest ->
  rfind_from i (pre ++ fence ++ rest) fence = i + len pre.
Proof.
  intros Hi Hrest. revert i Hi. induction pre as [|c pre IH]; intros i Hi.
  - change (rfind_from i (96%N :: 96%N :: 96%N :: rest) [96%N; 96%N; 96%N]
            = i + 0).
    cbn [rfind_from].
    rewrite (rfind_from_no_backquote rest [96%N; 96%N] (i + 1 + 1 + 1) Hrest).
    cbn [Z.leb].
    assert (H1 : startswith (96%N :: rest) [96%N; 96%N; 96%N] = false).
    { rewrite startswith_cons, (no_backquote_start rest [96%N] Hrest).
      apply andb_false_r. }
    assert (H2 : startswith (96%N :: 96%N :: rest) [96%N; 96%N; 96%N] = false).
    { rewrite !startswith_cons, (no_backquote_start rest [] Hrest).
      now rewrite !andb_false_r. }
    rewrite H1. cbn [Z.leb]. rewrite H2. cbn [Z.leb].
    simpl. lia.
  - cbn [app rfind_from]. rewrite IH by lia.
    assert (H : (0 <=? i + 1 + len pre) = true)
      by (apply Z.leb_le; unfold len; lia).
    rewrite H. unfold len. cbn [length]. lia.
Qed.

(** The text between an opening marker and the last fence. *)
Lemma last_fence_slice (ws0 p inner rest : pystr) :
  blank ws0 -> ~ In 96%N rest -> inner <> [] ->
  let raw := ws0 ++ (96%N :: p) ++ inner ++ fence ++ rest in
  find raw (96%N :: p) = len ws0
  /\ rfind raw fence > len ws0 + len (96%N :: p)
  /\ slice raw (len ws0 + len (96%N :: p)) (rfind raw fence) = inner.
Proof.
  intros H0 H3 Hne raw.
  assert (Hfind : find raw (96%N :: p) = len ws0).
  { unfold find, raw. now rewrite find_from_after_blank. }
  assert (Hrfind : rfind raw fence = len (ws0 ++ (96%N :: p)) + len inner).
  { unfold rfind, raw.
    replace (ws0 ++ (96%N :: p) ++ inner ++ fence ++ rest)
      with (((ws0 ++ (96%N :: p)) ++ inner) ++ fence ++ rest)
      by now rewrite <- !app_assoc.
    rewrite rfind_from_last_fence by (assumption || lia).
    unfold len. rewrite !length_app. lia. }
  assert (Hlen : len (ws0 ++ (96%N :: p)) = len ws0 + len (96%N :: p)).
  { unfold len. rewrite length_app. lia. }
  split; [exact Hfind|]. split.
  - rewrite Hrfind, Hlen. destruct inner; [congruence|]. unfold len. simpl. lia.
  - rewrite Hrfind, <- Hlen. unfold raw.
    replace (ws0 ++ (96%N :: p) ++ inner ++ fence ++ rest)
      with ((ws0 ++ (96%N :: p)) ++ inner ++ (fence ++ rest))
      by now rewrite <- !app_assoc.
    apply slice_middle.
Qed.

(** A text that does not start with [json] does not start with it when a
    fence follows. *)
Lemma not_tag_before_fence (inner rest : pystr) :
  inner <> [] ->
  startswith inner (str "json") = false ->
  startswith (inner ++ fence ++ rest) (str "json") = false.
Proof.
  intros Hne H. change (str "json") with [106%N; 115%N; 111%N; 110%N] in *.
  change fence with [96%N; 96%N; 96%N].
  destruct inner as [|a [|b [|c [|d inner]]]]; [congruence| | | |exact H];
    cbn [app]; rewrite !startswith_cons in *; unfold char_eqb in *;
    cbn [startswith] in H; rewrite ?andb_true_r in H.
  - destruct (106 =? a)%N; [reflexivity | reflexivity].
  - destruct (106 =? a)%N; [|reflexivity].
    destruct (115 =? b)%N; reflexivity.
  - destruct (106 =? a)%N; [|reflexivity].
    destruct (115 =? b)%N; [|reflexivity].
    destruct (111 =? c)%N; reflexivity.
Qed.

Section SanitizerExtras.

Context {E : External}.

(** The candidate of an answer with a closed block. *)
Lemma closed_block_candidate (ws0 inner rest : pystr) :
  blank ws0 -> inner <> [] -> ~ In 96%N rest ->
  candidate (ws0 ++ fence_json ++ inner ++ fence ++ rest)
  = ([], Return (strip inner))
  /\ (startswith inner (str "json") = false ->
      candidate (ws0 ++ fence ++ inner ++ fence ++ rest)
      = ([], Return (strip inner))).
Proof.
  intros H0 Hne Hrest. split.
  - set (raw := ws0 ++ fence_json ++ inner ++ fence ++ rest).
    destruct (last_fence_slice ws0 (str "``json") inner rest H0 Hrest Hne)
      as [Hfind [Hgt Hslice]].
    change (96%N :: str "``json") with fence_json in *.
    fold raw in Hfind, Hgt, Hslice.
    assert (Hs : startswith (strip raw) fence_json = true).
    { unfold raw. change fence_json with (96%N :: str "``jso" ++ [110%N]).
      rewrite strip_opening by (assumption || reflexivity).
      apply startswith_app. }
    rewrite (candidate_tagged_closed raw Hs).
    + now rewrite Hfind, Hslice.
    + now rewrite Hfind.
  - intro Htag.
    set (raw := ws0 ++ fence ++ inner ++ fence ++ rest).
    destruct (last_fence_slice ws0 (str "``") inner rest H0 Hrest Hne)
      as [Hfind [Hgt Hslice]].
    change (96%N :: str "``") with fence in *.
    fold raw in Hfind, Hgt, Hslice.
    assert (Hstrip : strip raw = fence ++ rstrip (inner ++ fence ++ rest)).
    { unfold raw. change fence with (96%N :: [96%N] ++ [96%N]) at 1 3.
      now rewrite strip_opening by (assumption || reflexivity). }
    assert (Hs : startswith (strip raw) fence = true).
    { rewrite Hstrip. apply startswith_app. }
    assert (Hsj : startswith (strip raw) fence_json = false).
    { rewrite Hstrip. change fence_json with (fence ++ str "json").
      change fence with [96%N; 96%N; 96%N] at 1 3. cbn [app].
      rewrite !startswith_cons. unfold char_eqb. rewrite N.eqb_refl.
      cbn [andb]. apply startswith_rstrip.
      now apply not_tag_before_fence. }
    rewrite (candidate_generic_closed raw Hsj Hs).
    + now rewrite Hfind, Hslice.
    + now rewrite Hfind.
Qed.

(** X15. In an answer that opens with a fence, the candidate is what lies
    between the opening marker and the last fence, stripped: a text after
    the last fence is dropped, whatever it says, and the text between is
    taken whole, also when it has fences of its own.  No warning is
    logged. *)
Theorem text_after_last_fence_is_dropped (ws0 inner rest : pystr) :
  blank ws0 -> inner <> [] -> ~ In 96%N rest ->
  candidate (ws0 ++ fence_json ++ inner ++ fence ++ rest)
  = ([], Return (strip inner))
  /\ (startswith inner (str "json") = false ->
      candidate (ws0 ++ fence ++ inner ++ fence ++ rest)
      = ([], Return (strip inner))).
Proof. exact (closed_block_candidate ws0 inner rest). Qed.

(** What the decoding step answers, by the answer of [json.loads]. *)
Lemma parse_report_run (text : pystr) :
  result (parse_report text)
  = match json_loads text with
    | Return v => Return v
    | Raise (JSONDecodeError detail) =>
        Raise (PyException
                 (str "AI response format error: Could not parse AI response as JSON. Details: "
                  ++ detail ++ str ". Raw response start: "
                  ++ slice_to text 500 ++ str "..."))
    | Raise (PyException m) => Raise (PyException m)
    end.
Proof.
  destruct (json_loads text) as [v|[d|m]] eqn:H.
  - now rewrite (parse_report_ok _ _ H).
  - now apply parse_report_error.
  - unfold parse_report, try_except_JSONDecodeError, bind, call, result.
    now rewrite H.
Qed.

(** X16. An answer whose first character after whitespace is not a
    backquote is handed to [json.loads] as it is, whitespace included: a
    fenced block that comes after some words is not unwrapped.  With a
    decoder that accepts only texts that begin with a JSON value, such an
    answer that begins with a word is never decoded: the sanitiser
    raises. *)
Theorem text_before_fence_defeats_unwrapping (raw : pystr) (c : char)
  (rest : pystr) :
  strip raw = c :: rest ->
  c <> 96%N ->
  candidate raw = ([], Return raw)
  /\ (decoder_contract E -> opens_value c = false ->
      exists e, result (sanitize raw) = Raise e).
Proof.
  intros Hs Hc.
  assert (Hbare : startswith (strip raw) fence = false).
  { rewrite Hs. change fence with [96%N; 96%N; 96%N].
    rewrite startswith_cons. unfold char_eqb.
    destruct (N.eqb_spec 96 c) as [<-|_]; [congruence | reflexivity]. }
  split; [now apply candidate_bare|].
  intros contract Hopen.
  destruct (sanitize_parse raw) as [tr [_ ->]].
  rewrite (candidate_text_of _ _ _ (candidate_bare raw Hbare)).
  unfold result at 1. cbn [snd]. rewrite parse_report_run.
  destruct (json_loads raw) as [v|[d|m]] eqn:Hv; [|eauto|eauto].
  destruct (@loads_opens E contract raw v Hv) as [c' [t [Hs' Hc']]].
  rewrite Hs in Hs'. injection Hs' as -> _. congruence.
Qed.

(** X18. Only [json.JSONDecodeError] is rewritten by the sanitiser: any
    other exception of [json.loads] leaves it as it was raised, and
    nothing is logged for it there. *)
Theorem other_decoder_errors_pass_through (raw m : pystr) :
  json_loads (candidate_text raw) = Raise (PyException m) ->
  result (sanitize raw) = Raise (PyException m)
  /\ trace (sanitize raw)
     = trace (candidate raw) ++ [JsonLoads (candidate_text raw)].
Proof.
  intro H. destruct (sanitize_parse raw) as [tr [Htr ->]].
  unfold result at 1, trace at 1. cbn [fst snd]. rewrite parse_report_run, H.
  split; [reflexivity|]. rewrite Htr. f_equal.
  unfold parse_report, try_except_JSONDecodeError, bind, call, trace.
  now rewrite H.
Qed.

End SanitizerExtras.

(** ** The handler *)

Section HandlerExtras.

Context {E : External}.

(** The events of a trace that are log records. *)
Lemma calls_logs (p : event -> bool) (t : list event) :
  (forall l m, p (Log l m) = false) ->
  Forall (fun ev => exists l m, ev = Log l m) t ->
  calls p t = 0%nat.
Proof.
  intros Hp H. apply calls_none. intros ev Hin.
  rewrite Forall_forall in H. destruct (H ev Hin) as [l [m ->]]. apply Hp.
Qed.

Lemma logs_of_level (lvl : level) (t : list event) :
  Forall (fun ev => exists m, ev = Log lvl m) t ->
  Forall (fun ev => exists l m, ev = Log l m) t.
Proof. apply Forall_impl. intros ev [m ->]. eauto. Qed.

(** The calls of the sanitiser: the decoder, once. *)
Lemma sanitize_calls (raw : pystr) :
  calls is_file_read (trace (sanitize raw)) = 0%nat
  /\ calls is_model_call (trace (sanitize raw)) = 0%nat
  /\ calls is_json_loads (trace (sanitize raw)) = 1%nat.
Proof.
  destruct (sanitize_run raw) as [tr [tr' [Hw [He ->]]]].
  apply logs_of_level in Hw, He.
  change (tr ++ JsonLoads (candidate_text raw) :: tr')
    with (tr ++ [JsonLoads (candidate_text raw)] ++ tr').
  rewrite !calls_app.
  rewrite !(calls_logs _ tr), !(calls_logs _ tr') by (assumption || reflexivity).
  repeat split.
Qed.

(** The calls of [_get_gemini_analysis]: the model, once, and the decoder
    when the model has answered. *)
Lemma analysis_calls (text jd cat role : pystr) :
  let t := trace (_get_gemini_analysis text jd cat role) in
  calls is_file_read t = 0%nat
  /\ calls is_model_call t = 1%nat
  /\ calls is_json_loads t
     = match generate_content (Prompt.prompt text jd cat role) with
       | Return _ => 1%nat
       | Raise _ => 0%nat
       end.
Proof.
  cbv zeta. rewrite analysis_run.
  destruct (generate_content _) as [raw|e].
  - destruct (sanitize_calls raw) as [H1 [H2 H3]].
    unfold trace in *. cbn [fst].
    change (?a :: ?b :: fst (sanitize raw))
      with ([a; b] ++ fst (sanitize raw)).
    rewrite !calls_app, H1, H2, H3. repeat split.
  - repeat split.
Qed.

(** The calls of the extractor: the file is read once; the model and the
    decoder are not called. *)
Lemma extract_calls (f : UploadedFile) :
  let t := trace (_extract_text_from_resume f) in
  calls is_file_read t = 1%nat
  /\ calls is_model_call t = 0%nat
  /\ calls is_json_loads t = 0%nat.
Proof.
  cbv zeta. split; [apply extract_reads_once|].
  assert (H := extract_events f). rewrite Forall_forall in H.
  split; apply calls_none; intros ev Hin; specialize (H ev Hin);
    now destruct ev.
Qed.

(** X1. Without a file in the request, or with a file whose name is empty,
    [post] answers 400 with the message that asks for a PDF or DOCX, logs
    one warning, and does nothing else: nothing is read and no library is
    called. *)
Theorem missing_file_is_client_error (request : Request) :
  FILES_resume_file request = None
  \/ (exists f, FILES_resume_file request = Some f /\ name f = []) ->
  post request
  = ([Log INFO (str "Received POST request for resume analysis.");
      Log WARNING (str "No resume file provided in the request.")],
     Return {| success := false;
               message := str "No resume file provided. Please upload a PDF or DOCX.";
               report_of := None;
               status := HTTP_400_BAD_REQUEST |}).
Proof.
  intros [H|[f [H Hname]]]; unfold post; rewrite H; [reflexivity|].
  unfold file_truthy. rewrite Hname. reflexivity.
Qed.

(** The answers of [post]: 200 with the success flag and a report, or 400
    or 500 without the flag and without a report. *)
Lemma post_responds (request : Request) :
  exists response,
    result (post request) = Return response
    /\ ((status response = HTTP_200_OK /\ success response = true
         /\ exists r, report_of response = Some r)
        \/ ((status response = HTTP_400_BAD_REQUEST
             \/ status response = HTTP_500_INTERNAL_SERVER_ERROR)
            /\ success response = false /\ report_of response = None)).
Proof.
  assert (Hnone : exists response : Response report,
             Return no_file_response = Return response
             /\ ((status response = HTTP_200_OK /\ success response = true
                  /\ exists r, report_of response = Some r)
                 \/ ((status response = HTTP_400_BAD_REQUEST
                      \/ status response = HTTP_500_INTERNAL_SERVER_ERROR)
                     /\ success response = false
                     /\ report_of response = None))).
  { exists no_file_response. split; [reflexivity|].
    right. repeat split. now left. }
  destruct (FILES_resume_file request) as [f|] eqn:Hf.
  2:{ destruct Hnone as [r [Hr H]]. exists r. split; [|exact H].
      unfold post. rewrite Hf. exact Hr. }
  destruct (file_truthy f) eqn:Ht.
  2:{ destruct Hnone as [r [Hr H]]. exists r. split; [|exact H].
      unfold post. rewrite Hf, Ht. exact Hr. }
  clear Hnone.
  destruct (extract_returns f) as [r Hr].
  destruct (falsy r) eqn:Hfalsy.
  - destruct (post_without_text request f r Hf Ht Hr Hfalsy) as [Hp _].
    exists no_text_response. split; [exact Hp|].
    right. repeat split. now left.
  - destruct r as [[|c t]|]; try discriminate.
    rewrite (post_with_text request f (c :: t) Hf Ht Hr) by discriminate.
    destruct (result (_get_gemini_analysis _ _ _ _)) as [v|e].
    + exists (success_response v). split; [reflexivity|].
      left. repeat split. now exists v.
    + exists (error_response e). split; [reflexivity|].
      right. repeat split. now right.
Qed.

(** X2. The only exception that leaves [post] is the one [request.FILES]
    raises on line 55 when the body of the request cannot be parsed: it is
    raised after the first record and before anything is read or called.
    For a request whose body parses, [post] answers: no exception of the
    file, of the document libraries, of the model or of the decoder leaves
    it, and the answer has status 200, the success flag and a report, or
    status 400 or 500, no success flag and no report. *)
Theorem post_raises_only_on_unparsed_body (body : outcome Request) :
  (forall e, result (post_lazy body) = Raise e <-> body = Raise e)
  /\ (forall e, body = Raise e ->
         trace (post_lazy body)
         = [Log INFO (str "Received POST request for resume analysis.")])
  /\ (forall request, body = Return request ->
         exists response,
           result (post_lazy body) = Return response
           /\ ((status response = HTTP_200_OK /\ success response = true
                /\ exists r, report_of response = Some r)
               \/ ((status response = HTTP_400_BAD_REQUEST
                    \/ status response = HTTP_500_INTERNAL_SERVER_ERROR)
                   /\ success response = false
                   /\ report_of response = None))).
Proof.
  destruct body as [request|e0]; cbn [post_lazy].
  - destruct (post_responds request) as [response [Hr Hs]].
    split; [|split].
    + intro e. rewrite Hr. split; discriminate.
    + intros e [=].
    + intros request' [= <-]. exists response. now split.
  - split; [|split].
    + intro e. unfold bind, log, raise, result. cbn [snd].
      split; intros [= ->]; reflexivity.
    + intros e _. reflexivity.
    + intros request [=].
Qed.

(** X5. When the call of the model raises, [post] answers 500 with a
    message that has the text of the exception between fixed words; the
    model has been called once and the decoder is not called. *)
Theorem model_failure_is_server_error
  (request : Request) (f : UploadedFile) (text : pystr) (e : exn) :
  FILES_resume_file request = Some f ->
  file_truthy f = true ->
  result (_extract_text_from_resume f) = Return (Some text) ->
  text <> [] ->
  generate_content (prompt_of request text) = Raise e ->
  result (post request)
  = Return {| success := false;
              message := str "An error occurred during analysis: "
                         ++ str_of_exn e
                         ++ str ". Check server logs for details.";
              report_of := None;
              status := HTTP_500_INTERNAL_SERVER_ERROR |}
  /\ calls is_model_call (trace (post request)) = 1%nat
  /\ calls is_json_loads (trace (post request)) = 0%nat.
Proof.
  intros Hf Ht Hr Hne Hm.
  assert (Ha : _get_gemini_analysis text (job_description request)
                 (job_category request) (specific_role request)
               = ([Log INFO (str "Sending prompt to Gemini API with detailed request...");
                   ModelCall (prompt_of request text)],
                  Raise e)).
  { rewrite analysis_run. fold (prompt_of request text). now rewrite Hm. }
  split.
  - rewrite (post_with_text request f text Hf Ht Hr Hne), Ha. reflexivity.
  - destruct (post_file_run request f Hf Ht) as [pre [_ [Hpre Hrun]]].
    apply logs_of_level in Hpre.
    destruct (extract_calls f) as [_ [Hem Hej]].
    unfold result, trace in Hr, Hem, Hej.
    destruct (_extract_text_from_resume f) as [tr o]. cbn [fst snd] in *.
    subst o. destruct text as [|c t]; [congruence|].
    cbv zeta in Hrun. rewrite Ha in Hrun.
    destruct Hrun as [m1 [l2 [m2 Hrun]]].
    replace (trace (post request))
      with (pre ++ tr ++ [Log INFO m1]
            ++ [Log INFO (str "Sending prompt to Gemini API with detailed request...");
                ModelCall (prompt_of request (c :: t))]
            ++ [Log l2 m2])
      by now rewrite Hrun.
    rewrite !calls_app, Hem, Hej.
    rewrite !(calls_logs _ pre) by (assumption || reflexivity).
    split; reflexivity.
Qed.

(** X7. A request makes [post] read the file at most once, call the model
    at most once and call the decoder at most once; the model is called
    only when the file has been read, and the decoder only when the model
    has been called. *)
Theorem one_call_per_request (request : Request) :
  let t := trace (post request) in
  (calls is_json_loads t <= calls is_model_call t)%nat
  /\ (calls is_model_call t <= calls is_file_read t)%nat
  /\ (calls is_file_read t <= 1)%nat.
Proof.
  cbv zeta.
  destruct (FILES_resume_file request) as [f|] eqn:Hf.
  2:{ unfold post. rewrite Hf. cbv. lia. }
  destruct (file_truthy f) eqn:Ht.
  2:{ unfold post. rewrite Hf, Ht. cbv. lia. }
  destruct (post_file_run request f Hf Ht) as [pre [_ [Hpre Hrun]]].
  apply logs_of_level in Hpre.
  destruct (extract_calls f) as [Her [Hem Hej]].
  unfold trace in Her, Hem, Hej.
  destruct (_extract_text_from_resume f) as [tr [[[|c t]|]|e]];
    cbn [fst] in *.
  - destruct Hrun as [m Hrun].
    replace (trace (post request)) with (pre ++ tr ++ [Log ERROR m])
      by now rewrite Hrun.
    rewrite !calls_app, Her, Hem, Hej.
    rewrite !(calls_logs _ pre) by (assumption || reflexivity). cbv. lia.
  - cbv zeta in Hrun. destruct Hrun as [m1 [l2 [m2 Hrun]]].
    destruct (analysis_calls (c :: t) (job_description request)
                (job_category request) (specific_role request))
      as [Har [Ham Haj]].
    replace (trace (post request))
      with (pre ++ tr ++ [Log INFO m1]
            ++ trace (_get_gemini_analysis (c :: t) (job_description request)
                        (job_category request) (specific_role request))
            ++ [Log l2 m2])
      by now rewrite Hrun.
    rewrite !calls_app, Her, Hem, Hej, Har, Ham, Haj.
    rewrite !(calls_logs _ pre) by (assumption || reflexivity).
    destruct (generate_content _); cbv; lia.
  - destruct Hrun as [m Hrun].
    replace (trace (post request)) with (pre ++ tr ++ [Log ERROR m])
      by now rewrite Hrun.
    rewrite !calls_app, Her, Hem, Hej.
    rewrite !(calls_logs _ pre) by (assumption || reflexivity). cbv. lia.
  - replace (trace (post request)) with (pre ++ tr) by now rewrite Hrun.
    rewrite !calls_app, Her, Hem, Hej.
    rewrite !(calls_logs _ pre) by (assumption || reflexivity). cbv. lia.
Qed.

End HandlerExtras.

Section ResponseExtras.

Context {E : External}.




(** X6. When [json.loads] rejects the candidate with a decoding error,
    [post] answers 500; the message is the fixed words of the handler
    around those of the sanitiser, with the detail of the decoder and at
    most the first 500 characters of the candidate, so its length is at
    most 664 characters more than that of the detail. *)
Theorem decode_failure_is_server_error
  (request : Request) (f : UploadedFile) (text raw detail : pystr) :
  FILES_resume_file request = Some f ->
  file_truthy f = true ->
  result (_extract_text_from_resume f) = Return (Some text) ->
  text <> [] ->
  generate_content (prompt_of request text) = Return raw ->
  json_loads (candidate_text raw) = Raise (JSONDecodeError detail) ->
  let msg :=
    str "An error occurred during analysis: "
    ++ (str "AI response format error: Could not parse AI response as JSON. Details: "
        ++ detail ++ str ". Raw response start: "
        ++ firstn 500 (candidate_text raw) ++ str "...")
    ++ str ". Check server logs for details." in
  result (post request)
  = Return {| success := false;
              message := msg;
              report_of := None;
              status := HTTP_500_INTERNAL_SERVER_ERROR |}
  /\ (length msg <= 664 + length detail)%nat.
Proof.
  intros Hf Ht Hr Hne Hm Hd msg. split.
  - rewrite (post_with_text request f text Hf Ht Hr Hne).
    fold (prompt_of request text) in Hm.
    rewrite (analysis_of_response _ _ _ _ raw Hm).
    destruct (sanitize_parse raw) as [tr [_ ->]].
    unfold result at 1. cbn [snd]. rewrite parse_report_run, Hd.
    rewrite slice_to_firstn by lia. reflexivity.
  - unfold msg. rewrite !length_app.
    assert (Hcut : (length (firstn 500 (candidate_text raw)) <= 500)%nat)
      by apply firstn_le_length.
    assert (H1 : length (str "An error occurred during analysis: ") = 35%nat)
      by reflexivity.
    assert (H2 : length (str "AI response format error: Could not parse AI response as JSON. Details: ") = 72%nat)
      by reflexivity.
    assert (H3 : length (str ". Raw response start: ") = 22%nat) by reflexivity.
    assert (H4 : length (str "...") = 3%nat) by reflexivity.
    assert (H5 : length (str ". Check server logs for details.") = 32%nat)
      by reflexivity.
    rewrite H1, H2, H3, H4, H5. lia.
Qed.

End ResponseExtras.

(** ** An empty block *)

Lemma replace_from_blank (ws p new : pystr) :
  blank ws -> replace_from 0 ws (96%N :: p) new = ws.
Proof.
  induction 1 as [|c ws Hc Hws IH]; [reflexivity|].
  cbn [replace_from].
  assert (Hs : startswith (c :: ws) (96%N :: p) = false).
  { rewrite startswith_cons. unfold char_eqb. now rewrite space_not_backtick. }
  rewrite Hs. now rewrite IH.
Qed.

Lemma replace_from_after_blank (ws s p new : pystr) :
  blank ws ->
  replace_from 0 (ws ++ s) (96%N :: p) new = ws ++ replace_from 0 s (96%N :: p) new.
Proof.
  induction 1 as [|c ws Hc Hws IH]; [reflexivity|].
  cbn [app replace_from].
  assert (Hs : startswith (c :: ws ++ s) (96%N :: p) = false).
  { rewrite startswith_cons. unfold char_eqb. now rewrite space_not_backtick. }
  rewrite Hs. now rewrite IH.
Qed.

Lemma startswith_same (c : char) (s p : pystr) :
  startswith (c :: s) (c :: p) = startswith s p.
Proof. rewrite startswith_cons. unfold char_eqb. now rewrite N.eqb_refl. Qed.

Lemma replace_from_skip (pre s old new : pystr) :
  replace_from (length pre) (pre ++ s) old new = replace_from 0 s old new.
Proof.
  induction pre as [|c pre IH]; [reflexivity|].
  cbn [length app replace_from]. exact IH.
Qed.

(** [replace] at an occurrence and at a character where there is none. *)
Lemma replace_from_occurrence (a : char) (o s new : pystr) :
  replace_from 0 ((a :: o) ++ s) (a :: o) new
  = new ++ replace_from 0 s (a :: o) new.
Proof.
  cbn [app replace_from]. rewrite startswith_same.
  rewrite startswith_app.
  replace (length (a :: o) - 1)%nat with (length o) by (cbn [length]; lia).
  now rewrite replace_from_skip.
Qed.

Lemma replace_from_pass (c : char) (s old new : pystr) :
  startswith (c :: s) old = false ->
  replace_from 0 (c :: s) old new = c :: replace_from 0 s old new.
Proof. intro H. cbn [replace_from]. now rewrite H. Qed.

Lemma blank_not_tag (ws : pystr) :
  blank ws -> startswith ws (str "json") = false.
Proof.
  intro H. destruct H as [|c ws Hc _]; [reflexivity|].
  change (str "json") with (106%N :: str "son").
  rewrite startswith_cons. unfold char_eqb.
  destruct (N.eqb_spec 106 c) as [<-|_]; [discriminate | reflexivity].
Qed.

(** Without the fences, two fences and the whitespace around them are that
    whitespace. *)
Lemma replace_two_fences (ws0 ws3 : pystr) :
  blank ws0 -> blank ws3 ->
  replace (replace (ws0 ++ fence_json ++ fence ++ ws3) fence_json []) fence []
  = ws0 ++ ws3
  /\ replace (ws0 ++ fence ++ fence ++ ws3) fence [] = ws0 ++ ws3.
Proof.
  intros H0 H3.
  assert (Hin : replace_from 0 (fence ++ ws3) fence [] = ws3).
  { change fence with (96%N :: [96%N; 96%N]).
    rewrite replace_from_occurrence. cbn [app].
    now apply replace_from_blank. }
  assert (Hout : replace_from 0 (fence ++ ws3) fence_json [] = fence ++ ws3).
  { change (fence ++ ws3) with (96%N :: 96%N :: 96%N :: ws3).
    change fence_json with (96%N :: 96%N :: 96%N :: str "json").
    rewrite replace_from_pass
      by (rewrite 3 startswith_same; now apply blank_not_tag).
    rewrite replace_from_pass
      by (rewrite 2 startswith_same; now apply blank_no_fence_start).
    rewrite replace_from_pass
      by (rewrite startswith_same; now apply blank_no_fence_start).
    now rewrite replace_from_blank. }
  split.
  - assert (Ht : replace (ws0 ++ fence_json ++ fence ++ ws3) fence_json []
                 = ws0 ++ fence ++ ws3).
    { change (replace (ws0 ++ fence_json ++ fence ++ ws3) fence_json [])
        with (replace_from 0 (ws0 ++ fence_json ++ fence ++ ws3)
                (96%N :: str "``json") []).
      rewrite replace_from_after_blank by assumption. f_equal.
      change fence_json with (96%N :: str "``json") at 1.
      rewrite replace_from_occurrence. cbn [app]. exact Hout. }
    rewrite Ht.
    change (replace (ws0 ++ fence ++ ws3) fence [])
      with (replace_from 0 (ws0 ++ fence ++ ws3) (96%N :: str "``") []).
    rewrite replace_from_after_blank by assumption. f_equal. exact Hin.
  - change (replace (ws0 ++ fence ++ fence ++ ws3) fence [])
      with (replace_from 0 (ws0 ++ fence ++ fence ++ ws3) (96%N :: str "``") []).
    rewrite replace_from_after_blank by assumption. f_equal.
    change fence with (96%N :: str "``") at 1.
    rewrite replace_from_occurrence. cbn [app]. exact Hin.
Qed.

Section EmptyBlock.

Context {E : External}.

(** X17. A fenced block with nothing but whitespace in it gives the empty
    candidate.  When the closing fence comes right after the opening
    marker the block counts as not closed, because the closing fence has
    to lie beyond the end of the marker: the warning is logged and the
    fences are taken out instead. *)
Theorem empty_block_gives_empty_candidate (ws0 inner ws3 : pystr) :
  blank ws0 -> blank inner -> blank ws3 ->
  candidate (ws0 ++ fence_json ++ inner ++ fence ++ ws3)
  = (if truthy inner then []
     else [Log WARNING (str "JSON markdown block started but not properly closed. Attempting to parse full text.")],
     Return [])
  /\ candidate (ws0 ++ fence ++ inner ++ fence ++ ws3)
     = (if truthy inner then []
        else [Log WARNING (str "Generic markdown block started but not properly closed. Attempting to parse full text.")],
        Return []).
Proof.
  intros H0 H1 H3.
  assert (Hrest : inner <> [] -> ~ In 96%N ws3 ->
                  candidate (ws0 ++ fence_json ++ inner ++ fence ++ ws3)
                  = ([], Return (strip inner))
                  /\ candidate (ws0 ++ fence ++ inner ++ fence ++ ws3)
                     = ([], Return (strip inner))).
  { intros Hne Hq.
    destruct (closed_block_candidate ws0 inner ws3 H0 Hne Hq)
      as [Ha Hb].
    split; [exact Ha | apply Hb; now apply blank_not_tag]. }
  destruct inner as [|c inner].
  - clear Hrest. cbn [truthy app].
    destruct (replace_two_fences ws0 ws3 H0 H3) as [Hr1 Hr2].
    assert (Hb : strip (ws0 ++ ws3) = [])
      by (apply strip_blank; now apply blank_app).
    split.
    + set (raw := ws0 ++ fence_json ++ fence ++ ws3).
      assert (Hs : startswith (strip raw) fence_json = true).
      { unfold raw. change fence_json with (96%N :: str "``jso" ++ [110%N]).
        rewrite strip_opening by (assumption || reflexivity).
        apply startswith_app. }
      assert (Hfind : find raw fence_json = len ws0).
      { unfold find, raw. change fence_json with (96%N :: str "``json").
        now rewrite find_from_after_blank. }
      assert (Hrfind : rfind raw fence = len ws0 + len fence_json).
      { unfold rfind, raw. rewrite (app_assoc ws0 fence_json).
        rewrite rfind_from_closing by (assumption || lia).
        unfold len. rewrite length_app. lia. }
      rewrite (candidate_tagged_open raw Hs) by (rewrite Hfind, Hrfind; lia).
      unfold raw. now rewrite Hr1, Hb.
    + set (raw := ws0 ++ fence ++ fence ++ ws3).
      assert (Hstrip : strip raw = fence ++ fence).
      { unfold raw. change fence with (96%N :: [96%N] ++ [96%N]) at 1.
        rewrite strip_opening by (assumption || reflexivity).
        f_equal. rewrite rstrip_blank by assumption.
        change fence with ([96%N; 96%N] ++ [96%N]). now apply rstrip_fixed. }
      assert (Hs : startswith (strip raw) fence = true)
        by (rewrite Hstrip; apply startswith_app).
      assert (Hsj : startswith (strip raw) fence_json = false)
        by (rewrite Hstrip; reflexivity).
      assert (Hfind : find raw fence = len ws0).
      { unfold find, raw. change fence with (96%N :: str "``") at 1 3.
        now rewrite find_from_after_blank. }
      assert (Hrfind : rfind raw fence = len ws0 + len fence).
      { unfold rfind, raw. rewrite (app_assoc ws0 fence).
        rewrite rfind_from_closing by (assumption || lia).
        unfold len. rewrite length_app. lia. }
      rewrite (candidate_generic_open raw Hsj Hs)
        by (rewrite Hfind, Hrfind; lia).
      unfold raw. now rewrite Hr2, Hb.
  - cbn [truthy]. rewrite (strip_blank _ H1) in Hrest.
    apply Hrest; [discriminate|].
    intro Hin. unfold blank in H3. rewrite Forall_forall in H3.
    specialize (H3 _ Hin). discriminate.
Qed.

End EmptyBlock.

(** ** The configuration of the client *)

(** X19. The configuration block of the module never raises, so the view
    is loaded with or without a key.  [genai.configure] is called when the
    setting has a value that is not empty, with that value, and in no
    other case; an error is logged when the setting is missing or empty or
    when [genai.configure] raises, and only then. *)
Theorem module_init_never_raises (env : Startup.Env) :
  snd (Startup.module_init env) = Return tt
  /\ (forall key,
         In (Startup.Configure key) (fst (Startup.module_init env))
         <-> Startup.config env (str "GOOGLE_API_KEY") = Return key /\ key <> [])
  /\ ((exists msg, In (Startup.Logged ERROR msg) (fst (Startup.module_init env)))
      <-> ~ exists key, Startup.config env (str "GOOGLE_API_KEY") = Return key
                        /\ key <> []
                        /\ Startup.configure env key = Return tt).
Proof.
  unfold Startup.module_init, Startup.configure_model.
  destruct (Startup.config env (str "GOOGLE_API_KEY")) as [[|c key]|e].
  - cbn [truthy negb fst snd app]. split; [reflexivity|]. split.
    + intro k. split.
      * intros [H|[H|[]]]; discriminate.
      * intros [[= <-] H]. congruence.
    + split.
      * intros _ [k [[= <-] [H _]]]. congruence.
      * intros _. eexists. right. left. reflexivity.
  - cbn [truthy negb].
    destruct (Startup.configure env (c :: key)) as [[]|e] eqn:Hc;
      cbn [fst snd app]; (split; [reflexivity|]); split.
    + intro k. split.
      * intros [H|[H|[H|[]]]]; try discriminate.
        injection H as <-. split; [reflexivity | discriminate].
      * intros [[= <-] _]. right. now left.
    + split.
      * intros [m [H|[H|[H|[]]]]]; discriminate.
      * intro H. exfalso. apply H. exists (c :: key).
        split; [reflexivity|]. split; [discriminate | exact Hc].
    + intro k. split.
      * intros [H|[H|[H|[]]]]; try discriminate.
        injection H as <-. split; [reflexivity | discriminate].
      * intros [[= <-] _]. right. now left.
    + split.
      * intros _ [k [[= <-] [_ H]]]. congruence.
      * intros _. eexists. right. right. left. reflexivity.
  - cbn [fst snd app]. split; [reflexivity|]. split.
    + intro k. split.
      * intros [H|[H|[]]]; discriminate.
      * intros [H _]. discriminate.
    + split.
      * intros _ [k [H _]]. discriminate.
      * intros _. eexists. right. left. reflexivity.
Qed.

(** ** The routes *)

Lemma skipn_prefix (p t : pystr) : skipn (length p) (p ++ t) = t.
Proof. induction p as [|a p IH]; [reflexivity | exact IH]. Qed.

(** X20. The resolver of the project leads to the view for one path,
    [/api/analyze-resume/] with its final slash, whatever the patterns of
    the admin site are; every other path leads to a page of the admin site
    under [/admin/] or to nothing. *)
Theorem only_one_path_reaches_the_view
  (admin_site_urls : pystr -> option pystr) (path : pystr) :
  (Urls.resolve admin_site_urls path = Some Urls.AnalyzeResumeView_as_view
   <-> path = str "/api/analyze-resume/")
  /\ (forall v, Urls.resolve admin_site_urls path = Some v ->
                v = Urls.AnalyzeResumeView_as_view
                \/ exists rest page,
                     path = str "/admin/" ++ rest
                     /\ admin_site_urls rest = Some page
                     /\ v = Urls.AdminView page).
Proof.
  assert (Hall : forall v, Urls.resolve admin_site_urls path = Some v ->
                 (v = Urls.AnalyzeResumeView_as_view
                  /\ path = str "/api/analyze-resume/")
                 \/ exists rest page,
                      path = str "/admin/" ++ rest
                      /\ admin_site_urls rest = Some page
                      /\ v = Urls.AdminView page).
  { intro v. unfold Urls.resolve, Urls.core_urlpatterns, Urls.analyzer_urlpatterns.
    cbn [Urls.resolve_pattern].
    destruct (startswith path (str "/")) eqn:H1; [|discriminate].
    apply startswith_prefix in H1. destruct H1 as [p1 ->].
    rewrite skipn_prefix.
    destruct (startswith p1 (str "admin/")) eqn:H2.
    - apply startswith_prefix in H2. destruct H2 as [p2 ->].
      rewrite skipn_prefix.
      assert (Hapi : startswith (str "admin/" ++ p2) (str "api/") = false)
        by reflexivity.
      rewrite Hapi.
      destruct (admin_site_urls p2) as [page|] eqn:Hadmin; cbn [option_map];
        [|discriminate].
      intros [= <-]. right. exists p2, page. repeat split. exact Hadmin.
    - destruct (startswith p1 (str "api/")) eqn:H3; [|discriminate].
      apply startswith_prefix in H3. destruct H3 as [p3 ->].
      rewrite skipn_prefix.
      destruct (PyStr.eqb p3 (str "analyze-resume/")) eqn:H4; [|discriminate].
      apply eqb_eq in H4. subst p3. intros [= <-]. left. now split. }
  split; [split|].
  - intro H. destruct (Hall _ H) as [[_ Hp]|[rest [page [_ [_ Hv]]]]];
      [exact Hp | discriminate].
  - intros ->. reflexivity.
  - intros v H. destruct (Hall v H) as [[Hv _]|Hadmin]; [now left | now right].
Qed.

Section FailedExtraction.

Context {E : External}.

(** X3. A file the extractor cannot take a text from is the fault of the
    request, not of the server: when the extension is neither [.pdf] nor
    [.docx], or when reading or parsing the file raises, [post] answers
    400 with the extraction message and the model is not called. *)
Theorem failed_extraction_is_client_error (request : Request) (f : UploadedFile) :
  FILES_resume_file request = Some f ->
  file_truthy f = true ->
  (extension f <> str ".pdf" /\ extension f <> str ".docx")
  \/ parsing_raises f ->
  result (_extract_text_from_resume f) = Return None
  /\ result (post request)
     = Return {| success := false;
                 message := str "Could not extract text from resume file. Please ensure it's a valid PDF or DOCX and not scanned image.";
                 report_of := None;
                 status := HTTP_400_BAD_REQUEST |}
  /\ calls is_model_call (trace (post request)) = 0%nat.
Proof.
  intros Hf Ht Hwhy.
  assert (Hr : result (_extract_text_from_resume f) = Return None).
  { destruct Hwhy as [[Hpdf Hdocx]|Hraise].
    - rewrite (unsupported_run f Hpdf Hdocx). now destruct (read f).
    - rewrite extract_run.
      destruct Hraise as [[e ->]|[content [-> Hparse]]]; [reflexivity|].
      destruct Hparse as [[-> Hpdf]|[-> [e ->]]]; [|reflexivity].
      change (PyStr.eqb (str ".pdf") (str ".pdf")) with true. cbv iota.
      destruct Hpdf as [[e ->]|[pages [e [-> Hin]]]]; [reflexivity|].
      destruct (pdf_pages_raises pages e Hin 0%nat []) as [e' He'].
      unfold result in He'.
      destruct (pdf_pages 0 pages []) as [tr o]. cbn [snd] in He'. subst o.
      reflexivity. }
  split; [exact Hr|].
  destruct (post_without_text request f None Hf Ht Hr eq_refl) as [Hp Hev].
  split; [exact Hp|].
  apply calls_none. intros ev Hin. rewrite Forall_forall in Hev.
  specialize (Hev ev Hin). now destruct ev.
Qed.

End FailedExtraction.

(** ** Sample runs of the further properties *)

(** A request without a file. *)
Lemma missing_file_is_client_error_witness :
  FILES_resume_file Cases.no_file = None
  /\ post (E := Sample.libs) Cases.no_file
     = ([Log INFO (str "Received POST request for resume analysis.");
         Log WARNING (str "No resume file provided in the request.")],
        Return (no_file_response (E := Sample.libs))).
Proof.
  split; [reflexivity|].
  apply (missing_file_is_client_error (E := Sample.libs) Cases.no_file).
  now left.
Defined.

(** The model answers with an error of quota. *)
Lemma model_failure_is_server_error_witness :
  result (_extract_text_from_resume (E := Cases.model_down)
            (Sample.file "cv.docx"))
  = Return (Some (str "Jane Doe" ++ newline ++ newline ++ str "Engineer"))
  /\ result (post (E := Cases.model_down) (Sample.request "cv.docx"))
     = Return (error_response (E := Cases.model_down) Cases.quota)
  /\ calls is_model_call
       (trace (post (E := Cases.model_down) (Sample.request "cv.docx")))
     = 1%nat
  /\ calls is_json_loads
       (trace (post (E := Cases.model_down) (Sample.request "cv.docx")))
     = 0%nat.
Proof.
  assert (H : result (_extract_text_from_resume (E := Cases.model_down)
                        (Sample.file "cv.docx"))
              = Return (Some (str "Jane Doe" ++ newline ++ newline
                              ++ str "Engineer")))
    by (vm_compute; reflexivity).
  split; [exact H|].
  apply (model_failure_is_server_error (E := Cases.model_down)
           (Sample.request "cv.docx") (Sample.file "cv.docx") _ Cases.quota
           eq_refl eq_refl H);
    [discriminate | reflexivity].
Defined.


(** A [.docx] file with an empty paragraph and a paragraph of one space. *)
Lemma blank_document_is_client_error_witness :
  Forall blank [[]; str " "]
  /\ extension (Sample.file "cv.docx") = str ".docx"
  /\ result (_extract_text_from_resume (E := Cases.hollow)
               (Sample.file "cv.docx"))
     = Return (Some [])
  /\ result (post (E := Cases.hollow) (Sample.request "cv.docx"))
     = Return (no_text_response (E := Cases.hollow))
  /\ calls is_model_call
       (trace (post (E := Cases.hollow) (Sample.request "cv.docx")))
     = 0%nat.
Proof.
  assert (Hb : Forall blank [[]; str " "]) by (repeat constructor).
  assert (Hext : extension (Sample.file "cv.docx") = str ".docx")
    by (vm_compute; reflexivity).
  split; [exact Hb|]. split; [exact Hext|].
  apply (blank_document_is_client_error (E := Cases.hollow)
           (Sample.request "cv.docx") (Sample.file "cv.docx") []
           [[]; str " "] eq_refl eq_refl eq_refl Hb).
  left. split; [exact Hext | reflexivity].
Defined.

(** The text of the sample [.docx] file. *)
Lemma extracted_text_is_stripped_witness :
  let text := str "Jane Doe" ++ newline ++ newline ++ str "Engineer" in
  result (_extract_text_from_resume (E := Sample.libs) (Sample.file "cv.docx"))
  = Return (Some text)
  /\ strip text = text
  /\ (forall c t, text = c :: t -> isspace c = false)
  /\ (forall t c, text = t ++ [c] -> isspace c = false).
Proof.
  intro text.
  assert (H : result (_extract_text_from_resume (E := Sample.libs)
                        (Sample.file "cv.docx"))
              = Return (Some text)) by (vm_compute; reflexivity).
  split; [exact H|].
  exact (extracted_text_is_stripped (E := Sample.libs) (Sample.file "cv.docx")
           text H).
Defined.

(** A document whose second page of three cannot be read: the third page
    is not asked for its text. *)
Lemma failing_page_stops_extraction_witness :
  extension (Sample.file "cv.pdf") = str ".pdf"
  /\ _extract_text_from_resume (E := Cases.torn) (Sample.file "cv.pdf")
     = ([FileRead; PdfOpen; PageExtract 0; PageExtract 1;
         Log ERROR (str "Error extracting text from cv.pdf (.pdf): Unexpected end of stream")],
        Return None).
Proof.
  assert (Hext : extension (Sample.file "cv.pdf") = str ".pdf")
    by (vm_compute; reflexivity).
  split; [exact Hext|].
  exact (failing_page_stops_extraction (E := Cases.torn) (Sample.file "cv.pdf")
           [] [str "Jane Doe"] Cases.bad_page [Return (str "Engineer")]
           Hext eq_refl eq_refl).
Defined.

(** The sample [.docx] file is opened by python-docx. *)
Lemma extension_selects_parser_witness :
  In DocxOpen
    (trace (_extract_text_from_resume (E := Sample.libs) (Sample.file "cv.docx")))
  /\ (exists content, read (Sample.file "cv.docx") = Return content)
  /\ extension (Sample.file "cv.docx") = str ".docx".
Proof.
  assert (H : In DocxOpen
                (trace (_extract_text_from_resume (E := Sample.libs)
                          (Sample.file "cv.docx"))))
    by (vm_compute; right; left; reflexivity).
  split; [exact H|].
  exact (extension_selects_parser (E := Sample.libs) (Sample.file "cv.docx")
           DocxOpen H I).
Defined.

(** A file named [.pdf]. *)
Lemma hidden_name_is_unsupported_witness :
  PosixPath.splitext (name (Sample.file ".pdf")) = (str ".pdf", [])
  /\ result (_extract_text_from_resume (E := Sample.libs) (Sample.file ".pdf"))
     = Return None
  /\ (forall ev,
         In ev (trace (_extract_text_from_resume (E := Sample.libs)
                         (Sample.file ".pdf"))) ->
         ~ parsing_event ev).
Proof.
  apply (hidden_name_is_unsupported (E := Sample.libs) (Sample.file ".pdf")
           [] [] (str "pdf") eq_refl (or_introl eq_refl) (Forall_nil _));
    apply no_char; reflexivity.
Defined.

(** A name with two dots and an extension in capitals. *)
Lemma extension_of_regular_name_witness :
  PosixPath.splitext (name (Sample.file "Resume.Final.PDF"))
  = (str "Resume.Final", str ".PDF")
  /\ ascii_text (str "PDF")
  /\ extension (Sample.file "Resume.Final.PDF") = str ".pdf".
Proof.
  assert (Ha : ascii_text (str "PDF")) by (repeat constructor).
  destruct (extension_of_regular_name (Sample.file "Resume.Final.PDF")
              [] (str "Resume.Final") (str "PDF") eq_refl (or_introl eq_refl))
    as [Hsplit [Hext _]].
  - apply no_char. reflexivity.
  - exists 82%N. split; [now left | discriminate].
  - apply no_char. reflexivity.
  - apply no_char. reflexivity.
  - split; [exact Hsplit|]. split; [exact Ha | exact (Hext Ha)].
Defined.

(** The fenced report with a sentence after the closing fence. *)
Lemma text_after_last_fence_is_dropped_witness :
  candidate Cases.fence_then_words
  = ([], Return Sample.report_text)
  /\ (startswith (newline ++ Sample.report_text ++ newline) (str "json") = false ->
      candidate
        ([] ++ fence ++ (newline ++ Sample.report_text ++ newline) ++ fence
         ++ str " I hope this helps.")
      = ([], Return Sample.report_text)).
Proof.
  apply (text_after_last_fence_is_dropped []
           (newline ++ Sample.report_text ++ newline)
           (str " I hope this helps.")).
  - constructor.
  - discriminate.
  - apply no_char. reflexivity.
Defined.

(** The fenced report after a few words: the reference decoder is given
    the whole answer and rejects it. *)
Lemma text_before_fence_defeats_unwrapping_witness :
  strip Cases.words_then_fence = 72%N :: tl (strip Cases.words_then_fence)
  /\ candidate Cases.words_then_fence
     = ([], Return Cases.words_then_fence)
  /\ exists e,
       result (sanitize (E := Sample.libs) Cases.words_then_fence) = Raise e.
Proof.
  assert (H : strip Cases.words_then_fence
              = 72%N :: tl (strip Cases.words_then_fence))
    by (vm_compute; reflexivity).
  split; [exact H|].
  assert (Hc : 72%N <> 96%N) by discriminate.
  destruct (text_before_fence_defeats_unwrapping (E := Sample.libs)
              Cases.words_then_fence 72%N _ H Hc) as [Hcand Hraise].
  split; [exact Hcand|].
  exact (Hraise (reference_contract _ _ _) eq_refl).
Defined.

(** An opening marker with the closing fence right after it, and a
    newline. *)
Lemma empty_block_gives_empty_candidate_witness :
  candidate ([] ++ fence_json ++ [] ++ fence ++ newline)
  = ([Log WARNING (str "JSON markdown block started but not properly closed. Attempting to parse full text.")],
     Return [])
  /\ candidate ([] ++ fence ++ [] ++ fence ++ newline)
     = ([Log WARNING (str "Generic markdown block started but not properly closed. Attempting to parse full text.")],
        Return []).
Proof.
  apply (empty_block_gives_empty_candidate [] [] newline);
    repeat constructor.
Defined.

(** A decoder that gives up on the depth of the text. *)
Lemma other_decoder_errors_pass_through_witness :
  result (sanitize (E := Cases.too_deep) Sample.fenced_answer)
  = Raise (PyException (str "maximum recursion depth exceeded"))
  /\ trace (sanitize (E := Cases.too_deep) Sample.fenced_answer)
     = trace (candidate Sample.fenced_answer)
       ++ [JsonLoads (candidate_text (E := Cases.too_deep) Sample.fenced_answer)].
Proof.
  exact (other_decoder_errors_pass_through (E := Cases.too_deep)
           Sample.fenced_answer (str "maximum recursion depth exceeded")
           eq_refl).
Defined.

(** The model answers with a text of 607 characters that is not JSON. *)
Lemma decode_failure_is_server_error_witness :
  let detail := str "Expecting value: line 1 column 1 (char 0)" in
  let msg :=
    str "An error occurred during analysis: "
    ++ (str "AI response format error: Could not parse AI response as JSON. Details: "
        ++ detail ++ str ". Raw response start: "
        ++ firstn 500 (candidate_text (E := Cases.refusing) Sample.refusal)
        ++ str "...")
    ++ str ". Check server logs for details." in
  @json_loads Cases.refusing
    (candidate_text (E := Cases.refusing) Sample.refusal)
  = Raise (JSONDecodeError detail)
  /\ result (post (E := Cases.refusing) (Sample.request "cv.docx"))
     = Return {| success := false;
                 message := msg;
                 report_of := None;
                 status := HTTP_500_INTERNAL_SERVER_ERROR |}
  /\ (length msg <= 664 + length detail)%nat.
Proof.
  intros detail msg.
  assert (H1 : @json_loads Cases.refusing
                 (candidate_text (E := Cases.refusing) Sample.refusal)
               = Raise (JSONDecodeError detail)) by (vm_compute; reflexivity).
  assert (H2 : result (_extract_text_from_resume (E := Cases.refusing)
                         (Sample.file "cv.docx"))
               = Return (Some (str "Jane Doe" ++ newline ++ newline
                               ++ str "Engineer")))
    by (vm_compute; reflexivity).
  split; [exact H1|].
  apply (decode_failure_is_server_error (E := Cases.refusing)
           (Sample.request "cv.docx") (Sample.file "cv.docx") _ Sample.refusal
           detail eq_refl eq_refl H2);
    [discriminate | reflexivity | exact H1].
Defined.

(** A [.pdf] file that PyPDF2 does not open. *)
Lemma failed_extraction_is_client_error_witness :
  parsing_raises (E := Sample.broken) (Sample.file "cv.pdf")
  /\ result (_extract_text_from_resume (E := Sample.broken)
               (Sample.file "cv.pdf"))
     = Return None
  /\ result (post (E := Sample.broken) (Sample.request "cv.pdf"))
     = Return (no_text_response (E := Sample.broken))
  /\ calls is_model_call
       (trace (post (E := Sample.broken) (Sample.request "cv.pdf")))
     = 0%nat.
Proof.
  assert (H : parsing_raises (E := Sample.broken) (Sample.file "cv.pdf")).
  { right. exists []. split; [reflexivity|]. left.
    split; [vm_compute; reflexivity|]. left. eexists. reflexivity. }
  split; [exact H|].
  apply (failed_extraction_is_client_error (E := Sample.broken)
           (Sample.request "cv.pdf") (Sample.file "cv.pdf") eq_refl eq_refl).
  now right.
Defined.
